(** * Financial Clarity: report normalisation and metrics derivation

    A shallow embedding of the TypeScript sources
      - [lib/quickbooks.ts]   (QuickBooksClient),
      - [lib/xero.ts]         (XeroClient),
      - [lib/openai.ts]       (InsightsGenerator),
      - [app/api/insights/generate/route.ts] (POST),
      - [app/api/quickbooks/callback/route.ts], [app/api/xero/callback/route.ts]
        and the two [connect] routes (GET),
    followed by the properties stated about them.

    Modelling conventions.
      - A JavaScript [number] is a value of [number]: [NaN], the two
        infinities, or a finite value carried as an exact rational.  Finite
        arithmetic is exact (no binary64 rounding, no overflow, no signed
        zero); the special values follow IEEE 754 as JavaScript does, and
        a literal beyond the binary64 range reads as an infinity or zero.
      - Values that come out of [response.json()] and [request.json()] have
        static type [any]; they are modelled by [jsval], and every property
        access, optional chain, truthiness test and [for ... of] is written
        out with the behaviour JavaScript gives it on every shape of value.
      - Where the generator and the callbacks coerce a value that a request
        or a token answer holds, the coercion throws where JavaScript
        throws: a value parsed from JSON holds no function, so an object
        with an own [toString] cannot be converted to a number or a string
        ([convertible], [localisable]).
      - A string is the sequence of the bytes of its UTF-8 encoding.
      - A [throw] and a rejected promise are the [Rejected] case of [Settled].
        A promise carries the tick at which it settles, which is what
        [Promise.all] goes by when more than one of its members fails.
      - External collaborators ([fetch], the OpenAI client, Supabase, the
        locale-dependent number formatting) are parameters. *)

From Stdlib Require Import ZArith QArith Qround Qreduction.
From Stdlib Require Import String Ascii DecimalString List Bool Lia.
Import ListNotations.

Set Warnings "-register-all".


Local Open Scope string_scope.
Local Open Scope Z_scope.

(* ================================================================== *)
(** ** JavaScript numbers *)

Inductive number : Type :=
| NaN
| PosInf
| NegInf
| Fin (q : Q).

(** Finite results are kept in lowest terms, so that equal finite numbers
    are equal terms. *)
Definition fin (q : Q) : number := Fin (Qred q).

Definition num_of_Z (z : Z) : number := Fin (inject_Z z).

Definition Qpositive (q : Q) : bool := (0 <? Qnum q).
Definition Qnegative (q : Q) : bool := (Qnum q <? 0).
Definition Qzero (q : Q) : bool := (Qnum q =? 0).


(** [a + b] *)
Definition nadd (a b : number) : number :=
  match a, b with
  | NaN, _ | _, NaN => NaN
  | PosInf, NegInf | NegInf, PosInf => NaN
  | PosInf, _ | _, PosInf => PosInf
  | NegInf, _ | _, NegInf => NegInf
  | Fin x, Fin y => fin (Qplus x y)
  end.

(** [a - b] *)
Definition nsub (a b : number) : number :=
  match a, b with
  | NaN, _ | _, NaN => NaN
  | PosInf, PosInf | NegInf, NegInf => NaN
  | PosInf, _ | _, NegInf => PosInf
  | NegInf, _ | _, PosInf => NegInf
  | Fin x, Fin y => fin (Qminus x y)
  end.

Definition signed_inf (negative : bool) : number :=
  if negative then NegInf else PosInf.

(** [a * b] *)
Definition nmul (a b : number) : number :=
  match a, b with
  | NaN, _ | _, NaN => NaN
  | Fin x, Fin y => fin (Qmult x y)
  | Fin x, PosInf | PosInf, Fin x =>
      if Qzero x then NaN else signed_inf (Qnegative x)
  | Fin x, NegInf | NegInf, Fin x =>
      if Qzero x then NaN else signed_inf (Qpositive x)
  | PosInf, PosInf | NegInf, NegInf => PosInf
  | PosInf, NegInf | NegInf, PosInf => NegInf
  end.

(** [a / b]; a finite zero divisor is the positive zero. *)
Definition ndiv (a b : number) : number :=
  match a, b with
  | NaN, _ | _, NaN => NaN
  | Fin x, Fin y =>
      if Qzero y then
        (if Qzero x then NaN else signed_inf (Qnegative x))
      else fin (Qdiv x y)
  | Fin _, PosInf | Fin _, NegInf => Fin 0
  | PosInf, Fin y => signed_inf (Qnegative y)
  | NegInf, Fin y => signed_inf (negb (Qnegative y))
  | _, _ => NaN
  end.

(** [Math.floor(a)] *)
Definition nfloor (a : number) : number :=
  match a with
  | Fin q => num_of_Z (Qfloor q)
  | other => other
  end.

(** [a > b]: false as soon as one side is [NaN]. *)
Definition ngt (a b : number) : bool :=
  match a, b with
  | NaN, _ | _, NaN => false
  | PosInf, PosInf => false
  | PosInf, _ => true
  | _, PosInf => false
  | NegInf, _ => false
  | Fin _, NegInf => true
  | Fin x, Fin y => negb (Qle_bool x y)
  end.


Definition nle (a b : number) : bool :=
  match a, b with
  | NaN, _ | _, NaN => false
  | _, _ => negb (ngt a b)
  end.

(** [a === b] on numbers *)
Definition neqb (a b : number) : bool :=
  match a, b with
  | PosInf, PosInf | NegInf, NegInf => true
  | Fin x, Fin y => Qeq_bool x y
  | _, _ => false
  end.


Definition zero : number := Fin 0.

(* ================================================================== *)
(** ** JavaScript values of static type [any] *)

Inductive jsval : Type :=
| JUndefined
| JNull
| JBool (b : bool)
| JNum (n : number)
| JStr (s : string)
| JArr (elems : list jsval)
| JObj (props : list (string * jsval)).

(** Own property [k] of a parsed JSON object; absent keys read [undefined]. *)
Fixpoint lookup (props : list (string * jsval)) (k : string) : jsval :=
  match props with
  | [] => JUndefined
  | (k', v) :: rest => if String.eqb k' k then v else lookup rest k
  end.

Definition nullish (v : jsval) : bool :=
  match v with
  | JUndefined | JNull => true
  | _ => false
  end.

(** [!!v] *)
Definition truthy (v : jsval) : bool :=
  match v with
  | JUndefined | JNull => false
  | JBool b => b
  | JNum NaN => false
  | JNum (Fin q) => negb (Qzero q)
  | JNum _ => true
  | JStr s => negb (String.eqb s EmptyString)
  | JArr _ | JObj _ => true
  end.

Definition char_string (c : ascii) : jsval := JStr (String c EmptyString).

(** The decimal spelling of an array index, as a property key. *)
Definition index_key (i : nat) : string :=
  NilEmpty.string_of_uint (Nat.to_uint i).

(** [v.k] for a value [v] that is neither [null] nor [undefined].  The
    keys the sources read are data keys and [length]; none is a method of a
    built-in prototype, so a primitive, an array or a string answers
    [undefined] for every key but [length]. *)
Definition prop (v : jsval) (k : string) : jsval :=
  match v with
  | JObj props => lookup props k
  | JArr l => if String.eqb k "length" then JNum (num_of_Z (Z.of_nat (List.length l)))
              else JUndefined
  | JStr s => if String.eqb k "length" then JNum (num_of_Z (Z.of_nat (String.length s)))
              else JUndefined
  | _ => JUndefined
  end.

(** [v[i]] for a value [v] that is neither [null] nor [undefined]. *)
Definition elem (v : jsval) (i : nat) : jsval :=
  match v with
  | JArr l => nth i l JUndefined
  | JStr s => match String.get i s with
              | Some c => char_string c
              | None => JUndefined
              end
  | JObj props => lookup props (index_key i)
  | _ => JUndefined
  end.

(** [a === s] against a string [s] *)
Definition strict_eq_string (a : jsval) (s : string) : bool :=
  match a with
  | JStr t => String.eqb t s
  | _ => false
  end.

(** [a || b] *)
Definition js_or (a b : jsval) : jsval := if truthy a then a else b.

(* ------------------------------------------------------------------ *)
(** *** Errors and settled computations *)

Record Error : Type := mkError { errName : string; errMessage : string }.

Definition TypeError (msg : string) : Error := mkError "TypeError" msg.
Definition PlainError (msg : string) : Error := mkError "Error" msg.

(** The outcome of a statement sequence that may throw, and of an awaited
    promise. *)
Inductive Settled (A : Type) : Type :=
| Fulfilled (a : A)
| Rejected (e : Error).
Arguments Fulfilled {A} a.
Arguments Rejected {A} e.

Definition bind {A B} (m : Settled A) (k : A -> Settled B) : Settled B :=
  match m with
  | Fulfilled a => k a
  | Rejected e => Rejected e
  end.

Notation "x <- m ;; k" := (bind m (fun x => k))
  (at level 61, m at next level, right associativity).

Definition is_fulfilled {A} (m : Settled A) : bool :=
  match m with Fulfilled _ => true | Rejected _ => false end.

(** [try { body } catch (error) { return fallback }] *)
Definition try_catch {A} (body : Settled A) (fallback : A) : A :=
  match body with
  | Fulfilled a => a
  | Rejected _ => fallback
  end.

(** [v.k]: a [TypeError] on [null] and [undefined]. *)
Definition get (v : jsval) (k : string) : Settled jsval :=
  if nullish v
  then Rejected (TypeError ("Cannot read properties of null or undefined, reading " ++ k))
  else Fulfilled (prop v k).

(** [v?.k] *)
Definition get_opt (v : jsval) (k : string) : jsval :=
  if nullish v then JUndefined else prop v k.

(** [v[i]] *)
Definition get_index (v : jsval) (i : nat) : Settled jsval :=
  if nullish v
  then Rejected (TypeError ("Cannot read properties of null or undefined, reading "
                            ++ index_key i))
  else Fulfilled (elem v i).

(** [v?.[i]] *)
Definition get_index_opt (v : jsval) (i : nat) : jsval :=
  if nullish v then JUndefined else elem v i.

Fixpoint chars (s : string) : list jsval :=
  match s with
  | EmptyString => []
  | String c rest => char_string c :: chars rest
  end.

(** The sequence [for (const x of v)] walks: the elements of an array, the
    characters of a string, and a [TypeError] for everything else. *)
Definition iterate (v : jsval) : Settled (list jsval) :=
  match v with
  | JArr l => Fulfilled l
  | JStr s => Fulfilled (chars s)
  | _ => Rejected (TypeError "value is not iterable")
  end.

(* ------------------------------------------------------------------ *)
(** *** [parseFloat] and the numeric coercion *)

(** White space of one byte: TAB, LF, VT, FF, CR and SP. *)
Definition isStrWhiteSpaceChar (c : ascii) : bool :=
  let n := nat_of_ascii c in
  ((9 <=? n) && (n <=? 13) || (n =? 32))%nat.

(** White space of two bytes: the no-break space, U+00A0. *)
Definition isWhiteSpace2 (c d : ascii) : bool :=
  ((nat_of_ascii c =? 194) && (nat_of_ascii d =? 160))%nat.

(** White space of three bytes: U+1680, U+2000 to U+200A, the line and
    paragraph separators U+2028 and U+2029, U+202F, U+205F, U+3000 and the
    byte-order mark U+FEFF. *)
Definition isWhiteSpace3 (c d e : ascii) : bool :=
  let n := nat_of_ascii c in
  let m := nat_of_ascii d in
  let k := nat_of_ascii e in
  ((n =? 225) && (m =? 154) && (k =? 128)
   || (n =? 226) && (m =? 128)
      && ((128 <=? k) && (k <=? 138) || (k =? 168) || (k =? 169) || (k =? 175))
   || (n =? 226) && (m =? 129) && (k =? 159)
   || (n =? 227) && (m =? 128) && (k =? 128)
   || (n =? 239) && (m =? 187) && (k =? 191))%nat.

(** [s] without the white space at its head. *)
Fixpoint skipWhiteSpace (s : string) : string :=
  match s with
  | String c rest =>
      if isStrWhiteSpaceChar c then skipWhiteSpace rest
      else
        match rest with
        | String d rest2 =>
            if isWhiteSpace2 c d then skipWhiteSpace rest2
            else
              match rest2 with
              | String e rest3 =>
                  if isWhiteSpace3 c d e then skipWhiteSpace rest3 else s
              | EmptyString => s
              end
        | EmptyString => s
        end
  | EmptyString => s
  end.

Definition onlyWhiteSpace (s : string) : bool :=
  match skipWhiteSpace s with
  | EmptyString => true
  | _ => false
  end.

(** The value of a digit in the given radix. *)
Definition digitValue (radix : nat) (c : ascii) : option Z :=
  let n := nat_of_ascii c in
  let d :=
    if ((48 <=? n) && (n <=? 57))%nat then Some (n - 48)%nat
    else if ((97 <=? n) && (n <=? 102))%nat then Some (n - 87)%nat
    else if ((65 <=? n) && (n <=? 70))%nat then Some (n - 55)%nat
    else None in
  match d with
  | Some k => if (k <? radix)%nat then Some (Z.of_nat k) else None
  | None => None
  end.

(** The longest run of digits at the head of [s]: its value, its length
    and what follows it. *)
Fixpoint scanDigits (radix : nat) (s : string) (acc : Z) (count : nat)
  : Z * nat * string :=
  match s with
  | String c rest =>
      match digitValue radix c with
      | Some d => scanDigits radix rest (acc * Z.of_nat radix + d) (S count)
      | None => (acc, count, s)
      end
  | EmptyString => (acc, count, s)
  end.

Definition scanSign (s : string) : bool * string :=
  match s with
  | String "-"%char rest => (true, rest)
  | String "+"%char rest => (false, rest)
  | _ => (false, s)
  end.

(** An exponent part is read only when at least one digit follows it. *)
Definition scanExponent (s : string) : Z * string :=
  match s with
  | String c rest =>
      if (Ascii.eqb c "e" || Ascii.eqb c "E")%char then
        let '(negative, digits) := scanSign rest in
        let '(e, count, after) := scanDigits 10 digits 0 0 in
        match count with
        | O => (0, s)
        | S _ => (if negative then - e else e, after)
        end
      else (0, s)
  | EmptyString => (0, s)
  end.

(** The number a literal of magnitude [magnitude] reads as.  A magnitude
    that rounds beyond the largest binary64 number reads as an infinity,
    one that rounds below the smallest as zero; between the two the exact
    value is kept, where binary64 rounds it. *)
Definition literalValue (negative : bool) (magnitude : Q) : number :=
  if Qle_bool (inject_Z (2 ^ 1024 - 2 ^ 970)) magnitude then signed_inf negative
  else if Qle_bool magnitude (Qmake 1 (2 ^ 1075)) then zero
  else fin (if negative then Qopp magnitude else magnitude).

(** The longest prefix of [s] that is a signed decimal literal
    ([Infinity], [12], [12.], [12.5], [.5], each with an optional exponent),
    with the rest of the string; [None] when no prefix is one. *)
Definition scanDecimalLiteral (s : string) : option (number * string) :=
  let '(negative, body) := scanSign s in
  if String.prefix "Infinity" body then
    Some (signed_inf negative, String.substring 8 (String.length body - 8) body)
  else
    let '(ip, ni, afterInt) := scanDigits 10 body 0 0 in
    let '(fp, nf, afterFrac) :=
      match afterInt with
      | String "."%char rest => scanDigits 10 rest 0 0
      | _ => (0, O, afterInt)
      end in
    match (ni + nf)%nat with
    | O => None
    | S _ =>
        let scale := 10 ^ Z.of_nat nf in
        let mantissa := Qmake (ip * scale + fp) (Z.to_pos scale) in
        let '(e, rest) := scanExponent afterFrac in
        let magnitude := Qmult mantissa (Qpower (inject_Z 10) e) in
        Some (literalValue negative magnitude, rest)
    end.

(** [parseFloat(s)] on a string *)
Definition parseFloatString (s : string) : number :=
  match scanDecimalLiteral (skipWhiteSpace s) with
  | Some (n, _) => n
  | None => NaN
  end.

(** [parseFloat(v)]: the argument is first converted to a string.  A
    number prints to a literal that reads back as itself; [undefined],
    [null], a boolean and a plain object print to text that starts no
    literal; an array prints its elements joined by commas, so what is
    parsed is the head of its first element. *)
Fixpoint parseFloat (v : jsval) : number :=
  match v with
  | JNum n => n
  | JStr s => parseFloatString s
  | JArr (x :: _) => parseFloat x
  | _ => NaN
  end.

Definition scanRadixLiteral (radix : nat) (digits : string) : number :=
  let '(v, count, rest) := scanDigits radix digits 0 0 in
  match count with
  | O => NaN
  | S _ => if onlyWhiteSpace rest then num_of_Z v else NaN
  end.

(** [Number(s)] on a string: the whole string, white space at both ends
    apart, has to be one numeric literal; the empty string is [0]. *)
Definition StringToNumber (s : string) : number :=
  match skipWhiteSpace s with
  | EmptyString => zero
  | String "0"%char (String c digits) as t =>
      if (Ascii.eqb c "x" || Ascii.eqb c "X")%char then scanRadixLiteral 16 digits
      else if (Ascii.eqb c "o" || Ascii.eqb c "O")%char then scanRadixLiteral 8 digits
      else if (Ascii.eqb c "b" || Ascii.eqb c "B")%char then scanRadixLiteral 2 digits
      else match scanDecimalLiteral t with
           | Some (n, rest) => if onlyWhiteSpace rest then n else NaN
           | None => NaN
           end
  | t =>
      match scanDecimalLiteral t with
      | Some (n, rest) => if onlyWhiteSpace rest then n else NaN
      | None => NaN
      end
  end.

(** The number an arithmetic operator coerces an operand to, when the
    conversion of the operand to a primitive returns ([convertible] below
    says when it does). *)
Fixpoint ToNumber (v : jsval) : number :=
  match v with
  | JUndefined => NaN
  | JNull => zero
  | JBool b => if b then num_of_Z 1 else zero
  | JNum n => n
  | JStr s => StringToNumber s
  | JObj _ => NaN
  | JArr [] => zero
  | JArr [x] =>
      match x with
      | JUndefined | JNull => zero
      | JBool _ | JObj _ => NaN
      | _ => ToNumber x
      end
  | JArr _ => NaN
  end.

(** Whether an object has an own property [k]. *)
Fixpoint hasOwn (props : list (string * jsval)) (k : string) : bool :=
  match props with
  | [] => false
  | (k', _) :: rest => String.eqb k' k || hasOwn rest k
  end.

(** Whether the conversion of [v] to a primitive returns.  A value parsed
    from JSON holds no function.  An own [toString] of an object therefore
    hides [Object.prototype.toString] with something that cannot be called,
    an own [valueOf] cannot be called either and the inherited one returns
    the object itself: the conversion then throws a [TypeError].  Without
    an own [toString] the object prints as [[object Object]].  An array
    joins its elements, each converted in turn. *)
Fixpoint convertible (v : jsval) : bool :=
  match v with
  | JObj props => negb (hasOwn props "toString")
  | JArr elems => forallb convertible elems
  | _ => true
  end.

Definition conversionError : Error :=
  TypeError "Cannot convert object to primitive value".

(** An operand of an arithmetic operator, coerced. *)
Definition toNumber (v : jsval) : Settled number :=
  if convertible v then Fulfilled (ToNumber v) else Rejected conversionError.

(** Whether [v.toLocaleString()] returns.  [null] and [undefined] have no
    property to read; an own [toLocaleString] of an object parsed from JSON
    cannot be called; the inherited one calls [toString], which an own
    [toString] hides; an array calls the method of each element that is
    neither [null] nor [undefined]. *)
Fixpoint localisable (v : jsval) : bool :=
  match v with
  | JUndefined | JNull => false
  | JObj props => negb (hasOwn props "toLocaleString") && negb (hasOwn props "toString")
  | JArr elems => forallb (fun x => nullish x || localisable x) elems
  | _ => true
  end.

(* ================================================================== *)
(** ** Promises *)

(** A promise that has settled: the tick at which it did, and how. *)
Record Timed (A : Type) : Type := mkTimed { settledAt : nat; outcome : Settled A }.
Arguments mkTimed {A} settledAt outcome.
Arguments settledAt {A} t.
Arguments outcome {A} t.

(** The continuation of an [await]: it runs when the promise is fulfilled. *)
Definition andThen {A B} (p : Timed A) (k : A -> Settled B) : Timed B :=
  mkTimed (settledAt p) (bind (outcome p) k).

(** The rejection that reaches [Promise.all] first: the one that settles
    at the earliest tick, the earlier position winning a tie. *)
Fixpoint firstRejection {A} (ps : list (Timed A)) : option (nat * Error) :=
  match ps with
  | [] => None
  | p :: rest =>
      match outcome p, firstRejection rest with
      | Rejected e, Some (t, e') =>
          if (settledAt p <=? t)%nat then Some (settledAt p, e) else Some (t, e')
      | Rejected e, None => Some (settledAt p, e)
      | Fulfilled _, later => later
      end
  end.

Fixpoint fulfilledValues {A} (ps : list (Timed A)) : list A :=
  match ps with
  | [] => []
  | p :: rest =>
      match outcome p with
      | Fulfilled a => a :: fulfilledValues rest
      | Rejected _ => fulfilledValues rest
      end
  end.

Definition lastTick {A} (ps : list (Timed A)) : nat :=
  fold_right (fun p t => Nat.max (settledAt p) t) O ps.

(** [Promise.all(ps)]: rejected with the first rejection, otherwise
    fulfilled with every value, in the order of [ps]. *)
Definition promiseAll {A} (ps : list (Timed A)) : Timed (list A) :=
  match firstRejection ps with
  | Some (t, e) => mkTimed t (Rejected e)
  | None => mkTimed (lastTick ps) (Fulfilled (fulfilledValues ps))
  end.

(* ================================================================== *)
(** ** The accounting providers *)

(** What [fetch] is called with. *)
Record FetchRequest : Type := mkRequest {
  url : string;
  query : list (string * string);
  headers : list (string * string) }.

(** What [fetch] answers with: [response.ok], [response.statusText] and
    the promise [response.json()] returns. *)
Record HttpResponse : Type := mkHttpResponse {
  ok : bool;
  statusText : string;
  json : Timed jsval }.

(** The record both clients return from [getFinancialData]. *)
Record FinancialData : Type := mkFinancialData {
  cashBalance : number;
  monthlyRevenue : number;
  monthlyExpenses : number;
  profitLoss : jsval;
  balanceSheet : jsval }.

(** The four dates [getFinancialData] derives from [new Date()], each
    already through [formatDate]. *)
Record Dates : Type := mkDates {
  today : string;
  startOfMonth : string;
  startOfLastMonth : string;
  endOfLastMonth : string }.

(** An [async] method that awaits [fetch], throws on a response that is
    not [ok] and returns [response.json()]. *)
Definition fetchJson (fetch : FetchRequest -> Timed HttpResponse)
    (request : FetchRequest) (failure : string) : Timed jsval :=
  let pending := fetch request in
  match outcome pending with
  | Rejected e => mkTimed (settledAt pending) (Rejected e)
  | Fulfilled response =>
      if negb (ok response)
      then mkTimed (settledAt pending)
                   (Rejected (PlainError (failure ++ statusText response)))
      else json response
  end.

Module QuickBooks.
Section Client.

Variable fetch : FetchRequest -> Timed HttpResponse.
(** [this.baseUrl], the sandbox or the production host. *)
Variable baseUrl : string.
Variable dates : Dates.

Definition getProfitAndLoss (accessToken realmId startDate endDate : string)
  : Timed jsval :=
  fetchJson fetch
    (mkRequest (baseUrl ++ "/v3/company/" ++ realmId ++ "/reports/ProfitAndLoss")
               [("start_date", startDate); ("end_date", endDate)]
               [("Authorization", "Bearer " ++ accessToken);
                ("Accept", "application/json")])
    "Failed to fetch P&L: ".

Definition getBalanceSheet (accessToken realmId asOfDate : string) : Timed jsval :=
  fetchJson fetch
    (mkRequest (baseUrl ++ "/v3/company/" ++ realmId ++ "/reports/BalanceSheet")
               [("date", asOfDate)]
               [("Authorization", "Bearer " ++ accessToken);
                ("Accept", "application/json")])
    "Failed to fetch balance sheet: ".

(** [parseFloat(row.ColData[1]?.value || '0')] *)
Definition cellNumber (row : jsval) : Settled number :=
  colData <- get row "ColData" ;;
  cell <- get_index colData 1 ;;
  Fulfilled (parseFloat (js_or (get_opt cell "value") (JStr "0"))).

(** The body of [for (const row of rows)] in [extractMetric], with the
    [return 0] that follows the loop. *)
Fixpoint scanRows (rows : list jsval) (metricName : string) : Settled number :=
  match rows with
  | [] => Fulfilled zero
  | row :: rest =>
      colData <- get row "ColData" ;;
      if truthy colData then
        header <- get row "Header" ;;
        if strict_eq_string
             (get_opt (get_index_opt (get_opt header "ColData") 0) "value")
             metricName
        then cellNumber row
        else scanRows rest metricName
      else scanRows rest metricName
  end.

Definition extractMetric (report : jsval) (metricName : string) : number :=
  try_catch
    (top <- get report "Rows" ;;
     rows <- iterate (js_or (get_opt top "Row") (JArr [])) ;;
     scanRows rows metricName)
    zero.

(** The inner loop of [extractBalanceSheetMetric]: [Some n] when it
    returns [n], [None] when it runs to its end. *)
Fixpoint scanSectionRows (rows : list jsval) (metricName : string)
  : Settled (option number) :=
  match rows with
  | [] => Fulfilled None
  | row :: rest =>
      colData <- get row "ColData" ;;
      if strict_eq_string (get_opt (get_index_opt colData 0) "value") metricName
      then n <- cellNumber row ;; Fulfilled (Some n)
      else scanSectionRows rest metricName
  end.

Fixpoint scanSections (sections : list jsval) (metricName : string)
  : Settled number :=
  match sections with
  | [] => Fulfilled zero
  | section :: rest =>
      inner <- get section "Rows" ;;
      if truthy (get_opt inner "Row") then
        rows <- iterate (get_opt inner "Row") ;;
        found <- scanSectionRows rows metricName ;;
        match found with
        | Some n => Fulfilled n
        | None => scanSections rest metricName
        end
      else scanSections rest metricName
  end.

Definition extractBalanceSheetMetric (report : jsval) (metricName : string)
  : number :=
  try_catch
    (top <- get report "Rows" ;;
     sections <- iterate (js_or (get_opt top "Row") (JArr [])) ;;
     scanSections sections metricName)
    zero.

(** The array handed to [Promise.all]. *)
Definition reportFetches (accessToken realmId : string) : list (Timed jsval) :=
  [ getProfitAndLoss accessToken realmId (startOfMonth dates) (today dates);
    getProfitAndLoss accessToken realmId
                     (startOfLastMonth dates) (endOfLastMonth dates);
    getBalanceSheet accessToken realmId (today dates) ].

Definition getFinancialData (accessToken realmId : string) : Timed FinancialData :=
  andThen (promiseAll (reportFetches accessToken realmId)) (fun reports =>
    let currentPL := nth 0 reports JUndefined in
    let lastMonthPL := nth 1 reports JUndefined in
    let balanceSheet := nth 2 reports JUndefined in
    Fulfilled
      (mkFinancialData
         (extractBalanceSheetMetric balanceSheet "Cash and cash equivalents")
         (extractMetric lastMonthPL "Total Income")
         (extractMetric lastMonthPL "Total Expenses")
         lastMonthPL
         balanceSheet)).

End Client.
End QuickBooks.

(** The one-character string holding a double quote. *)
Definition dquote : string := String (ascii_of_nat 34) EmptyString.

Module Xero.
Section Client.

Variable fetch : FetchRequest -> Timed HttpResponse.
Variable dates : Dates.

Definition baseUrl : string := "https://api.xero.com/api.xro/2.0".

Definition xeroHeaders (accessToken tenantId : string) : list (string * string) :=
  [("Authorization", "Bearer " ++ accessToken);
   ("xero-tenant-id", tenantId);
   ("Content-Type", "application/json")].

Definition getProfitAndLoss (accessToken tenantId fromDate toDate : string)
  : Timed jsval :=
  fetchJson fetch
    (mkRequest (baseUrl ++ "/Reports/ProfitAndLoss")
               [("fromDate", fromDate); ("toDate", toDate)]
               (xeroHeaders accessToken tenantId))
    "Failed to fetch P&L: ".

Definition getBalanceSheet (accessToken tenantId asOfDate : string) : Timed jsval :=
  fetchJson fetch
    (mkRequest (baseUrl ++ "/Reports/BalanceSheet")
               [("date", asOfDate)]
               (xeroHeaders accessToken tenantId))
    "Failed to fetch balance sheet: ".

Definition getBankAccounts (accessToken tenantId : string) : Timed jsval :=
  fetchJson fetch
    (mkRequest (baseUrl ++ "/Accounts")
               [("where", "Type==" ++ dquote ++ "BANK" ++ dquote)]
               (xeroHeaders accessToken tenantId))
    "Failed to fetch bank accounts: ".

(** The inner loop of [extractMetric]: [total] after the rows of the
    matched section. *)
Fixpoint sumRows (rows : list jsval) (total : number) : Settled number :=
  match rows with
  | [] => Fulfilled total
  | row :: rest =>
      cells <- get row "Cells" ;;
      if truthy cells then
        (* row.Cells.length > 1 *)
        cellCount <- toNumber (prop cells "length") ;;
        if ngt cellCount (num_of_Z 1) then
          second <- get_index cells 1 ;;
          value <- get second "Value" ;;
          sumRows rest (nadd total (parseFloat (js_or value (JStr "0"))))
        else sumRows rest total
      else sumRows rest total
  end.

(** The outer loop, with the [return 0] that follows it. *)
Fixpoint scanSections (sections : list jsval) (sectionName : string)
  : Settled number :=
  match sections with
  | [] => Fulfilled zero
  | section :: rest =>
      title <- get section "Title" ;;
      if strict_eq_string title sectionName && truthy (prop section "Rows") then
        rows <- iterate (prop section "Rows") ;;
        sumRows rows zero
      else scanSections rest sectionName
  end.

(** [v === 0] *)
Definition isNumberZero (v : jsval) : bool :=
  match v with
  | JNum n => neqb n zero
  | _ => false
  end.

Definition extractMetric (report : jsval) (sectionName : string) : number :=
  try_catch
    (found <- get report "Reports" ;;
     let reports := js_or found (JArr []) in
     if isNumberZero (prop reports "length") then Fulfilled zero
     else
       first <- get_index reports 0 ;;
       firstRows <- get first "Rows" ;;
       sections <- iterate (js_or firstRows (JArr [])) ;;
       scanSections sections sectionName)
    zero.

(** [parseFloat(account.BankAccountBalance) || 0] *)
Definition accountBalance (account : jsval) : Settled number :=
  balance <- get account "BankAccountBalance" ;;
  let parsed := parseFloat balance in
  Fulfilled (if truthy (JNum parsed) then parsed else zero).

(** [accounts.reduce((sum, account) => sum + ..., 0)] on an array *)
Fixpoint reduceBalances (accounts : list jsval) (sum : number) : Settled number :=
  match accounts with
  | [] => Fulfilled sum
  | account :: rest =>
      balance <- accountBalance account ;;
      reduceBalances rest (nadd sum balance)
  end.

(** [bankAccounts.Accounts?.reduce(..., 0) || 0]: only an array has a
    [reduce] to call. *)
Definition totalCash (bankAccounts : jsval) : Settled number :=
  accounts <- get bankAccounts "Accounts" ;;
  if nullish accounts then Fulfilled zero
  else
    match accounts with
    | JArr l =>
        sum <- reduceBalances l zero ;;
        Fulfilled (if truthy (JNum sum) then sum else zero)
    | _ => Rejected (TypeError "bankAccounts.Accounts?.reduce is not a function")
    end.

(** The array handed to [Promise.all]. *)
Definition reportFetches (accessToken tenantId : string) : list (Timed jsval) :=
  [ getProfitAndLoss accessToken tenantId
                     (startOfLastMonth dates) (endOfLastMonth dates);
    getBalanceSheet accessToken tenantId (today dates);
    getBankAccounts accessToken tenantId ].

Definition getFinancialData (accessToken tenantId : string) : Timed FinancialData :=
  andThen (promiseAll (reportFetches accessToken tenantId)) (fun reports =>
    let profitLoss := nth 0 reports JUndefined in
    let balanceSheet := nth 1 reports JUndefined in
    let bankAccounts := nth 2 reports JUndefined in
    cash <- totalCash bankAccounts ;;
    Fulfilled
      (mkFinancialData
         cash
         (extractMetric profitLoss "Revenue")
         (extractMetric profitLoss "Expenses")
         profitLoss
         balanceSheet)).

End Client.
End Xero.

(* ================================================================== *)
(** ** The insights generator *)

Module Insights.

(** The locale- and engine-dependent printing the prompts use: what each
    call returns when it returns. *)
Record Formatting : Type := mkFormatting {
  (** [v.toLocaleString()] *)
  toLocaleString : jsval -> string;
  (** [n.toFixed(1)] *)
  toFixed1 : number -> string;
  (** a value spliced into a template literal *)
  toText : jsval -> string }.

(** The argument of [openai.chat.completions.create]. *)
Record ChatRequest : Type := mkChat {
  model : string;
  systemContent : string;
  userContent : string;
  temperature : Q;
  max_tokens : nat }.

(** One element of [response.choices]: its [message.content], [None]
    when it is [null]. *)
Record Choice : Type := mkChoice { messageContent : option string }.

Record ChatCompletion : Type := mkCompletion { choices : list Choice }.

(** The [data] an insight carries, one shape per generator. *)
Inductive InsightData : Type :=
| CashRunwayData (cashBalance monthlyRevenue monthlyExpenses netBurn runwayMonths : number)
| BurnRateData (monthlyRevenue monthlyExpenses netBurn : number)
| ProfitMarginData (monthlyRevenue monthlyExpenses profitMargin : number)
| HiringImpactData (currentRunway newRunway : number) (annualSalary : jsval)
                   (monthlyCost currentMonthlyExpenses newMonthlyExpenses : number)
| CustomData (metrics : FinancialData).

Record Insight : Type := mkInsight {
  type : string;
  title : jsval;
  text : string;
  data : InsightData }.

(** What a generator can touch: the metrics object its caller passed by
    reference, and the requests sent to the model so far. *)
Record World : Type := mkWorld {
  metricsObj : FinancialData;
  sent : list ChatRequest }.

Definition send (request : ChatRequest) (w : World) : World :=
  mkWorld (metricsObj w) (sent w ++ [request]).

Definition advisorSystem : string :=
  "You are a financial advisor who explains complex financial concepts in plain English to small business owners.".

(** [response.choices[0].message.content || 'Unable to generate insight.'] *)
Definition narrative (response : ChatCompletion) : Settled string :=
  match choices response with
  | [] => Rejected (TypeError "Cannot read properties of undefined (reading 'message')")
  | first :: _ =>
      match messageContent first with
      | Some content =>
          if String.eqb content EmptyString
          then Fulfilled "Unable to generate insight."
          else Fulfilled content
      | None => Fulfilled "Unable to generate insight."
      end
  end.

Section Generator.

Variable fmt : Formatting.
(** [this.openai.chat.completions.create] *)
Variable create : ChatRequest -> Timed ChatCompletion.

Definition dollars (n : number) : string := "$" ++ toLocaleString fmt (JNum n).

(** [v.toLocaleString()] on a value of type [any] *)
Definition localeString (v : jsval) : Settled string :=
  if localisable v then Fulfilled (toLocaleString fmt v)
  else Rejected (TypeError "toLocaleString is not a function").

(** [v] spliced into a template literal *)
Definition templateText (v : jsval) : Settled string :=
  if convertible v then Fulfilled (toText fmt v) else Rejected conversionError.

(** An [async] method that throws before its first [await]: the promise
    it returns is rejected at once, and nothing has been sent. *)
Definition thrown (e : Error) (w : World) : Timed Insight * World :=
  (mkTimed 0 (Rejected e), w).

(** The runway as the prompts print it. *)
Definition runwayText (runway : number) (profitable : string) : string :=
  if neqb runway (num_of_Z 999) then profitable
  else toText fmt (JNum runway) ++ " months".

Definition cashRunwayPrompt (metrics : FinancialData) (netBurn runwayMonths : number)
  : string :=
  "You are a financial advisor explaining cash runway to a small business owner (non-VC-backed).

Financial data:
- Cash balance: " ++ dollars (cashBalance metrics) ++ "
- Monthly revenue: " ++ dollars (monthlyRevenue metrics) ++ "
- Monthly expenses: " ++ dollars (monthlyExpenses metrics) ++ "
- Net monthly burn: " ++ dollars netBurn ++ "
- Calculated runway: " ++ runwayText runwayMonths "infinite (profitable)" ++ "

Generate a plain-English explanation (2-3 sentences) that:
1. States the runway in months (or " ++ dquote ++ "you're profitable" ++ dquote ++ " if infinite)
2. Explains what this means practically
3. Gives context (is this good/bad? should they worry?)

Use simple language. NO jargon like " ++ dquote ++ "burn rate" ++ dquote ++ " or "
    ++ dquote ++ "runway" ++ dquote ++ " without explaining it first.
Be direct and honest. This is their real business.".

Definition generateCashRunway (w : World) : Timed Insight * World :=
  let metrics := metricsObj w in
  let netBurn := nsub (monthlyExpenses metrics) (monthlyRevenue metrics) in
  let runwayMonths :=
    if ngt netBurn zero
    then nfloor (ndiv (cashBalance metrics) netBurn)
    else num_of_Z 999 in
  let request :=
    mkChat "gpt-4o" advisorSystem (cashRunwayPrompt metrics netBurn runwayMonths)
           (7 # 10) 300 in
  let w' := send request w in
  (andThen (create request) (fun response =>
     content <- narrative response ;;
     let metrics := metricsObj w' in
     Fulfilled
       (mkInsight "cash_runway" (JStr "Cash Runway") content
          (CashRunwayData (cashBalance metrics) (monthlyRevenue metrics)
                          (monthlyExpenses metrics) netBurn runwayMonths))),
   w').

Definition burnRatePrompt (metrics : FinancialData) (netBurn : number) : string :=
  "You are a financial advisor explaining spending patterns to a small business owner.

Financial data:
- Monthly revenue: " ++ dollars (monthlyRevenue metrics) ++ "
- Monthly expenses: " ++ dollars (monthlyExpenses metrics) ++ "
- Net monthly burn: " ++ dollars netBurn ++ "

Generate a plain-English explanation (2-3 sentences) that:
1. States how much they're spending per month
2. Compares it to their revenue (spending more or less than they make?)
3. Identifies if this is sustainable or concerning

Use simple language. Avoid jargon. Be direct.".

Definition generateBurnRate (w : World) : Timed Insight * World :=
  let metrics := metricsObj w in
  let netBurn := nsub (monthlyExpenses metrics) (monthlyRevenue metrics) in
  let request :=
    mkChat "gpt-4o" advisorSystem (burnRatePrompt metrics netBurn) (7 # 10) 300 in
  let w' := send request w in
  (andThen (create request) (fun response =>
     content <- narrative response ;;
     let metrics := metricsObj w' in
     Fulfilled
       (mkInsight "burn_rate" (JStr "Monthly Spending") content
          (BurnRateData (monthlyRevenue metrics) (monthlyExpenses metrics) netBurn))),
   w').

Definition profitMarginPrompt (metrics : FinancialData) (profitMargin : number)
  : string :=
  "You are a financial advisor explaining profit margins to a small business owner.

Financial data:
- Monthly revenue: " ++ dollars (monthlyRevenue metrics) ++ "
- Monthly expenses: " ++ dollars (monthlyExpenses metrics) ++ "
- Profit margin: " ++ toFixed1 fmt profitMargin ++ "%

Generate a plain-English explanation (2-3 sentences) that:
1. States the profit margin percentage
2. Explains what this means (how much of every dollar they keep)
3. Gives context (is this healthy? industry benchmarks if relevant)

Use simple language. Explain like talking to a friend, not an accountant.".

Definition generateProfitMargin (w : World) : Timed Insight * World :=
  let metrics := metricsObj w in
  let profitMargin :=
    if ngt (monthlyRevenue metrics) zero
    then nmul (ndiv (nsub (monthlyRevenue metrics) (monthlyExpenses metrics))
                    (monthlyRevenue metrics))
              (num_of_Z 100)
    else zero in
  let request :=
    mkChat "gpt-4o" advisorSystem (profitMarginPrompt metrics profitMargin)
           (7 # 10) 300 in
  let w' := send request w in
  (andThen (create request) (fun response =>
     content <- narrative response ;;
     let metrics := metricsObj w' in
     Fulfilled
       (mkInsight "profit_margin" (JStr "Profit Margin") content
          (ProfitMarginData (monthlyRevenue metrics) (monthlyExpenses metrics)
                            profitMargin))),
   w').

Definition hiringImpactPrompt (metrics : FinancialData) (printedSalary : string)
    (monthlySalaryCost newMonthlyExpenses currentRunway newRunway : number) : string :=
  "You are a financial advisor helping a small business owner decide if they can afford to hire.

Current situation:
- Cash balance: " ++ dollars (cashBalance metrics) ++ "
- Monthly revenue: " ++ dollars (monthlyRevenue metrics) ++ "
- Monthly expenses: " ++ dollars (monthlyExpenses metrics) ++ "
- Current runway: " ++ runwayText currentRunway "infinite (profitable)" ++ "

Hiring scenario:
- Annual salary: $" ++ printedSalary ++ "
- Monthly cost: " ++ dollars monthlySalaryCost ++ "
- New monthly expenses: " ++ dollars newMonthlyExpenses ++ "
- New runway: " ++ runwayText newRunway "infinite (still profitable)" ++ "

Generate a plain-English recommendation (3-4 sentences) that:
1. States how the hire changes their runway
2. Explains the financial impact clearly
3. Gives honest advice (can they afford it? should they wait? is it safe?)

Be direct and practical. This is a real hiring decision.".

(** [annualSalary] has static type [number], and the handler passes what
    the request holds: the division coerces it and the prompt calls its
    [toLocaleString], and each throws on a value it cannot convert, before
    anything is sent to the model.  The title calls [toLocaleString] a
    second time, which returns what the first call did. *)
Definition generateHiringImpact (annualSalary : jsval) (w : World)
  : Timed Insight * World :=
  let metrics := metricsObj w in
  match toNumber annualSalary with
  | Rejected e => thrown e w
  | Fulfilled salary =>
  let monthlySalaryCost := ndiv salary (num_of_Z 12) in
  let newMonthlyExpenses := nadd (monthlyExpenses metrics) monthlySalaryCost in
  let newNetBurn := nsub newMonthlyExpenses (monthlyRevenue metrics) in
  let currentNetBurn := nsub (monthlyExpenses metrics) (monthlyRevenue metrics) in
  let currentRunway :=
    if ngt currentNetBurn zero
    then nfloor (ndiv (cashBalance metrics) currentNetBurn)
    else num_of_Z 999 in
  let newRunway :=
    if ngt newNetBurn zero
    then nfloor (ndiv (cashBalance metrics) newNetBurn)
    else num_of_Z 999 in
  match localeString annualSalary with
  | Rejected e => thrown e w
  | Fulfilled printedSalary =>
  let request :=
    mkChat "gpt-4o"
           "You are a financial advisor who helps small business owners make practical hiring decisions."
           (hiringImpactPrompt metrics printedSalary monthlySalaryCost
                               newMonthlyExpenses currentRunway newRunway)
           (7 # 10) 400 in
  let w' := send request w in
  (andThen (create request) (fun response =>
     content <- narrative response ;;
     let metrics := metricsObj w' in
     Fulfilled
       (mkInsight "hiring_impact"
          (JStr ("Hiring Impact ($" ++ printedSalary ++ "/year)"))
          content
          (HiringImpactData currentRunway newRunway annualSalary monthlySalaryCost
                            (monthlyExpenses metrics) newMonthlyExpenses))),
   w')
  end end.

Definition customPrompt (metrics : FinancialData) (printedQuestion : string)
  : string :=
  "You are a financial advisor answering questions for a small business owner.

Their financial data:
- Cash balance: " ++ dollars (cashBalance metrics) ++ "
- Monthly revenue: " ++ dollars (monthlyRevenue metrics) ++ "
- Monthly expenses: " ++ dollars (monthlyExpenses metrics) ++ "

Their question: " ++ dquote ++ printedQuestion ++ dquote ++ "

Provide a clear, direct answer (3-4 sentences) using their actual numbers.
Be practical and honest. Use simple language.".

(** [question] has static type [string], and the handler passes what the
    request holds: the prompt converts it to a string, which throws on a
    value that cannot be converted, before anything is sent to the model. *)
Definition generateCustomInsight (question : jsval) (w : World)
  : Timed Insight * World :=
  let metrics := metricsObj w in
  match templateText question with
  | Rejected e => thrown e w
  | Fulfilled printedQuestion =>
  let request :=
    mkChat "gpt-4o"
           "You are a helpful financial advisor who answers questions in plain English."
           (customPrompt metrics printedQuestion) (7 # 10) 400 in
  let w' := send request w in
  (andThen (create request) (fun response =>
     content <- narrative response ;;
     Fulfilled (mkInsight "custom" question content (CustomData (metricsObj w')))),
   w')
  end.

(** The three calls start in turn, each up to its [await]; none writes to
    the metrics object. *)
Definition generateAllInsights (w : World) : Timed (list Insight) * World :=
  let '(runway, w1) := generateCashRunway w in
  let '(burn, w2) := generateBurnRate w1 in
  let '(margin, w3) := generateProfitMargin w2 in
  (promiseAll [runway; burn; margin], w3).

End Generator.
End Insights.

(* ================================================================== *)
(** ** The request handler [POST /api/insights/generate] *)

Module Route.
Import Insights.

Record User : Type := mkUser { id : string }.

(** A row of the [connections] table. *)
Record Connection : Type := mkConnection {
  provider : string;
  access_token : string;
  realm_id : string;
  tenant_id : string }.

(** A row handed to [supabase.from('insights').insert]. *)
Record InsertRow : Type := mkInsertRow {
  user_id : string;
  insight_type : string;
  insight_title : jsval;
  insight_text : string;
  data_snapshot : InsightData }.

Inductive Body : Type :=
| ErrorBody (error : string)
| InsightBody (insight : Insight)
| InsightsBody (insights : list Insight).

(** [NextResponse.json(body, { status })] *)
Record Response : Type := mkResponse { status : nat; body : Body }.

(** What the handler did to the outside: the requests sent to the model,
    the rows inserted and the lines written with [console.error]. *)
Record Trace : Type := mkTrace {
  chats : list ChatRequest;
  inserts : list InsertRow;
  consoleErrors : list string }.

(** The collaborators of one request. *)
Record Env : Type := mkEnv {
  (** [await createServerSupabaseClient()] *)
  createClient : Settled unit;
  (** [await supabase.auth.getUser()]: [data.user] and [error] *)
  getUser : Settled (option User * option Error);
  (** the [connections] of a user: [data] and [error] *)
  selectConnections : string -> Settled (option (list Connection) * option Error);
  (** the [error] of an insert into [insights] *)
  insertInsight : InsertRow -> option Error;
  fetch : FetchRequest -> Timed HttpResponse;
  quickbooksBaseUrl : string;
  dates : Dates;
  fmt : Formatting;
  create : ChatRequest -> Timed ChatCompletion }.

Definition insightRow (user : User) (ins : Insight) : InsertRow :=
  mkInsertRow (id user) (type ins) (title ins) (text ins) (data ins).

(** The [catch] of the handler. *)
Definition failed (sentSoFar : list ChatRequest) : Response * Trace :=
  (mkResponse 500 (ErrorBody "Failed to generate insights"),
   mkTrace sentSoFar [] ["Insights generation error:"]).

Definition badRequest (message : string) : Response * Trace :=
  (mkResponse 400 (ErrorBody message), mkTrace [] [] []).

(** What follows the [switch] for a single insight: save it and answer. *)
Definition saveAndRespond (env : Env) (user : User) (run : Timed Insight * World)
  : Response * Trace :=
  let '(pending, w) := run in
  match outcome pending with
  | Rejected _ => failed (sent w)
  | Fulfilled insight =>
      let row := insightRow user insight in
      (mkResponse 200 (InsightBody insight),
       mkTrace (sent w) [row]
               match insertInsight env row with
               | Some _ => ["Failed to save insight:"]
               | None => []
               end)
  end.

(** The [switch (insightType)] and what follows it. *)
Definition switchInsightType (env : Env) (user : User) (financialData : FinancialData)
    (insightType params : jsval) : Response * Trace :=
  let w := mkWorld financialData [] in
  if strict_eq_string insightType "cash_runway" then
    saveAndRespond env user (generateCashRunway (fmt env) (create env) w)
  else if strict_eq_string insightType "burn_rate" then
    saveAndRespond env user (generateBurnRate (fmt env) (create env) w)
  else if strict_eq_string insightType "profit_margin" then
    saveAndRespond env user (generateProfitMargin (fmt env) (create env) w)
  else if strict_eq_string insightType "hiring_impact" then
    if negb (truthy (get_opt params "annualSalary")) then
      badRequest "Annual salary required for hiring impact"
    else
      match get params "annualSalary" with
      | Rejected _ => failed []
      | Fulfilled annualSalary =>
          saveAndRespond env user
            (generateHiringImpact (fmt env) (create env) annualSalary w)
      end
  else if strict_eq_string insightType "custom" then
    if negb (truthy (get_opt params "question")) then
      badRequest "Question required for custom insight"
    else
      match get params "question" with
      | Rejected _ => failed []
      | Fulfilled question =>
          saveAndRespond env user
            (generateCustomInsight (fmt env) (create env) question w)
      end
  else if strict_eq_string insightType "all" then
    let '(pending, w') := generateAllInsights (fmt env) (create env) w in
    match outcome pending with
    | Rejected _ => failed (sent w')
    | Fulfilled allInsights =>
        (mkResponse 200 (InsightsBody allInsights),
         mkTrace (sent w') (map (insightRow user) allInsights) [])
    end
  else badRequest "Invalid insight type".

(** [financialData], by the provider of the connection; [None] for a
    provider that is neither. *)
Definition fetchFinancialData (env : Env) (connection : Connection)
  : option (Timed FinancialData) :=
  if String.eqb (provider connection) "quickbooks" then
    Some (QuickBooks.getFinancialData (fetch env) (quickbooksBaseUrl env) (dates env)
            (access_token connection) (realm_id connection))
  else if String.eqb (provider connection) "xero" then
    Some (Xero.getFinancialData (fetch env) (dates env)
            (access_token connection) (tenant_id connection))
  else None.

(** [POST(request)]; [requestJson] is what [await request.json()] gives. *)
Definition POST (env : Env) (requestJson : Settled jsval) : Response * Trace :=
  match createClient env with
  | Rejected _ => failed []
  | Fulfilled _ =>
  match getUser env with
  | Rejected _ => failed []
  | Fulfilled (None, _) | Fulfilled (_, Some _) =>
      (mkResponse 401 (ErrorBody "Unauthorized"), mkTrace [] [] [])
  | Fulfilled (Some user, None) =>
  match requestJson with
  | Rejected _ => failed []
  | Fulfilled requestBody =>
  (* const { insightType, params } = body *)
  match get requestBody "insightType", get requestBody "params" with
  | Fulfilled insightType, Fulfilled params =>
  match selectConnections env (id user) with
  | Rejected _ => failed []
  | Fulfilled (Some (connection :: _), None) =>
      match fetchFinancialData env connection with
      | None => badRequest "Unsupported provider"
      | Some pending =>
          match outcome pending with
          | Rejected _ => failed []
          | Fulfilled financialData =>
              switchInsightType env user financialData insightType params
          end
      end
  | Fulfilled _ => badRequest "No accounting software connected"
  end
  | _, _ => failed []
  end end end end.

End Route.

(* ================================================================== *)
(** ** Connecting a provider: the OAuth routes *)

Module UrlEncoded.

(** The characters [URLSearchParams] leaves as they are: letters, digits
    and [*], [-], [.], [_]. *)
Definition isUnreserved (c : ascii) : bool :=
  let n := nat_of_ascii c in
  ((n =? 42) || (n =? 45) || (n =? 46) || (n =? 95)
   || ((48 <=? n) && (n <=? 57))
   || ((65 <=? n) && (n <=? 90))
   || ((97 <=? n) && (n <=? 122)))%nat.

Definition hexDigit (n : nat) : ascii :=
  if (n <? 10)%nat then ascii_of_nat (48 + n) else ascii_of_nat (55 + n).

(** One byte as the serializer writes it: itself, [+] for a space, or a
    percent sign and two upper-case hexadecimal digits. *)
Definition encodeByte (c : ascii) : string :=
  if Ascii.eqb c " " then "+"
  else if isUnreserved c then String c EmptyString
  else String "%" (String (hexDigit (nat_of_ascii c / 16))
                          (String (hexDigit (nat_of_ascii c mod 16)) EmptyString)).

Fixpoint encode (s : string) : string :=
  match s with
  | EmptyString => EmptyString
  | String c rest => encodeByte c ++ encode rest
  end.

(** [new URLSearchParams(pairs).toString()] *)
Definition serialize (pairs : list (string * string)) : string :=
  String.concat "&" (map (fun pair => encode (fst pair) ++ "=" ++ encode (snd pair))
                         pairs).

(** The bytes of a name or value, read back: [+] is a space, a percent
    sign followed by two hexadecimal digits is the byte they spell. *)
Fixpoint decode (s : string) : string :=
  match s with
  | EmptyString => EmptyString
  | String c rest =>
      if Ascii.eqb c "+" then String " " (decode rest)
      else if Ascii.eqb c "%" then
        match rest with
        | String h (String l after) =>
            match digitValue 16 h, digitValue 16 l with
            | Some high, Some low =>
                String (ascii_of_nat (Z.to_nat (high * 16 + low))) (decode after)
            | _, _ => String c (decode rest)
            end
        | _ => String c (decode rest)
        end
      else String c (decode rest)
  end.

(** [s] cut at each [sep]. *)
Fixpoint splitOn (sep : ascii) (s : string) : list string :=
  match s with
  | EmptyString => [EmptyString]
  | String c rest =>
      if Ascii.eqb c sep then EmptyString :: splitOn sep rest
      else match splitOn sep rest with
           | head :: tail => String c head :: tail
           | [] => [String c EmptyString]
           end
  end.

(** [s] cut at its first [=]: the name and the value. *)
Fixpoint cutAtEquals (s : string) : string * string :=
  match s with
  | EmptyString => (EmptyString, EmptyString)
  | String c rest =>
      if Ascii.eqb c "=" then (EmptyString, rest)
      else let '(name, value) := cutAtEquals rest in (String c name, value)
  end.

(** The pairs a query string holds, as [url.searchParams] lists them:
    empty pieces between ampersands are dropped. *)
Definition parse (queryString : string) : list (string * string) :=
  flat_map (fun piece =>
              match piece with
              | EmptyString => []
              | _ => let '(name, value) := cutAtEquals piece in
                     [(decode name, decode value)]
              end)
           (splitOn "&" queryString).

(** [searchParams.get(name)]: the first value under [name], [None] for
    [null]. *)
Fixpoint searchParamsGet (pairs : list (string * string)) (name : string)
  : option string :=
  match pairs with
  | [] => None
  | (k, v) :: rest => if String.eqb k name then Some v else searchParamsGet rest name
  end.

End UrlEncoded.

Module OAuth.

(** [process.env] as a client reads it. *)
Record Config : Type := mkConfig {
  clientId : string;
  clientSecret : string;
  redirectUri : string }.

(** The [POST] a client sends to a token endpoint. *)
Record TokenRequest : Type := mkTokenRequest {
  endpoint : string;
  authorization : string;
  form : list (string * string) }.

(** Its answer: [response.ok], [await response.text()] and
    [await response.json()]. *)
Record TokenResponse : Type := mkTokenResponse {
  tokenOk : bool;
  tokenText : Settled string;
  tokenJson : Settled jsval }.

(** [QuickBooksTokens]; the fields hold what the answer held. *)
Record QuickBooksTokens : Type := mkQuickBooksTokens {
  access_token : jsval;
  refresh_token : jsval;
  expires_in : jsval;
  x_refresh_token_expires_in : jsval;
  realm_id : jsval }.

(** A row handed to [supabase.from('connections').upsert]. *)
Record ConnectionRow : Type := mkConnectionRow {
  row_user_id : string;
  row_provider : string;
  row_access_token : jsval;
  row_refresh_token : jsval;
  row_realm_id : option string;
  row_tenant_id : option jsval;
  row_expires_at : string }.

(** What a callback is called with: the parameters of its URL and its
    cookies. *)
Record CallbackRequest : Type := mkCallbackRequest {
  searchParams : list (string * string);
  cookies : list (string * string) }.

(** [NextResponse.redirect(new URL(location, request.url))], with the
    cookies the handler deleted on it. *)
Record Redirect : Type := mkRedirect {
  location : string;
  deletedCookies : list string }.

(** What a callback did to the outside. *)
Record Trace : Type := mkTrace {
  exchanges : list TokenRequest;
  tenantLookups : list FetchRequest;
  upserts : list ConnectionRow;
  logged : list string }.

(** The collaborators of one request. *)
Record Env : Type := mkEnv {
  createClient : Settled unit;
  getUser : Settled (option Route.User * option Error);
  (** [fetch] with [method: 'POST'] *)
  post : TokenRequest -> Settled TokenResponse;
  fetch : FetchRequest -> Timed HttpResponse;
  (** the [error] of an upsert into [connections] *)
  upsert : ConnectionRow -> option Error;
  (** [Date.now()] *)
  now : Z;
  (** [toISOString] of a valid date, by its time value *)
  toISOString : Z -> string;
  (** [Buffer.from(s).toString('base64')] *)
  base64 : string -> string;
  (** a value spliced into a template literal *)
  toText : jsval -> string;
  (** [crypto.randomUUID()] *)
  randomUUID : string;
  (** [process.env.NODE_ENV === 'production'] *)
  production : bool;
  quickbooksConfig : Config;
  xeroConfig : Config }.

Definition basic (base64 : string -> string) (config : Config) : string :=
  "Basic " ++ base64 (clientId config ++ ":" ++ clientSecret config).

(** [if (!response.ok) { throw new Error(failure + await response.text()) }]
    after an awaited [POST], then [response.json()]. *)
Definition postForm (post : TokenRequest -> Settled TokenResponse)
    (request : TokenRequest) (failure : string) : Settled jsval :=
  response <- post request ;;
  if negb (tokenOk response) then
    error <- tokenText response ;;
    Rejected (PlainError (failure ++ error))
  else tokenJson response.

Module QuickBooks.

Definition tokenEndpoint : string :=
  "https://oauth.platform.intuit.com/oauth2/v1/tokens/bearer".

Definition getAuthUrl (config : Config) (state : string) : string :=
  "https://appcenter.intuit.com/connect/oauth2?"
  ++ UrlEncoded.serialize
       [("client_id", clientId config);
        ("redirect_uri", redirectUri config);
        ("response_type", "code");
        ("scope", "com.intuit.quickbooks.accounting");
        ("state", state)].

Definition tokenRequest (env : Env) (code : string) : TokenRequest :=
  mkTokenRequest tokenEndpoint (basic (base64 env) (quickbooksConfig env))
    [("grant_type", "authorization_code"); ("code", code);
     ("redirect_uri", redirectUri (quickbooksConfig env))].

Definition getTokens (env : Env) (code : string) : Settled QuickBooksTokens :=
  data <- postForm (post env) (tokenRequest env code) "Failed to get tokens: " ;;
  access <- get data "access_token" ;;
  refresh <- get data "refresh_token" ;;
  expires <- get data "expires_in" ;;
  refreshExpires <- get data "x_refresh_token_expires_in" ;;
  realm <- get data "realmId" ;;
  Fulfilled (mkQuickBooksTokens access refresh expires refreshExpires realm).

Definition refreshRequest (env : Env) (refreshToken : string) : TokenRequest :=
  mkTokenRequest tokenEndpoint (basic (base64 env) (quickbooksConfig env))
    [("grant_type", "refresh_token"); ("refresh_token", refreshToken)].

Definition refreshToken (env : Env) (token : string) : Settled QuickBooksTokens :=
  data <- postForm (post env) (refreshRequest env token) "Failed to refresh token: " ;;
  access <- get data "access_token" ;;
  refresh <- get data "refresh_token" ;;
  expires <- get data "expires_in" ;;
  refreshExpires <- get data "x_refresh_token_expires_in" ;;
  Fulfilled (mkQuickBooksTokens access refresh expires refreshExpires
                                (JStr EmptyString)).

End QuickBooks.

Module Xero.

Definition tokenEndpoint : string := "https://identity.xero.com/connect/token".

Definition getAuthUrl (config : Config) (state : string) : string :=
  "https://login.xero.com/identity/connect/authorize?"
  ++ UrlEncoded.serialize
       [("client_id", clientId config);
        ("redirect_uri", redirectUri config);
        ("response_type", "code");
        ("scope", "offline_access accounting.transactions.read accounting.reports.read accounting.settings.read");
        ("state", state)].

Definition tokenRequest (env : Env) (code : string) : TokenRequest :=
  mkTokenRequest tokenEndpoint (basic (base64 env) (xeroConfig env))
    [("grant_type", "authorization_code"); ("code", code);
     ("redirect_uri", redirectUri (xeroConfig env))].

Definition getTokens (env : Env) (code : string) : Settled jsval :=
  postForm (post env) (tokenRequest env code) "Failed to get tokens: ".

Definition refreshRequest (env : Env) (refreshToken : string) : TokenRequest :=
  mkTokenRequest tokenEndpoint (basic (base64 env) (xeroConfig env))
    [("grant_type", "refresh_token"); ("refresh_token", refreshToken)].

Definition refreshToken (env : Env) (token : string) : Settled jsval :=
  postForm (post env) (refreshRequest env token) "Failed to refresh token: ".

Definition tenantsRequest (env : Env) (accessToken : jsval) : FetchRequest :=
  mkRequest "https://api.xero.com/connections" []
            [("Authorization", "Bearer " ++ toText env accessToken);
             ("Content-Type", "application/json")].

Definition getTenants (env : Env) (accessToken : jsval) : Settled jsval :=
  outcome (fetchJson (fetch env) (tenantsRequest env accessToken)
                     "Failed to get tenants: ").

End Xero.

(** [!s] for what [searchParams.get] returned. *)
Definition missing (s : option string) : bool :=
  match s with
  | Some text => String.eqb text EmptyString
  | None => true
  end.

(** [state !== storedState], for a [state] that is a string or [null] and
    a cookie value that is a string or [undefined]. *)
Definition differs (state storedState : option string) : bool :=
  match state, storedState with
  | Some s, Some t => negb (String.eqb s t)
  | _, _ => true
  end.

(** The time value of [new Date(t)]: none for an invalid date. *)
Definition timeClip (t : number) : option Z :=
  match t with
  | Fin q =>
      if Qle_bool (inject_Z (-8640000000000000)) q
         && Qle_bool q (inject_Z 8640000000000000)
      then Some (Z.quot (Qnum q) (Zpos (Qden q)))
      else None
  | _ => None
  end.

(** [new Date(Date.now() + expires_in * 1000).toISOString()], which
    throws on an invalid date. *)
Definition expiresAt (env : Env) (expires : jsval) : Settled string :=
  seconds <- toNumber expires ;;
  match timeClip (nadd (num_of_Z (now env)) (nmul seconds (num_of_Z 1000))) with
  | Some t => Fulfilled (toISOString env t)
  | None => Rejected (mkError "RangeError" "Invalid time value")
  end.

Definition caught (message : string) (location : string)
    (exchanged : list TokenRequest) (lookups : list FetchRequest)
  : Redirect * Trace :=
  (mkRedirect location [], mkTrace exchanged lookups [] [message]).

Definition bounced (location : string) (exchanged : list TokenRequest)
    (lookups : list FetchRequest) : Redirect * Trace :=
  (mkRedirect location [], mkTrace exchanged lookups [] []).

(** The end of both callbacks: store the connection, and on success clear
    the state cookie. *)
Definition store (env : Env) (row : ConnectionRow) (connected cookie : string)
    (exchanged : list TokenRequest) (lookups : list FetchRequest)
  : Redirect * Trace :=
  match upsert env row with
  | Some _ =>
      (mkRedirect "/dashboard?error=database_error" [],
       mkTrace exchanged lookups [row] ["Database error:"])
  | None =>
      (mkRedirect connected [cookie], mkTrace exchanged lookups [row] [])
  end.

(** [GET /api/quickbooks/callback] *)
Definition quickbooksCallback (env : Env) (request : CallbackRequest)
  : Redirect * Trace :=
  let failure := caught "QuickBooks callback error:"
                        "/dashboard?error=quickbooks_connection_failed" in
  let code := UrlEncoded.searchParamsGet (searchParams request) "code" in
  let state := UrlEncoded.searchParamsGet (searchParams request) "state" in
  let realmId := UrlEncoded.searchParamsGet (searchParams request) "realmId" in
  let storedState := UrlEncoded.searchParamsGet (cookies request) "qb_oauth_state" in
  match code, realmId with
  | Some code', Some realmId' =>
      if missing code || missing state || missing realmId || differs state storedState
      then bounced "/dashboard?error=invalid_oauth_state" [] []
      else
        match createClient env with
        | Rejected _ => failure [] []
        | Fulfilled _ =>
        match getUser env with
        | Rejected _ => failure [] []
        | Fulfilled (None, _) | Fulfilled (_, Some _) => bounced "/login" [] []
        | Fulfilled (Some user, None) =>
        let exchanged := [QuickBooks.tokenRequest env code'] in
        match QuickBooks.getTokens env code' with
        | Rejected _ => failure exchanged []
        | Fulfilled tokens =>
        match expiresAt env (expires_in tokens) with
        | Rejected _ => failure exchanged []
        | Fulfilled expires =>
            store env
              (mkConnectionRow (Route.id user) "quickbooks" (access_token tokens)
                               (refresh_token tokens) (Some realmId') None expires)
              "/dashboard?connected=quickbooks" "qb_oauth_state" exchanged []
        end end end end
  | _, _ => bounced "/dashboard?error=invalid_oauth_state" [] []
  end.

(** [GET /api/xero/callback] *)
Definition xeroCallback (env : Env) (request : CallbackRequest) : Redirect * Trace :=
  let failure := caught "Xero callback error:"
                        "/dashboard?error=xero_connection_failed" in
  let code := UrlEncoded.searchParamsGet (searchParams request) "code" in
  let state := UrlEncoded.searchParamsGet (searchParams request) "state" in
  let storedState :=
    UrlEncoded.searchParamsGet (cookies request) "xero_oauth_state" in
  match code with
  | Some code' =>
      if missing code || missing state || differs state storedState
      then bounced "/dashboard?error=invalid_oauth_state" [] []
      else
        match createClient env with
        | Rejected _ => failure [] []
        | Fulfilled _ =>
        match getUser env with
        | Rejected _ => failure [] []
        | Fulfilled (None, _) | Fulfilled (_, Some _) => bounced "/login" [] []
        | Fulfilled (Some user, None) =>
        let exchanged := [Xero.tokenRequest env code'] in
        match Xero.getTokens env code' with
        | Rejected _ => failure exchanged []
        | Fulfilled tokens =>
        match get tokens "access_token" with
        | Rejected _ => failure exchanged []
        | Fulfilled accessToken =>
        let lookups := [Xero.tenantsRequest env accessToken] in
        match Xero.getTenants env accessToken with
        | Rejected _ => failure exchanged lookups
        | Fulfilled tenants =>
        match get_index tenants 0 with
        | Rejected _ => failure exchanged lookups
        | Fulfilled first =>
        let tenantId := get_opt first "tenantId" in
        if negb (truthy tenantId)
        then bounced "/dashboard?error=no_xero_organization" exchanged lookups
        else
          match expiresAt env (prop tokens "expires_in") with
          | Rejected _ => failure exchanged lookups
          | Fulfilled expires =>
              store env
                (mkConnectionRow (Route.id user) "xero" (prop tokens "access_token")
                                 (prop tokens "refresh_token") None (Some tenantId)
                                 expires)
                "/dashboard?connected=xero" "xero_oauth_state" exchanged lookups
          end
        end end end end end end
  | None => bounced "/dashboard?error=invalid_oauth_state" [] []
  end.

(** The cookie a connect route sets. *)
Record Cookie : Type := mkCookie {
  cookieName : string;
  cookieValue : string;
  httpOnly : bool;
  secure : bool;
  sameSite : string;
  maxAge : nat }.

(** What a connect route answers: a redirect, with the cookie set on it,
    or an error as JSON. *)
Inductive ConnectResponse : Type :=
| ConnectRedirect (location : string) (cookie : option Cookie)
| ConnectError (status : nat) (error : string).

(** [GET /api/quickbooks/connect] and [GET /api/xero/connect] *)
Definition connect (env : Env) (getAuthUrl : string -> string)
    (cookie failure : string) : ConnectResponse :=
  match createClient env with
  | Rejected _ => ConnectError 500 failure
  | Fulfilled _ =>
      match getUser env with
      | Rejected _ => ConnectError 500 failure
      | Fulfilled (None, _) | Fulfilled (_, Some _) => ConnectRedirect "/login" None
      | Fulfilled (Some _, None) =>
          let state := randomUUID env in
          ConnectRedirect (getAuthUrl state)
            (Some (mkCookie cookie state true (production env) "lax" 600))
      end
  end.

Definition quickbooksConnect (env : Env) : ConnectResponse :=
  connect env (QuickBooks.getAuthUrl (quickbooksConfig env)) "qb_oauth_state"
          "Failed to initiate QuickBooks authorization".

Definition xeroConnect (env : Env) : ConnectResponse :=
  connect env (Xero.getAuthUrl (xeroConfig env)) "xero_oauth_state"
          "Failed to initiate Xero authorization".

End OAuth.

(* ================================================================== *)
(** ** Vocabulary of the properties *)

Import Insights.

(** The runway rule in the words of the specification: the floor of cash
    over net burn for a business that burns cash, the sentinel otherwise. *)
Definition runwayRule (cash netBurn : number) : number :=
  if ngt netBurn zero then nfloor (ndiv cash netBurn) else num_of_Z 999.

(** [r] is what the rule prescribes for [cash] and [netBurn], each case
    read separately. *)
Definition followsRunwayRule (cash netBurn r : number) : Prop :=
  (ngt netBurn zero = true -> r = nfloor (ndiv cash netBurn))
  /\ (nle netBurn zero = true -> r = num_of_Z 999).

(** Sample collaborators. *)
Definition plainFormatting : Formatting :=
  mkFormatting (fun _ => "n") (fun _ => "n.0") (fun _ => "n").

Definition answering (content : option string) (_ : ChatRequest)
  : Timed ChatCompletion :=
  mkTimed 1 (Fulfilled (mkCompletion [mkChoice content])).

Definition failing (e : Error) (_ : ChatRequest) : Timed ChatCompletion :=
  mkTimed 1 (Rejected e).

Definition sampleWorld (cash revenue expenses : Z) : World :=
  mkWorld (mkFinancialData (num_of_Z cash) (num_of_Z revenue) (num_of_Z expenses)
                           JNull JNull)
          [].

(** The insights of the specification's example: cash 50000, revenue
    15000, expenses 20000, and a hire at 60000 a year. *)
Definition sampleRunwayInsight : Insight :=
  mkInsight "cash_runway" (JStr "Cash Runway") "ok"
    (CashRunwayData (num_of_Z 50000) (num_of_Z 15000) (num_of_Z 20000)
                    (num_of_Z 5000) (num_of_Z 10)).

Definition sampleHiringInsight : Insight :=
  mkInsight "hiring_impact" (JStr "Hiring Impact ($n/year)") "ok"
    (HiringImpactData (num_of_Z 10) (num_of_Z 5) (JNum (num_of_Z 60000))
                      (num_of_Z 5000) (num_of_Z 20000) (num_of_Z 25000)).

(** Revenue 10000 against expenses 7000: a margin of 30 percent. *)
Definition sampleMarginInsight : Insight :=
  mkInsight "profit_margin" (JStr "Profit Margin") "ok"
    (ProfitMarginData (num_of_Z 10000) (num_of_Z 7000) (num_of_Z 30)).



(** *** The QuickBooks report shape *)

(** The top-level rows of a report, [report.Rows.Row]. *)
Definition topRows (report : jsval) : Settled (list jsval) :=
  top <- get report "Rows" ;;
  iterate (js_or (get_opt top "Row") (JArr [])).












Definition qbCell (value : string) : jsval := JObj [("value", JStr value)].

Definition qbRow (label amount : string) : jsval :=
  JObj [("Header", JObj [("ColData", JArr [qbCell label])]);
        ("ColData", JArr [qbCell label; qbCell amount])].


Definition qbChild (label amount : string) : jsval :=
  JObj [("ColData", JArr [qbCell label; qbCell amount])].

Definition qbSection (children : list jsval) : jsval :=
  JObj [("Rows", JObj [("Row", JArr children)])].

Definition qbReport (rows : list jsval) : jsval :=
  JObj [("Rows", JObj [("Row", JArr rows)])].

(** A profit-and-loss report in which the label [Total Income] occurs
    twice. *)
Definition sampleProfitAndLoss : jsval :=
  qbReport [qbRow "Income" "11000.50"; qbRow "Total Income" "12000.50";
            qbRow "Total Expenses" "8000"; qbRow "Total Income" "1"].

(** A balance sheet with the cash line in its second section, and again
    further down. *)
Definition sampleBalanceSheet : jsval :=
  qbReport [qbSection [qbChild "Accounts receivable" "700"];
            JObj [("Summary", JNull)];
            qbSection [qbChild "Savings" "20";
                       qbChild "Cash and cash equivalents" "50000";
                       qbChild "Cash and cash equivalents" "2"]].

(** *** The Xero report shape *)

(** The sections of a report, [Reports[0].Rows]. *)
Definition reportSections (report : jsval) : option (list jsval) :=
  if nullish report then None
  else
    match prop report "Reports" with
    | JArr (first :: _) =>
        if nullish first then None
        else
          match prop first "Rows" with
          | JArr sections => Some sections
          | _ => None
          end
    | _ => None
    end.

(** A section whose [Title] is [name], with its [Rows]. *)
Definition titledSection (name : string) (section : jsval) (rows : list jsval)
  : Prop :=
  nullish section = false
  /\ strict_eq_string (prop section "Title") name = true
  /\ prop section "Rows" = JArr rows.



Definition xeroCell (value : string) : jsval := JObj [("Value", JStr value)].

Definition xeroRow (label amount : string) : jsval :=
  JObj [("RowType", JStr "Row"); ("Cells", JArr [xeroCell label; xeroCell amount])].

Definition xeroSection (sectionTitle : string) (rows : list jsval) : jsval :=
  JObj [("RowType", JStr "Section"); ("Title", JStr sectionTitle);
        ("Rows", JArr rows)].

Definition xeroReport (sections : list jsval) : jsval :=
  JObj [("Reports", JArr [JObj [("Rows", JArr sections)]])].

(** The example of the specification: a section titled [Revenue] with
    rows valued 1000, 2000 and 500. *)
Definition revenueRows : list jsval :=
  [xeroRow "Sales" "1000"; xeroRow "Services" "2000"; xeroRow "Other" "500"].

Definition revenueExample : jsval :=
  xeroReport [JObj [("RowType", JStr "Header")];
              xeroSection "Revenue" revenueRows;
              xeroSection "Expenses" [xeroRow "Rent" "800"]].

(** *** Reports with a cell that is not a number *)

Definition nonNumericProfitAndLoss : jsval :=
  qbReport [qbRow "Total Income" "N/A"; qbRow "Total Expenses" "8000"].

Definition nonNumericBalanceSheet : jsval :=
  qbReport [qbSection [qbChild "Cash and cash equivalents" "N/A"]].

Definition nonNumericXero : jsval :=
  xeroReport [xeroSection "Revenue" [xeroRow "Sales" "1000"; xeroRow "Other" "N/A"];
              xeroSection "Expenses" [xeroRow "Rent" "800"]].

(** A bank-account listing with one balance that is not a number. *)
Definition nonNumericAccounts : jsval :=
  JObj [("Accounts",
         JArr [JObj [("BankAccountBalance", JStr "N/A")];
               JObj [("BankAccountBalance", JStr "250.5")]])].

(** *** Fetches *)

(** [e] is the rejection [Promise.all] reports for [ps]: that of a member
    of [ps] that settles no later than any other rejected member. *)
Definition firstFailure {A} (ps : list (Timed A)) (e : Error) : Prop :=
  exists p,
    In p ps /\ outcome p = Rejected e
    /\ forall q e', In q ps -> outcome q = Rejected e' ->
                    (settledAt p <= settledAt q)%nat.

Definition everyFetchSucceeded {A} (ps : list (Timed A)) : Prop :=
  Forall (fun p => is_fulfilled (outcome p) = true) ps.

Definition sampleDates : Dates :=
  mkDates "2024-05-17" "2024-05-01" "2024-04-01" "2024-04-30".

(** A network on which every profit-and-loss endpoint answers 503 and
    every other endpoint answers with an empty object. *)
Definition profitAndLossDown (request : FetchRequest) : Timed HttpResponse :=
  if String.eqb (url request) "https://qb.test/v3/company/r1/reports/ProfitAndLoss"
     || String.eqb (url request) "https://api.xero.com/api.xro/2.0/Reports/ProfitAndLoss"
  then mkTimed 2 (Fulfilled (mkHttpResponse false "Service Unavailable"
                                        (mkTimed 3 (Fulfilled JNull))))
  else mkTimed 1 (Fulfilled (mkHttpResponse true "OK" (mkTimed 2 (Fulfilled (JObj []))))).

Definition profitAndLossError : Error :=
  PlainError "Failed to fetch P&L: Service Unavailable".

(** *** Narratives *)

Definition fallbackText : string := "Unable to generate insight.".

(** The first choice of a completion has no content: [null] or empty. *)
Definition blankCompletion (response : ChatCompletion) : Prop :=
  exists first rest,
    choices response = first :: rest
    /\ (messageContent first = None \/ messageContent first = Some EmptyString).

(** The numbers each insight is to carry, from the metrics alone. *)
Definition runwayPayload (m : FinancialData) : InsightData :=
  let netBurn := nsub (monthlyExpenses m) (monthlyRevenue m) in
  CashRunwayData (cashBalance m) (monthlyRevenue m) (monthlyExpenses m) netBurn
                 (runwayRule (cashBalance m) netBurn).

Definition burnPayload (m : FinancialData) : InsightData :=
  BurnRateData (monthlyRevenue m) (monthlyExpenses m)
               (nsub (monthlyExpenses m) (monthlyRevenue m)).

Definition marginPayload (m : FinancialData) : InsightData :=
  ProfitMarginData (monthlyRevenue m) (monthlyExpenses m)
    (if ngt (monthlyRevenue m) zero
     then nmul (ndiv (nsub (monthlyRevenue m) (monthlyExpenses m))
                     (monthlyRevenue m))
               (num_of_Z 100)
     else zero).

Definition hiringPayload (m : FinancialData) (annualSalary : jsval) : InsightData :=
  let monthlyCost := ndiv (ToNumber annualSalary) (num_of_Z 12) in
  let newExpenses := nadd (monthlyExpenses m) monthlyCost in
  HiringImpactData
    (runwayRule (cashBalance m) (nsub (monthlyExpenses m) (monthlyRevenue m)))
    (runwayRule (cashBalance m) (nsub newExpenses (monthlyRevenue m)))
    annualSalary monthlyCost (monthlyExpenses m) newExpenses.

Definition rateLimited : Error := PlainError "429 Too Many Requests".

(** [run], the call of a generator in the world [w], falls back or fails
    by the one request it sent: on an answer to that request that is blank
    it returns [expected], and on a failure of that request it fails with
    the same error. *)
Definition fallsBackOrFails (create : ChatRequest -> Timed ChatCompletion)
    (w : World) (run : Timed Insight * World) (expected : Insight) : Prop :=
  forall request,
    sent (snd run) = (sent w ++ [request])%list ->
    (forall response,
        outcome (create request) = Fulfilled response ->
        blankCompletion response ->
        outcome (fst run) = Fulfilled expected)
    /\ (forall e,
           outcome (create request) = Rejected e -> outcome (fst run) = Rejected e).

(** *** Requests *)

Import Route.

(** The requests a run of one generator sent, from a world in which none
    had been sent: a failure of any of them fails the run. *)
Definition failsWithItsRequests (create : ChatRequest -> Timed ChatCompletion)
    (run : Timed Insight * World) : Prop :=
  forall request e,
    In request (sent (snd run)) -> outcome (create request) = Rejected e ->
    exists e', outcome (fst run) = Rejected e'.

(** The request passes authentication, names a connection of a supported
    provider and its financial data is fetched: the handler arrives at
    [switch (insightType)] with [financialData]. *)
Definition reachesSwitch (env : Env) (requestBody : jsval) (user : User)
    (financialData : FinancialData) : Prop :=
  createClient env = Fulfilled tt
  /\ getUser env = Fulfilled (Some user, None)
  /\ nullish requestBody = false
  /\ exists connection others pending,
       selectConnections env (id user)
       = Fulfilled (Some (connection :: others), None)
       /\ fetchFinancialData env connection = Some pending
       /\ outcome pending = Fulfilled financialData.

Definition sampleUser : User := mkUser "u1".

(** A network that serves the sample QuickBooks reports. *)
Definition reportsUp (request : FetchRequest) : Timed HttpResponse :=
  let report :=
    if String.eqb (url request) "https://qb.test/v3/company/r1/reports/ProfitAndLoss"
    then sampleProfitAndLoss
    else sampleBalanceSheet in
  mkTimed 1 (Fulfilled (mkHttpResponse true "OK" (mkTimed 2 (Fulfilled report)))).

Definition sampleEnv (create : ChatRequest -> Timed ChatCompletion) : Env :=
  mkEnv (Fulfilled tt)
        (Fulfilled (Some sampleUser, None))
        (fun _ => Fulfilled (Some [mkConnection "quickbooks" "t" "r1" EmptyString], None))
        (fun _ => None)
        reportsUp "https://qb.test" sampleDates plainFormatting create.

(** The same collaborators on a network whose profit-and-loss endpoint
    is down. *)
Definition offlineEnv (create : ChatRequest -> Timed ChatCompletion) : Env :=
  mkEnv (Fulfilled tt)
        (Fulfilled (Some sampleUser, None))
        (fun _ => Fulfilled (Some [mkConnection "quickbooks" "t" "r1" EmptyString], None))
        (fun _ => None)
        profitAndLossDown "https://qb.test" sampleDates plainFormatting create.

(** What the sample reports reduce to. *)
Definition sampleFinancialData : FinancialData :=
  mkFinancialData (num_of_Z 50000) (Fin (24001 # 2)) (num_of_Z 8000)
                  sampleProfitAndLoss sampleBalanceSheet.

Definition insightRequest (kind : string) (params : list (string * jsval)) : jsval :=
  JObj [("insightType", JStr kind); ("params", JObj params)].

(** *** Further vocabulary *)

(** The three calls [generateAllInsights] hands to [Promise.all], on the
    metrics of [w]. *)
Definition batchPromises (fmt : Formatting)
    (create : ChatRequest -> Timed ChatCompletion) (w : World) : list (Timed Insight) :=
  [fst (generateCashRunway fmt create w);
   fst (generateBurnRate fmt create w);
   fst (generateProfitMargin fmt create w)].

(** The batch a model that always answers [ok] gives on the sample
    metrics. *)
Definition sampleBatch : list Insight :=
  [sampleRunwayInsight;
   mkInsight "burn_rate" (JStr "Monthly Spending") "ok"
     (BurnRateData (num_of_Z 15000) (num_of_Z 20000) (num_of_Z 5000));
   mkInsight "profit_margin" (JStr "Profit Margin") "ok"
     (ProfitMarginData (num_of_Z 15000) (num_of_Z 20000) (Fin (-100 # 3)))].

(** The sections [Xero.extractMetric] walks, [Reports[0].Rows]; none when
    there is no report. *)
Definition xeroSections (report : jsval) : Settled (list jsval) :=
  found <- get report "Reports" ;;
  let reports := js_or found (JArr []) in
  if Xero.isNumberZero (prop reports "length") then Fulfilled []
  else
    first <- get_index reports 0 ;;
    firstRows <- get first "Rows" ;;
    iterate (js_or firstRows (JArr [])).

(** A Xero network: the sample report, and an account listing of which
    one balance is not a number. *)
Definition xeroUp (request : FetchRequest) : Timed HttpResponse :=
  let answer :=
    if String.eqb (url request) "https://api.xero.com/api.xro/2.0/Accounts"
    then nonNumericAccounts
    else revenueExample in
  mkTimed 1 (Fulfilled (mkHttpResponse true "OK" (mkTimed 2 (Fulfilled answer)))).

(** The same network with a listing in which one account is [null]. *)
Definition xeroBrokenAccounts (request : FetchRequest) : Timed HttpResponse :=
  let answer :=
    if String.eqb (url request) "https://api.xero.com/api.xro/2.0/Accounts"
    then JObj [("Accounts", JArr [JObj [("BankAccountBalance", JStr "10")]; JNull])]
    else revenueExample in
  mkTimed 1 (Fulfilled (mkHttpResponse true "OK" (mkTimed 2 (Fulfilled answer)))).


(** A section the loop of [Xero.extractMetric] passes over: an object
    that has another title or no rows. *)
Definition passedSection (name : string) (section : jsval) : Prop :=
  nullish section = false
  /\ (strict_eq_string (prop section "Title") name = false
      \/ truthy (prop section "Rows") = false).

(** [env] with another outcome of the inserts into [insights]. *)
Definition withInsert (env : Env) (insert : InsertRow -> option Error) : Env :=
  mkEnv (createClient env) (getUser env) (selectConnections env) insert
        (fetch env) (quickbooksBaseUrl env) (dates env) (fmt env) (create env).

(** [env] with another answer to the query on [connections]. *)
Definition withConnections (env : Env)
    (select : string -> Settled (option (list Connection) * option Error)) : Env :=
  mkEnv (createClient env) (getUser env) select (insertInsight env)
        (fetch env) (quickbooksBaseUrl env) (dates env) (fmt env) (create env).

(** The answer of [select] cut down to its first connection. *)
Definition firstConnectionOnly
    (select : string -> Settled (option (list Connection) * option Error))
    (userId : string) : Settled (option (list Connection) * option Error) :=
  match select userId with
  | Fulfilled (Some (connection :: _), e) => Fulfilled (Some [connection], e)
  | other => other
  end.

(** What a client and the database see of a handled request: the
    response, the requests sent to the model and the rows inserted. *)
Definition observable (handled : Response * Trace)
  : Response * list ChatRequest * list InsertRow :=
  (fst handled, chats (snd handled), inserts (snd handled)).

(** The six values of [insightType] the handler knows. *)
Definition knownInsightTypes : list string :=
  ["cash_runway"; "burn_rate"; "profit_margin"; "hiring_impact"; "custom"; "all"].


(* ------------------------------------------------------------------ *)
(** *** Vocabulary of the OAuth routes *)

(** A token endpoint that answers every exchange with [data]. *)
Definition tokensGranted (data : jsval) (request : OAuth.TokenRequest)
  : Settled OAuth.TokenResponse :=
  Fulfilled (OAuth.mkTokenResponse true (Fulfilled EmptyString) (Fulfilled data)).

(** A Xero that lists [tenants] as the connections of every token. *)
Definition tenantsListed (tenants : jsval) (request : FetchRequest)
  : Timed HttpResponse :=
  mkTimed 1 (Fulfilled (mkHttpResponse true "OK" (mkTimed 2 (Fulfilled tenants)))).

Definition sampleConfig : OAuth.Config :=
  OAuth.mkConfig "client" "secret" "https://app.example/api/callback".

(** A signed-in user, a token endpoint granting [data], a Xero listing
    [tenants] and a database that stores every row. *)
Definition connectingEnv (data tenants : jsval) : OAuth.Env :=
  OAuth.mkEnv (Fulfilled tt) (Fulfilled (Some sampleUser, None))
              (tokensGranted data) (tenantsListed tenants) (fun _ => None)
              1700000000000 (fun _ => "2023-11-14T23:13:20.000Z")
              (fun text => text) (fun _ => "token")
              "0b1c2d3e-0000-4000-8000-000000000000" false
              sampleConfig sampleConfig.

Definition grantedTokens : jsval :=
  JObj [("access_token", JStr "access"); ("refresh_token", JStr "refresh");
        ("expires_in", JNum (num_of_Z 3600));
        ("x_refresh_token_expires_in", JNum (num_of_Z 8726400));
        ("realmId", JStr "4620816365")].

(** A grant that says nothing of when it expires. *)
Definition openEndedTokens : jsval :=
  JObj [("access_token", JStr "access"); ("refresh_token", JStr "refresh")].

Definition oneTenant : jsval := JArr [JObj [("tenantId", JStr "t-1")]].

(** The provider calling back with the state the browser holds. *)
Definition sampleCallback : OAuth.CallbackRequest :=
  OAuth.mkCallbackRequest
    [("code", "c0de"); ("state", "s7"); ("realmId", "9130")]
    [("qb_oauth_state", "s7"); ("xero_oauth_state", "s7")].

(** The rows the callbacks store for it. *)
Definition sampleQuickBooksRow : OAuth.ConnectionRow :=
  OAuth.mkConnectionRow "u1" "quickbooks" (JStr "access") (JStr "refresh")
                        (Some "9130") None "2023-11-14T23:13:20.000Z".

Definition sampleXeroRow : OAuth.ConnectionRow :=
  OAuth.mkConnectionRow "u1" "xero" (JStr "access") (JStr "refresh")
                        None (Some (JStr "t-1")) "2023-11-14T23:13:20.000Z".

(** The locations a callback redirects to when it has connected. *)
Definition quickbooksConnected : string := "/dashboard?connected=quickbooks".
Definition xeroConnected : string := "/dashboard?connected=xero".

(** The callback stored [row], and the database took it. *)
Definition storedOnly (env : OAuth.Env) (result : OAuth.Redirect * OAuth.Trace)
    (row : OAuth.ConnectionRow) : Prop :=
  OAuth.upserts (snd result) = [row] /\ OAuth.upsert env row = None.

(** [sep] occurs in [s]. *)
Fixpoint occurs (sep : ascii) (s : string) : bool :=
  match s with
  | EmptyString => false
  | String c rest => Ascii.eqb c sep || occurs sep rest
  end.

(** A pair as the serializer writes it. *)
Definition piece (pair : string * string) : string :=
  UrlEncoded.encode (fst pair) ++ "=" ++ UrlEncoded.encode (snd pair).

(** A callback either connected, cleared its state cookie and stored one
    row the database took, or it left the cookie alone and stored nothing
    the database took. *)
Definition connectedOrUntouched (env : OAuth.Env) (connected cookie : string)
    (result : OAuth.Redirect * OAuth.Trace) : Prop :=
  (OAuth.location (fst result) = connected
   /\ OAuth.deletedCookies (fst result) = [cookie]
   /\ exists row, storedOnly env result row)
  \/ (OAuth.location (fst result) <> connected
      /\ OAuth.deletedCookies (fst result) = []
      /\ forall row, In row (OAuth.upserts (snd result)) ->
                     OAuth.upsert env row <> None).

(* ================================================================== *)
(** ** Properties *)

Local Open Scope list_scope.

(** *** Numbers *)

Lemma nle_not_ngt (a b : number) : nle a b = true -> ngt a b = false.
Proof.
  destruct a, b; simpl; intros H; try discriminate; try reflexivity;
    now apply negb_true_iff in H.
Qed.

Lemma ngt_zero_positive (q : Q) : ngt (Fin q) zero = true -> (0 < q)%Q.
Proof.
  unfold zero. simpl. intros H. apply negb_true_iff in H.
  destruct (Qlt_le_dec 0 q) as [Hlt | Hle]; [exact Hlt |].
  apply Qle_bool_iff in Hle. rewrite Hle in H. discriminate.
Qed.


Lemma Qzero_false_of_positive (q : Q) : (0 < q)%Q -> Qzero q = false.
Proof.
  unfold Qzero, Qlt. simpl. intros H. apply Z.eqb_neq. lia.
Qed.


Lemma nle_of_Z (x y : Z) : (x <= y)%Z -> nle (num_of_Z x) (num_of_Z y) = true.
Proof.
  intros H. unfold nle, num_of_Z, ngt. rewrite negb_involutive.
  apply Qle_bool_iff. now rewrite <- Zle_Qle.
Qed.

(** *** The generators *)

(** An awaited completion that yields an insight did so through
    [narrative]. *)
Lemma narrated_insight (pending : Timed ChatCompletion) (make : string -> Insight)
    (ins : Insight) :
  outcome (andThen pending (fun response =>
             content <- narrative response ;; Fulfilled (make content)))
  = Fulfilled ins ->
  exists response content,
    outcome pending = Fulfilled response
    /\ narrative response = Fulfilled content
    /\ ins = make content.
Proof.
  unfold andThen. cbn [outcome]. intros H.
  destruct (outcome pending) as [response | e]; cbn [bind] in H; [| discriminate].
  destruct (narrative response) as [content | e] eqn:E; cbn [bind] in H;
    [| discriminate].
  injection H as <-. now exists response, content.
Qed.

(** No generator writes to the metrics object it was handed. *)
Lemma generators_keep_metrics (fmt : Formatting)
    (create : ChatRequest -> Timed ChatCompletion) (v : jsval) (w : World) :
  metricsObj (snd (generateCashRunway fmt create w)) = metricsObj w
  /\ metricsObj (snd (generateBurnRate fmt create w)) = metricsObj w
  /\ metricsObj (snd (generateProfitMargin fmt create w)) = metricsObj w
  /\ metricsObj (snd (generateHiringImpact fmt create v w)) = metricsObj w
  /\ metricsObj (snd (generateCustomInsight fmt create v w)) = metricsObj w.
Proof.
  split; [reflexivity |]. split; [reflexivity |]. split; [reflexivity |]. split.
  - unfold generateHiringImpact, thrown. destruct (toNumber v); [| reflexivity].
    now destruct (localeString fmt v).
  - unfold generateCustomInsight, thrown. now destruct (templateText fmt v).
Qed.

Lemma cashRunway_insight (fmt : Formatting)
    (create : ChatRequest -> Timed ChatCompletion) (w : World) (ins : Insight) :
  outcome (fst (generateCashRunway fmt create w)) = Fulfilled ins ->
  let m := metricsObj w in
  let netBurn := nsub (monthlyExpenses m) (monthlyRevenue m) in
  data ins = CashRunwayData (cashBalance m) (monthlyRevenue m) (monthlyExpenses m)
                            netBurn (runwayRule (cashBalance m) netBurn).
Proof.
  unfold generateCashRunway. cbn [fst]. intros H.
  apply narrated_insight in H as (response & content & _ & _ & ->).
  reflexivity.
Qed.

Lemma hiringImpact_insight (fmt : Formatting)
    (create : ChatRequest -> Timed ChatCompletion) (annualSalary : jsval)
    (w : World) (ins : Insight) :
  outcome (fst (generateHiringImpact fmt create annualSalary w)) = Fulfilled ins ->
  let m := metricsObj w in
  let monthlyCost := ndiv (ToNumber annualSalary) (num_of_Z 12) in
  let newExpenses := nadd (monthlyExpenses m) monthlyCost in
  data ins =
    HiringImpactData
      (runwayRule (cashBalance m) (nsub (monthlyExpenses m) (monthlyRevenue m)))
      (runwayRule (cashBalance m) (nsub newExpenses (monthlyRevenue m)))
      annualSalary monthlyCost (monthlyExpenses m) newExpenses.
Proof.
  unfold generateHiringImpact, thrown, toNumber.
  destruct (convertible annualSalary); [| discriminate].
  destruct (localeString fmt annualSalary); [| discriminate].
  cbn [fst]. intros H.
  apply narrated_insight in H as (response & content & _ & _ & ->).
  reflexivity.
Qed.

Lemma runwayRule_follows (cash netBurn : number) :
  followsRunwayRule cash netBurn (runwayRule cash netBurn).
Proof.
  unfold followsRunwayRule, runwayRule. split; intros H.
  - now rewrite H.
  - now rewrite (nle_not_ngt _ _ H).
Qed.

(** C1.  The cash-runway insight carries net burn = expenses - revenue and
    a runway that is the floor of cash over net burn when net burn is
    positive and 999 when it is not, whatever the cash balance; the
    current runway of the hiring-impact insight is that same number, and
    its new runway follows the same rule under the new net burn. *)
Theorem runway_rule (fmt : Formatting)
    (create : ChatRequest -> Timed ChatCompletion) (annualSalary : jsval)
    (w : World) (runwayInsight hiringInsight : Insight) :
  outcome (fst (generateCashRunway fmt create w)) = Fulfilled runwayInsight ->
  outcome (fst (generateHiringImpact fmt create annualSalary w))
    = Fulfilled hiringInsight ->
  let m := metricsObj w in
  let netBurn := nsub (monthlyExpenses m) (monthlyRevenue m) in
  exists runwayMonths newRunway monthlyCost newExpenses,
    data runwayInsight
      = CashRunwayData (cashBalance m) (monthlyRevenue m) (monthlyExpenses m)
                       netBurn runwayMonths
    /\ followsRunwayRule (cashBalance m) netBurn runwayMonths
    /\ data hiringInsight
       = HiringImpactData runwayMonths newRunway annualSalary monthlyCost
                          (monthlyExpenses m) newExpenses
    /\ followsRunwayRule (cashBalance m)
                         (nsub newExpenses (monthlyRevenue m)) newRunway.
Proof.
  intros Hrunway Hhiring m netBurn.
  apply cashRunway_insight in Hrunway. apply hiringImpact_insight in Hhiring.
  cbv zeta in Hrunway, Hhiring. fold m in Hrunway, Hhiring.
  eexists _, _, _, _. split; [exact Hrunway |].
  split; [apply runwayRule_follows |].
  split; [exact Hhiring | apply runwayRule_follows].
Qed.

(** The example of the specification: cash 50000, expenses 20000 and
    revenue 15000 give a net burn of 5000 and a runway of 10 months, in
    both generators. *)
Lemma runway_rule_witness :
  let w := sampleWorld 50000 15000 20000 in
  let create := answering (Some "ok") in
  let salary := JNum (num_of_Z 60000) in
  outcome (fst (generateCashRunway plainFormatting create w))
    = Fulfilled sampleRunwayInsight
  /\ outcome (fst (generateHiringImpact plainFormatting create salary w))
     = Fulfilled sampleHiringInsight
  /\ exists runwayMonths newRunway monthlyCost newExpenses,
       data sampleRunwayInsight
         = CashRunwayData (num_of_Z 50000) (num_of_Z 15000) (num_of_Z 20000)
                          (num_of_Z 5000) runwayMonths
       /\ followsRunwayRule (num_of_Z 50000) (num_of_Z 5000) runwayMonths
       /\ data sampleHiringInsight
          = HiringImpactData runwayMonths newRunway salary monthlyCost
                             (num_of_Z 20000) newExpenses
       /\ followsRunwayRule (num_of_Z 50000)
                            (nsub newExpenses (num_of_Z 15000)) newRunway.
Proof.
  intros w create salary.
  assert (Hr : outcome (fst (generateCashRunway plainFormatting create w))
               = Fulfilled sampleRunwayInsight) by (vm_compute; reflexivity).
  assert (Hh : outcome (fst (generateHiringImpact plainFormatting create salary w))
               = Fulfilled sampleHiringInsight) by (vm_compute; reflexivity).
  exact (conj Hr (conj Hh
           (runway_rule plainFormatting create salary w
                        sampleRunwayInsight sampleHiringInsight Hr Hh))).
Defined.

(** The rule floors, and a business that burns nothing gets 999 whatever
    its cash: 52000 over a burn of 5000 is 10 months; break-even and
    profitable businesses get 999, overdrawn or not. *)
Example runway_rule_examples :
  runwayRule (num_of_Z 52000) (num_of_Z 5000) = num_of_Z 10
  /\ runwayRule (num_of_Z 52000) zero = num_of_Z 999
  /\ runwayRule (num_of_Z (-300)) (num_of_Z (-5000)) = num_of_Z 999
  /\ runwayRule zero (num_of_Z 5000) = zero.
Proof. repeat split. Qed.

Lemma profitMargin_insight (fmt : Formatting)
    (create : ChatRequest -> Timed ChatCompletion) (w : World) (ins : Insight) :
  outcome (fst (generateProfitMargin fmt create w)) = Fulfilled ins ->
  let m := metricsObj w in
  data ins =
    ProfitMarginData (monthlyRevenue m) (monthlyExpenses m)
      (if ngt (monthlyRevenue m) zero
       then nmul (ndiv (nsub (monthlyRevenue m) (monthlyExpenses m))
                       (monthlyRevenue m))
                 (num_of_Z 100)
       else zero).
Proof.
  unfold generateProfitMargin. cbn [fst]. intros H.
  apply narrated_insight in H as (response & content & _ & _ & ->).
  reflexivity.
Qed.

Lemma neqb_zero_not_positive (a : number) : neqb a zero = true -> ngt a zero = false.
Proof.
  destruct a as [| | | q]; simpl; try discriminate.
  intros H. apply Qeq_bool_iff in H. apply negb_false_iff.
  apply Qle_bool_iff. rewrite H. apply Qle_refl.
Qed.

(** C2.  The profit-margin insight carries
    (revenue - expenses) / revenue * 100 when revenue is positive, and
    exactly 0 when revenue is 0: the division is guarded. *)
Theorem profit_margin_rule (fmt : Formatting)
    (create : ChatRequest -> Timed ChatCompletion) (w : World) (ins : Insight) :
  outcome (fst (generateProfitMargin fmt create w)) = Fulfilled ins ->
  let m := metricsObj w in
  exists profitMargin,
    data ins = ProfitMarginData (monthlyRevenue m) (monthlyExpenses m) profitMargin
    /\ (ngt (monthlyRevenue m) zero = true ->
        profitMargin
        = nmul (ndiv (nsub (monthlyRevenue m) (monthlyExpenses m))
                     (monthlyRevenue m))
               (num_of_Z 100))
    /\ (neqb (monthlyRevenue m) zero = true -> profitMargin = zero).
Proof.
  intros H m. apply profitMargin_insight in H. cbv zeta in H. fold m in H.
  eexists. split; [exact H |]. split; intros Hrev.
  - now rewrite Hrev.
  - now rewrite (neqb_zero_not_positive _ Hrev).
Qed.

(** The example of the specification: revenue 10000 and expenses 7000
    give a margin of 30. *)
Lemma profit_margin_rule_witness :
  let w := sampleWorld 0 10000 7000 in
  let create := answering (Some "ok") in
  outcome (fst (generateProfitMargin plainFormatting create w))
    = Fulfilled sampleMarginInsight
  /\ exists profitMargin,
       data sampleMarginInsight
         = ProfitMarginData (num_of_Z 10000) (num_of_Z 7000) profitMargin
       /\ (ngt (num_of_Z 10000) zero = true ->
           profitMargin
           = nmul (ndiv (nsub (num_of_Z 10000) (num_of_Z 7000)) (num_of_Z 10000))
                  (num_of_Z 100))
       /\ (neqb (num_of_Z 10000) zero = true -> profitMargin = zero).
Proof.
  intros w create.
  assert (H : outcome (fst (generateProfitMargin plainFormatting create w))
              = Fulfilled sampleMarginInsight) by (vm_compute; reflexivity).
  exact (conj H (profit_margin_rule plainFormatting create w sampleMarginInsight H)).
Defined.

(** With no revenue the margin is 0, whatever the expenses. *)
Example profit_margin_without_revenue :
  outcome (fst (generateProfitMargin plainFormatting (answering (Some "ok"))
                                     (sampleWorld 0 0 7000)))
  = Fulfilled (mkInsight "profit_margin" (JStr "Profit Margin") "ok"
                 (ProfitMarginData zero (num_of_Z 7000) zero)).
Proof. vm_compute. reflexivity. Qed.

(** C9.  Hiring impact is idempotent and does not write to its input:
    the monthly cost is the salary over 12, expenses, net burn and runway
    are recomputed under the rule of the runway insight, a second call on
    the same metrics and salary carries the same data whatever the model
    answers, and the metrics object is the same after each call. *)
Theorem hiring_impact_idempotent (fmt : Formatting)
    (create1 create2 : ChatRequest -> Timed ChatCompletion) (annualSalary : number)
    (w : World) (first second : Insight) :
  let run1 := generateHiringImpact fmt create1 (JNum annualSalary) w in
  let run2 := generateHiringImpact fmt create2 (JNum annualSalary) (snd run1) in
  outcome (fst run1) = Fulfilled first ->
  outcome (fst run2) = Fulfilled second ->
  let m := metricsObj w in
  let monthlyCost := ndiv annualSalary (num_of_Z 12) in
  let newExpenses := nadd (monthlyExpenses m) monthlyCost in
  let newNetBurn := nsub newExpenses (monthlyRevenue m) in
  let currentNetBurn := nsub (monthlyExpenses m) (monthlyRevenue m) in
  data first
  = HiringImpactData (runwayRule (cashBalance m) currentNetBurn)
                     (runwayRule (cashBalance m) newNetBurn)
                     (JNum annualSalary) monthlyCost (monthlyExpenses m) newExpenses
  /\ data second = data first
  /\ metricsObj (snd run1) = m
  /\ metricsObj (snd run2) = m.
Proof.
  intros run1 run2 H1 H2 m monthlyCost newExpenses newNetBurn currentNetBurn.
  apply hiringImpact_insight in H1. apply hiringImpact_insight in H2.
  repeat split.
  - exact H1.
  - rewrite H1, H2. reflexivity.
Qed.

Lemma hiring_impact_idempotent_witness :
  let w := sampleWorld 50000 15000 20000 in
  let salary := num_of_Z 60000 in
  let create1 := answering (Some "ok") in
  let create2 := answering None in
  let run1 := generateHiringImpact plainFormatting create1 (JNum salary) w in
  let run2 := generateHiringImpact plainFormatting create2 (JNum salary) (snd run1) in
  let second :=
    mkInsight "hiring_impact" (JStr "Hiring Impact ($n/year)")
              "Unable to generate insight." (data sampleHiringInsight) in
  outcome (fst run1) = Fulfilled sampleHiringInsight
  /\ outcome (fst run2) = Fulfilled second
  /\ data sampleHiringInsight
     = HiringImpactData (runwayRule (num_of_Z 50000) (num_of_Z 5000))
                        (runwayRule (num_of_Z 50000) (num_of_Z 10000))
                        (JNum salary) (num_of_Z 5000) (num_of_Z 20000)
                        (num_of_Z 25000)
  /\ data second = data sampleHiringInsight
  /\ metricsObj (snd run1) = metricsObj w
  /\ metricsObj (snd run2) = metricsObj w.
Proof.
  intros w salary create1 create2 run1 run2 second.
  assert (H1 : outcome (fst run1) = Fulfilled sampleHiringInsight)
    by (vm_compute; reflexivity).
  assert (H2 : outcome (fst run2) = Fulfilled second) by (vm_compute; reflexivity).
  exact (conj H1 (conj H2
           (hiring_impact_idempotent plainFormatting create1 create2 salary w
                                     sampleHiringInsight second H1 H2))).
Defined.







(** *** The QuickBooks extractors *)


Lemma get_defined (v : jsval) (k : string) :
  nullish v = false -> get v k = Fulfilled (prop v k).
Proof. unfold get. now intros ->. Qed.


















(** *** The Xero extractor *)


Lemma length_not_zero (n : nat) : neqb (num_of_Z (Z.of_nat (S n))) zero = false.
Proof.
  unfold neqb, num_of_Z, zero.
  destruct (Qeq_bool (inject_Z (Z.of_nat (S n))) 0) eqn:E; [| reflexivity].
  apply Qeq_bool_iff in E. change 0%Q with (inject_Z 0) in E.
  apply inject_Z_injective in E. discriminate E.
Qed.





(** On rows of the same values the QuickBooks extractor takes the first,
    where the Xero extractor adds them up. *)
Example first_match_is_not_a_sum :
  QuickBooks.extractMetric
    (qbReport [qbRow "Revenue" "1000"; qbRow "Revenue" "2000"; qbRow "Revenue" "500"])
    "Revenue"
  = num_of_Z 1000
  /\ Xero.extractMetric revenueExample "Revenue" = num_of_Z 3500.
Proof. repeat split. Qed.

(** *** Cells that are not numbers *)

(** Whatever the report, a throw inside the traversal is absorbed. *)
Lemma extraction_absorbs_throws (report : jsval) (name : string) (e : Error) :
  (topRows report = Rejected e ->
   QuickBooks.extractMetric report name = zero
   /\ QuickBooks.extractBalanceSheetMetric report name = zero)
  /\ (get report "Reports" = Rejected e -> Xero.extractMetric report name = zero).
Proof.
  unfold topRows, QuickBooks.extractMetric, QuickBooks.extractBalanceSheetMetric,
    Xero.extractMetric.
  split.
  - destruct (get report "Rows") as [top |]; cbn [bind]; [| now split].
    destruct (iterate (js_or (get_opt top "Row") (JArr []))); [discriminate |].
    now split.
  - now intros ->.
Qed.

(** A row that cannot be read stops the search with 0, and leaves the
    extraction of the other metrics alone. *)
Example unreadable_row_extracts_zero :
  QuickBooks.extractMetric
    (qbReport [JNull; qbRow "Total Income" "12000.50"]) "Total Income" = zero
  /\ QuickBooks.extractMetric (JNum (num_of_Z 7)) "Total Income" = zero
  /\ QuickBooks.extractMetric JNull "Total Income" = zero
  /\ Xero.extractMetric (xeroReport [xeroSection "Revenue" [JNull]]) "Revenue" = zero.
Proof. repeat split. Qed.

(** C5.  The extraction is to yield exactly 0 for a matched cell whose
    value is not numeric.  On these reports it does not: a matched cell
    holding the text N/A extracts as [NaN] in the three extractors.  The
    other metrics of the same report are still extracted, and the
    bank-account total of the same Xero client does read such a balance
    as 0. *)
Theorem non_numeric_cell_extracts_NaN :
  QuickBooks.extractMetric nonNumericProfitAndLoss "Total Income" = NaN
  /\ QuickBooks.extractMetric nonNumericProfitAndLoss "Total Expenses"
     = num_of_Z 8000
  /\ QuickBooks.extractBalanceSheetMetric
       nonNumericBalanceSheet "Cash and cash equivalents" = NaN
  /\ Xero.extractMetric nonNumericXero "Revenue" = NaN
  /\ Xero.extractMetric nonNumericXero "Expenses" = num_of_Z 800
  /\ Xero.totalCash nonNumericAccounts = Fulfilled (Fin (501 # 2)).
Proof. repeat split. Qed.

(** *** Fetches that fail *)

Lemma firstRejection_exists {A} (ps : list (Timed A)) (p : Timed A) (e : Error) :
  In p ps -> outcome p = Rejected e ->
  exists t e', firstRejection ps = Some (t, e').
Proof.
  induction ps as [| q ps IH]; intros Hin Hp; [destruct Hin |].
  cbn [firstRejection]. destruct Hin as [-> | Hin].
  - rewrite Hp. destruct (firstRejection ps) as [[t e'] |].
    + destruct (settledAt p <=? t)%nat; now eexists _, _.
    + now eexists _, _.
  - destruct (IH Hin Hp) as (t & e' & ->).
    destruct (outcome q); [now eexists _, _ |].
    destruct (settledAt q <=? t)%nat; now eexists _, _.
Qed.

Lemma firstRejection_is_first {A} (ps : list (Timed A)) (t : nat) (e : Error) :
  firstRejection ps = Some (t, e) ->
  exists p,
    In p ps /\ outcome p = Rejected e /\ settledAt p = t
    /\ forall q e', In q ps -> outcome q = Rejected e' -> (t <= settledAt q)%nat.
Proof.
  revert t e. induction ps as [| p ps IH]; intros t e H; [discriminate |].
  cbn [firstRejection] in H.
  destruct (outcome p) as [a | ep] eqn:Hp.
  - destruct (IH t e H) as (c & Hin & Hc & Ht & Hmin).
    exists c. repeat split; [now right | assumption | assumption |].
    intros q e' [<- | Hq] Hrej; [congruence | now apply (Hmin q e')].
  - destruct (firstRejection ps) as [[t' e'] |] eqn:Hrest.
    + destruct (IH t' e' eq_refl) as (c & Hin & Hc & Ht & Hmin).
      destruct (settledAt p <=? t')%nat eqn:Hle; injection H as <- <-.
      * apply Nat.leb_le in Hle. exists p.
        repeat split; [now left | assumption |].
        intros q eq [<- | Hq] Hrej; [lia |].
        specialize (Hmin q eq Hq Hrej). lia.
      * apply Nat.leb_gt in Hle. exists c.
        repeat split; [now right | assumption | assumption |].
        intros q eq [<- | Hq] Hrej; [lia | now apply (Hmin q eq)].
    + injection H as <- <-. exists p.
      repeat split; [now left | assumption |].
      intros q eq [<- | Hq] Hrej; [lia |].
      destruct (firstRejection_exists ps q eq Hq Hrej) as (t' & e' & Habs).
      congruence.
Qed.

(** What follows [await Promise.all(ps)] does not run when a member of
    [ps] is rejected: the whole is rejected with the first failure. *)
Lemma promiseAll_rejects {A B} (ps : list (Timed A)) (k : list A -> Settled B)
    (failed : Timed A) (e0 : Error) :
  In failed ps -> outcome failed = Rejected e0 ->
  exists e, outcome (andThen (promiseAll ps) k) = Rejected e /\ firstFailure ps e.
Proof.
  intros Hin Hfailed.
  destruct (firstRejection_exists ps failed e0 Hin Hfailed) as (t & e & Hfirst).
  exists e. unfold andThen, promiseAll. rewrite Hfirst. cbn [outcome bind].
  split; [reflexivity |].
  destruct (firstRejection_is_first ps t e Hfirst) as (p & Hp & Hrej & <- & Hmin).
  now exists p.
Qed.

Lemma promiseAll_fulfilled {A B} (ps : list (Timed A)) (k : list A -> Settled B)
    (b : B) :
  outcome (andThen (promiseAll ps) k) = Fulfilled b -> everyFetchSucceeded ps.
Proof.
  intros H. apply Forall_forall. intros p Hin.
  destruct (outcome p) as [a | e] eqn:Hp; [reflexivity |].
  destruct (promiseAll_rejects ps k p e Hin Hp) as (e' & Hrej & _). congruence.
Qed.

(** C6.  When one of the report fetches of a build fails, the build fails
    with the error of the first fetch to fail and returns no record; a
    record is only ever returned after every fetch succeeded.  QuickBooks
    and Xero alike. *)
Theorem build_fails_with_fetch (fetch : FetchRequest -> Timed HttpResponse)
    (baseUrl : string) (dates : Dates) (accessToken account : string) :
  let quickbooks := QuickBooks.reportFetches fetch baseUrl dates accessToken account in
  let xero := Xero.reportFetches fetch dates accessToken account in
  (forall failed e0,
      In failed quickbooks -> outcome failed = Rejected e0 ->
      exists e,
        outcome (QuickBooks.getFinancialData fetch baseUrl dates accessToken account)
        = Rejected e
        /\ firstFailure quickbooks e)
  /\ (forall failed e0,
         In failed xero -> outcome failed = Rejected e0 ->
         exists e,
           outcome (Xero.getFinancialData fetch dates accessToken account)
           = Rejected e
           /\ firstFailure xero e)
  /\ (forall record,
         outcome (QuickBooks.getFinancialData fetch baseUrl dates accessToken account)
         = Fulfilled record ->
         everyFetchSucceeded quickbooks)
  /\ (forall record,
         outcome (Xero.getFinancialData fetch dates accessToken account)
         = Fulfilled record ->
         everyFetchSucceeded xero).
Proof.
  intros quickbooks xero.
  unfold QuickBooks.getFinancialData, Xero.getFinancialData.
  fold quickbooks. fold xero.
  split; [| split; [| split]].
  - intros failed e0. apply promiseAll_rejects.
  - intros failed e0. apply promiseAll_rejects.
  - intros record. apply promiseAll_fulfilled.
  - intros record. apply promiseAll_fulfilled.
Qed.

(** With the profit-and-loss endpoint down, both builds fail with its
    error although the balance sheet and the accounts were fetched. *)
Lemma build_fails_with_fetch_witness :
  let quickbooks :=
    QuickBooks.reportFetches profitAndLossDown "https://qb.test" sampleDates "t" "r1" in
  let xero := Xero.reportFetches profitAndLossDown sampleDates "t" "r1" in
  let down := mkTimed 2 (Rejected profitAndLossError) in
  (In down quickbooks /\ In down xero /\ outcome down = Rejected profitAndLossError)
  /\ (exists e,
        outcome (QuickBooks.getFinancialData profitAndLossDown "https://qb.test"
                                             sampleDates "t" "r1")
        = Rejected e
        /\ firstFailure quickbooks e)
  /\ (exists e,
        outcome (Xero.getFinancialData profitAndLossDown sampleDates "t" "r1")
        = Rejected e
        /\ firstFailure xero e).
Proof.
  intros quickbooks xero down.
  assert (Hq : In down quickbooks) by (left; reflexivity).
  assert (Hx : In down xero) by (left; reflexivity).
  pose proof (build_fails_with_fetch profitAndLossDown "https://qb.test"
                sampleDates "t" "r1") as (Hquickbooks & Hxero & _).
  exact (conj (conj Hq (conj Hx eq_refl))
           (conj (Hquickbooks down profitAndLossError Hq eq_refl)
                 (Hxero down profitAndLossError Hx eq_refl))).
Defined.

(** *** Narratives that fail or come back empty *)

Lemma narrative_blank (response : ChatCompletion) :
  blankCompletion response -> narrative response = Fulfilled fallbackText.
Proof.
  intros (first & rest & Hchoices & Hcontent). unfold narrative.
  rewrite Hchoices. now destruct Hcontent as [-> | ->].
Qed.

Lemma narrated_blank (pending : Timed ChatCompletion) (make : string -> Insight) :
  (exists response, outcome pending = Fulfilled response /\ blankCompletion response) ->
  outcome (andThen pending (fun response =>
             content <- narrative response ;; Fulfilled (make content)))
  = Fulfilled (make fallbackText).
Proof.
  intros (response & Hpending & Hblank). unfold andThen. cbn [outcome].
  rewrite Hpending. cbn [bind]. now rewrite (narrative_blank response Hblank).
Qed.

Lemma narrated_rejected (pending : Timed ChatCompletion) (make : string -> Insight)
    (e : Error) :
  outcome pending = Rejected e ->
  outcome (andThen pending (fun response =>
             content <- narrative response ;; Fulfilled (make content)))
  = Rejected e.
Proof. intros H. unfold andThen. cbn [outcome]. now rewrite H. Qed.

Lemma nothing_sent {A} (l : list A) (x : A) : l = l ++ [x] -> False.
Proof.
  intros H. rewrite <- (app_nil_r l) in H at 1. apply app_inv_head in H.
  discriminate H.
Qed.

Lemma one_sent {A} (l : list A) (x y : A) : l ++ [x] = l ++ [y] -> x = y.
Proof. intros H. apply app_inv_head in H. now injection H. Qed.

(** A generator that sent [request] and awaits its answer falls back on a
    blank one and fails with a failed one. *)
Lemma awaited_fallsBackOrFails (create : ChatRequest -> Timed ChatCompletion)
    (w : World) (sentRequest : ChatRequest) (make : string -> Insight) :
  fallsBackOrFails create w
    (andThen (create sentRequest) (fun response =>
       content <- narrative response ;; Fulfilled (make content)),
     send sentRequest w)
    (make fallbackText).
Proof.
  intros request Hsent. cbn [snd send sent] in Hsent.
  apply one_sent in Hsent. subst request. cbn [fst]. split.
  - intros response Hanswer Hblank. apply narrated_blank. now exists response.
  - intros e Hfail. now apply narrated_rejected.
Qed.

(** A generator that threw before sending anything. *)
Lemma thrown_fallsBackOrFails (create : ChatRequest -> Timed ChatCompletion)
    (w : World) (e : Error) (expected : Insight) :
  fallsBackOrFails create w (thrown e w) expected.
Proof.
  intros request Hsent. cbn [thrown snd] in Hsent.
  now apply nothing_sent in Hsent.
Qed.

Lemma awaited_failsWithItsRequests (create : ChatRequest -> Timed ChatCompletion)
    (financialData : FinancialData) (sentRequest : ChatRequest)
    (make : string -> Insight) :
  failsWithItsRequests create
    (andThen (create sentRequest) (fun response =>
       content <- narrative response ;; Fulfilled (make content)),
     send sentRequest (mkWorld financialData [])).
Proof.
  intros request e [<- | []] Hfail. exists e. cbn [fst].
  now apply narrated_rejected.
Qed.

Lemma generators_failWithTheirRequests (fmt : Formatting)
    (create : ChatRequest -> Timed ChatCompletion) (financialData : FinancialData)
    (v : jsval) :
  let w := mkWorld financialData [] in
  failsWithItsRequests create (generateCashRunway fmt create w)
  /\ failsWithItsRequests create (generateBurnRate fmt create w)
  /\ failsWithItsRequests create (generateProfitMargin fmt create w)
  /\ failsWithItsRequests create (generateHiringImpact fmt create v w)
  /\ failsWithItsRequests create (generateCustomInsight fmt create v w).
Proof.
  intros w. repeat split.
  - apply awaited_failsWithItsRequests.
  - apply awaited_failsWithItsRequests.
  - apply awaited_failsWithItsRequests.
  - unfold generateHiringImpact. destruct (toNumber v); [| intros ? ? []].
    destruct (localeString fmt v); [| intros ? ? []].
    apply awaited_failsWithItsRequests.
  - unfold generateCustomInsight. destruct (templateText fmt v); [| intros ? ? []].
    apply awaited_failsWithItsRequests.
Qed.

Lemma saveAndRespond_failed (env : Env) (user : User) (run : Timed Insight * World)
    (request : ChatRequest) (e : Error) :
  failsWithItsRequests (create env) run ->
  In request (chats (snd (saveAndRespond env user run))) ->
  outcome (create env request) = Rejected e ->
  saveAndRespond env user run
  = failed (chats (snd (saveAndRespond env user run))).
Proof.
  intros Hrun. unfold saveAndRespond. destruct run as [pending w].
  destruct (outcome pending) as [insight | e'] eqn:Hpending.
  - cbn [snd chats]. intros Hin Hfail.
    destruct (Hrun request e Hin Hfail) as [e'' Hrejected].
    cbn [fst] in Hrejected. congruence.
  - reflexivity.
Qed.

Lemma batch_failsWithItsRequests (fmt : Formatting)
    (create : ChatRequest -> Timed ChatCompletion) (financialData : FinancialData)
    (request : ChatRequest) (e : Error) :
  let run := generateAllInsights fmt create (mkWorld financialData []) in
  In request (sent (snd run)) -> outcome (create request) = Rejected e ->
  exists e', outcome (fst run) = Rejected e'.
Proof.
  intros run Hin Hfail.
  assert (Hmember : exists p, In p (batchPromises fmt create (mkWorld financialData []))
                              /\ outcome p = Rejected e).
  { subst run.
    unfold generateAllInsights, generateCashRunway, generateBurnRate,
      generateProfitMargin, send in Hin.
    cbn [snd sent app] in Hin. unfold batchPromises.
    destruct Hin as [<- | [<- | [<- | []]]].
    - eexists. split; [left; reflexivity |].
      unfold generateCashRunway. cbn [fst]. now apply narrated_rejected.
    - eexists. split; [right; left; reflexivity |].
      unfold generateBurnRate. cbn [fst]. now apply narrated_rejected.
    - eexists. split; [right; right; left; reflexivity |].
      unfold generateProfitMargin. cbn [fst]. now apply narrated_rejected. }
  destruct Hmember as (p & Hp & Hrejected).
  destruct (firstRejection_exists _ p e Hp Hrejected) as (t & e' & Hfirst).
  exists e'.
  change (fst run) with (promiseAll (batchPromises fmt create (mkWorld financialData []))).
  unfold promiseAll. now rewrite Hfirst.
Qed.

Lemma switch_failed (env : Env) (user : User) (financialData : FinancialData)
    (insightType params : jsval) (request : ChatRequest) (e : Error) :
  let handled := switchInsightType env user financialData insightType params in
  In request (chats (snd handled)) ->
  outcome (create env request) = Rejected e ->
  handled = failed (chats (snd handled)).
Proof.
  intros handled. subst handled. unfold switchInsightType.
  pose proof (generators_failWithTheirRequests (fmt env) (create env) financialData)
    as Hgenerators.
  repeat match goal with
         | |- context [if ?c then _ else _] => destruct c
         | |- context [match get ?v ?k with _ => _ end] =>
             let found := fresh "found" in destruct (get v k) as [found |]
         end;
    try (intros []; fail).
  - apply saveAndRespond_failed. apply (Hgenerators JNull).
  - apply saveAndRespond_failed. apply (Hgenerators JNull).
  - apply saveAndRespond_failed. apply (Hgenerators JNull).
  - apply saveAndRespond_failed. apply (Hgenerators found).
  - apply saveAndRespond_failed. apply (Hgenerators found).
  - pose proof (batch_failsWithItsRequests (fmt env) (create env) financialData
                                           request e) as Hbatch.
    cbv zeta in Hbatch.
    destruct (generateAllInsights (fmt env) (create env) (mkWorld financialData []))
      as [pending w'].
    cbn [fst snd] in Hbatch.
    destruct (outcome pending) as [allInsights | e'] eqn:Hpending.
    + cbn [snd chats]. intros Hin Hfail.
      destruct (Hbatch Hin Hfail) as [e'' Hrejected]. discriminate Hrejected.
    + reflexivity.
Qed.

(** While it handles a request, the handler sends to the model only what
    a generator sends; when one of those calls fails, its [catch] answers. *)
Lemma POST_failed (env : Env) (requestJson : Settled jsval) (request : ChatRequest)
    (e : Error) :
  In request (chats (snd (POST env requestJson))) ->
  outcome (create env request) = Rejected e ->
  POST env requestJson = failed (chats (snd (POST env requestJson))).
Proof.
  unfold POST.
  destruct (createClient env); [| intros []].
  destruct (getUser env) as [[[user |] [authError |]] | e0]; try (intros []).
  destruct requestJson as [requestBody | e0]; [| intros []].
  destruct (get requestBody "insightType") as [insightType | e0]; [| intros []].
  destruct (get requestBody "params") as [params | e0]; [| intros []].
  destruct (selectConnections env (id user))
    as [[[[| connection others] |] [connError |]] | e0]; try (intros []).
  destruct (fetchFinancialData env connection) as [pending |]; [| intros []].
  destruct (outcome pending) as [financialData | e0]; [| intros []].
  apply switch_failed.
Qed.

(** C7, as the code has it.  Of each generator and the one request it
    sends to the model: when the answer has a first choice whose content
    is [null] or empty, the generator returns its insight with the fixed
    fallback text and with all its numbers; when the call fails, the
    generator fails with that error and returns no insight.  And the
    handler turns the failure of any call to the model it made into a 500
    [Failed to generate insights], saving nothing. *)
Theorem narrative_fallback (fmt : Formatting)
    (create : ChatRequest -> Timed ChatCompletion) (w : World)
    (annualSalary question : jsval) :
  let m := metricsObj w in
  fallsBackOrFails create w (generateCashRunway fmt create w)
    (mkInsight "cash_runway" (JStr "Cash Runway") fallbackText (runwayPayload m))
  /\ fallsBackOrFails create w (generateBurnRate fmt create w)
       (mkInsight "burn_rate" (JStr "Monthly Spending") fallbackText (burnPayload m))
  /\ fallsBackOrFails create w (generateProfitMargin fmt create w)
       (mkInsight "profit_margin" (JStr "Profit Margin") fallbackText
                  (marginPayload m))
  /\ fallsBackOrFails create w (generateHiringImpact fmt create annualSalary w)
       (mkInsight "hiring_impact"
          (JStr ("Hiring Impact ($" ++ toLocaleString fmt annualSalary
                                    ++ "/year)")%string)
          fallbackText (hiringPayload m annualSalary))
  /\ fallsBackOrFails create w (generateCustomInsight fmt create question w)
       (mkInsight "custom" question fallbackText (CustomData m))
  /\ (forall (env : Env) (requestJson : Settled jsval) (request : ChatRequest)
             (e : Error),
         In request (chats (snd (POST env requestJson))) ->
         outcome (Route.create env request) = Rejected e ->
         POST env requestJson
         = (mkResponse 500 (ErrorBody "Failed to generate insights"),
            mkTrace (chats (snd (POST env requestJson))) []
                    ["Insights generation error:"])).
Proof.
  intros m. split; [| split; [| split; [| split; [| split]]]].
  - apply (awaited_fallsBackOrFails create w _
             (fun content => mkInsight "cash_runway" (JStr "Cash Runway") content
                                       (runwayPayload m))).
  - apply (awaited_fallsBackOrFails create w _
             (fun content => mkInsight "burn_rate" (JStr "Monthly Spending") content
                                       (burnPayload m))).
  - apply (awaited_fallsBackOrFails create w _
             (fun content => mkInsight "profit_margin" (JStr "Profit Margin") content
                                       (marginPayload m))).
  - unfold generateHiringImpact, toNumber, localeString.
    destruct (convertible annualSalary); [| apply thrown_fallsBackOrFails].
    destruct (localisable annualSalary); [| apply thrown_fallsBackOrFails].
    apply (awaited_fallsBackOrFails create w _
             (fun content =>
                mkInsight "hiring_impact"
                  (JStr ("Hiring Impact ($" ++ toLocaleString fmt annualSalary
                                            ++ "/year)")%string)
                  content (hiringPayload m annualSalary))).
  - unfold generateCustomInsight, templateText.
    destruct (convertible question); [| apply thrown_fallsBackOrFails].
    apply (awaited_fallsBackOrFails create w _
             (fun content => mkInsight "custom" question content (CustomData m))).
  - intros env requestJson request e Hin Hfail.
    exact (POST_failed env requestJson request e Hin Hfail).
Qed.

(** The runway insight on the sample metrics: a model that answers
    [null] gives the fallback text beside the numbers; a model that fails
    fails the generator, and the handler answers 500. *)
Lemma narrative_fallback_witness :
  let w := sampleWorld 50000 15000 20000 in
  let request :=
    mkChat "gpt-4o" advisorSystem
           (cashRunwayPrompt plainFormatting (metricsObj w) (num_of_Z 5000)
                             (num_of_Z 10))
           (7 # 10) 300 in
  sent (snd (generateCashRunway plainFormatting (answering None) w))
  = sent w ++ [request]
  /\ outcome (fst (generateCashRunway plainFormatting (answering None) w))
     = Fulfilled (mkInsight "cash_runway" (JStr "Cash Runway") fallbackText
                    (CashRunwayData (num_of_Z 50000) (num_of_Z 15000) (num_of_Z 20000)
                                    (num_of_Z 5000) (num_of_Z 10)))
  /\ outcome (fst (generateCashRunway plainFormatting (failing rateLimited) w))
     = Rejected rateLimited
  /\ fst (POST (sampleEnv (failing rateLimited))
               (Fulfilled (insightRequest "hiring_impact"
                             [("annualSalary", JNum (num_of_Z 60000))])))
     = mkResponse 500 (ErrorBody "Failed to generate insights").
Proof.
  intros w request.
  pose proof (narrative_fallback plainFormatting (answering None) w JNull JNull)
    as [Hblank _].
  pose proof (narrative_fallback plainFormatting (failing rateLimited) w JNull JNull)
    as [Hfail [_ [_ [_ [_ Hhandler]]]]].
  assert (Hsent : sent (snd (generateCashRunway plainFormatting (answering None) w))
                  = sent w ++ [request]) by reflexivity.
  split; [exact Hsent |]. split; [| split].
  - apply (proj1 (Hblank request Hsent) (mkCompletion [mkChoice None]));
      [reflexivity |].
    eexists _, _. split; [reflexivity | now left].
  - apply (proj2 (Hfail request Hsent) rateLimited). reflexivity.
  - pose (handled := POST (sampleEnv (failing rateLimited))
               (Fulfilled (insightRequest "hiring_impact"
                             [("annualSalary", JNum (num_of_Z 60000))]))).
    assert (Hin : In (hd request (chats (snd handled))) (chats (snd handled)))
      by (vm_compute; left; reflexivity).
    rewrite (Hhandler _ _ _ rateLimited Hin eq_refl). reflexivity.
Defined.

(** C7, as stated, fails: a call to the model that is rejected rejects
    the generator, which returns neither payload nor fallback text. *)
Lemma narrative_failure_propagates :
  let w := sampleWorld 50000 15000 20000 in
  outcome (fst (generateCashRunway plainFormatting (failing rateLimited) w))
  = Rejected rateLimited
  /\ ~ (exists ins,
          outcome (fst (generateCashRunway plainFormatting (failing rateLimited) w))
          = Fulfilled ins
          /\ text ins = fallbackText).
Proof.
  intros w. split; [reflexivity |].
  intros (ins & H & _). discriminate H.
Qed.

(** *** Requests that lack their parameter *)

Lemma strict_eq_string_true (v : jsval) (s : string) :
  strict_eq_string v s = true -> v = JStr s.
Proof.
  destruct v; simpl; try discriminate. intros H. apply String.eqb_eq in H.
  now subst.
Qed.

Lemma get_truthy (v : jsval) (k : string) :
  truthy (get_opt v k) = true -> get v k = Fulfilled (get_opt v k).
Proof.
  unfold get_opt, get. destruct (nullish v); [discriminate | reflexivity].
Qed.

Lemma POST_reaches_switch (env : Env) (requestBody : jsval) (user : User)
    (financialData : FinancialData) :
  reachesSwitch env requestBody user financialData ->
  POST env (Fulfilled requestBody)
  = switchInsightType env user financialData
      (prop requestBody "insightType") (prop requestBody "params").
Proof.
  intros (Hclient & Huser & Hbody & connection & others & pending
          & Hconnections & Hfetch & Hdata).
  unfold POST. rewrite Hclient, Huser.
  rewrite !(get_defined _ _ Hbody). rewrite Hconnections, Hfetch, Hdata.
  reflexivity.
Qed.

(** C8, as the code has it.  Of the requests that arrive at the switch:
    a [hiring_impact] request whose [annualSalary] is absent or falsy (0,
    the empty string, [null], [false]) and a [custom] request whose
    [question] is absent or falsy are answered 400 with their own message
    before any request is sent to the model and before anything is saved;
    with a truthy parameter they go the way of every other kind, through
    their generator and [saveAndRespond]. *)
Theorem parameter_validation (env : Env) (requestBody : jsval) (user : User)
    (financialData : FinancialData) :
  reachesSwitch env requestBody user financialData ->
  let kind := prop requestBody "insightType" in
  let params := prop requestBody "params" in
  let w := mkWorld financialData [] in
  (strict_eq_string kind "hiring_impact" = true ->
   (truthy (get_opt params "annualSalary") = false ->
    POST env (Fulfilled requestBody)
    = (mkResponse 400 (ErrorBody "Annual salary required for hiring impact"),
       mkTrace [] [] []))
   /\ (truthy (get_opt params "annualSalary") = true ->
       POST env (Fulfilled requestBody)
       = saveAndRespond env user
           (generateHiringImpact (fmt env) (create env)
                                 (get_opt params "annualSalary") w)))
  /\ (strict_eq_string kind "custom" = true ->
      (truthy (get_opt params "question") = false ->
       POST env (Fulfilled requestBody)
       = (mkResponse 400 (ErrorBody "Question required for custom insight"),
          mkTrace [] [] []))
      /\ (truthy (get_opt params "question") = true ->
          POST env (Fulfilled requestBody)
          = saveAndRespond env user
              (generateCustomInsight (fmt env) (create env)
                                     (get_opt params "question") w)))
  /\ (strict_eq_string kind "cash_runway" = true ->
      POST env (Fulfilled requestBody)
      = saveAndRespond env user (generateCashRunway (fmt env) (create env) w)).
Proof.
  intros Hreach kind params w.
  rewrite (POST_reaches_switch env requestBody user financialData Hreach).
  fold kind. fold params. unfold switchInsightType. fold w.
  split; [| split]; intros Hkind; apply strict_eq_string_true in Hkind;
    rewrite Hkind; cbn [strict_eq_string String.eqb Ascii.eqb Bool.eqb andb].
  - split; intros Hsalary; rewrite Hsalary; cbn [negb]; [reflexivity |].
    now rewrite (get_truthy _ _ Hsalary).
  - split; intros Hquestion; rewrite Hquestion; cbn [negb]; [reflexivity |].
    now rewrite (get_truthy _ _ Hquestion).
  - reflexivity.
Qed.

Lemma sample_reaches_switch (create : ChatRequest -> Timed ChatCompletion)
    (requestBody : jsval) :
  nullish requestBody = false ->
  reachesSwitch (sampleEnv create) requestBody sampleUser sampleFinancialData.
Proof.
  intros Hbody. repeat split; [exact Hbody |].
  eexists _, _, _. repeat split.
Qed.

(** A hiring request without a salary is turned away with nothing sent;
    one with a salary of 60000 is answered with its insight. *)
Lemma parameter_validation_witness :
  let env := sampleEnv (answering (Some "ok")) in
  let missing := insightRequest "hiring_impact" [] in
  let given := insightRequest "hiring_impact" [("annualSalary", JNum (num_of_Z 60000))] in
  reachesSwitch env missing sampleUser sampleFinancialData
  /\ reachesSwitch env given sampleUser sampleFinancialData
  /\ POST env (Fulfilled missing)
     = (mkResponse 400 (ErrorBody "Annual salary required for hiring impact"),
        mkTrace [] [] [])
  /\ POST env (Fulfilled given)
     = saveAndRespond env sampleUser
         (generateHiringImpact plainFormatting (answering (Some "ok"))
                               (JNum (num_of_Z 60000))
                               (mkWorld sampleFinancialData [])).
Proof.
  intros env missing given.
  pose proof (sample_reaches_switch (answering (Some "ok")) missing eq_refl) as Hm.
  pose proof (sample_reaches_switch (answering (Some "ok")) given eq_refl) as Hg.
  exact (conj Hm (conj Hg
           (conj (proj1 (proj1 (parameter_validation env missing sampleUser
                                  sampleFinancialData Hm) eq_refl) eq_refl)
                 (proj2 (proj1 (parameter_validation env given sampleUser
                                  sampleFinancialData Hg) eq_refl) eq_refl)))).
Defined.

(** C8, as stated, fails twice over: a salary of 0 is present in the
    request, and the request is turned away as if it were absent; and a
    request without a salary is not answered with the validation error
    when the financial data cannot be fetched, since the handler fetches
    before it validates. *)
Lemma zero_salary_is_turned_away :
  let env := sampleEnv (answering (Some "ok")) in
  let request := insightRequest "hiring_impact" [("annualSalary", JNum zero)] in
  (prop (prop request "params") "annualSalary" = JNum zero
   /\ POST env (Fulfilled request)
      = (mkResponse 400 (ErrorBody "Annual salary required for hiring impact"),
         mkTrace [] [] [])
   /\ status (fst (POST env (Fulfilled (insightRequest "cash_runway" []))))
      = 200%nat)
  /\ fst (POST (offlineEnv (answering (Some "ok")))
               (Fulfilled (insightRequest "hiring_impact" [])))
     = mkResponse 500 (ErrorBody "Failed to generate insights").
Proof. repeat split. Qed.

(** A model that fails turns the whole request into a 500. *)
Example model_failure_answers_500 :
  POST (sampleEnv (failing rateLimited))
       (Fulfilled (insightRequest "cash_runway" []))
  = failed (sent (snd (generateCashRunway plainFormatting (failing rateLimited)
                                          (mkWorld sampleFinancialData [])))).
Proof. reflexivity. Qed.

(** A salary or a question that cannot be converted throws before the
    model is called: the handler answers 500 and nothing was sent. *)
Example unconvertible_parameter_answers_500 :
  let env := sampleEnv (answering (Some "ok")) in
  let odd := JObj [("toString", JNum (num_of_Z 1)); ("valueOf", JNum (num_of_Z 1))] in
  POST env (Fulfilled (insightRequest "hiring_impact" [("annualSalary", odd)]))
  = failed []
  /\ POST env (Fulfilled (insightRequest "custom" [("question", odd)])) = failed [].
Proof. split; reflexivity. Qed.

(* ================================================================== *)
(** ** Further properties *)

(** *** The batch of standard insights *)

Lemma batch_is_promiseAll (fmt : Formatting)
    (create : ChatRequest -> Timed ChatCompletion) (w : World) :
  fst (generateAllInsights fmt create w) = promiseAll (batchPromises fmt create w).
Proof. reflexivity. Qed.

Lemma batch_sends_three (fmt : Formatting)
    (create : ChatRequest -> Timed ChatCompletion) (w : World) :
  List.length (sent (snd (generateAllInsights fmt create w)))
  = (List.length (sent w) + 3)%nat.
Proof.
  unfold generateAllInsights, generateCashRunway, generateBurnRate,
    generateProfitMargin, send.
  cbn [snd sent]. rewrite !length_app. cbn [List.length]. lia.
Qed.

Lemma promiseAll_rejected {A} (ps : list (Timed A)) (failed : Timed A) (e0 : Error) :
  In failed ps -> outcome failed = Rejected e0 ->
  exists e, outcome (promiseAll ps) = Rejected e /\ firstFailure ps e.
Proof.
  intros Hin Hfailed.
  destruct (promiseAll_rejects ps (fun l => Fulfilled l) failed e0 Hin Hfailed)
    as (e & He & Hfirst).
  exists e. split; [| exact Hfirst].
  unfold andThen in He. cbn [outcome] in He.
  destruct (outcome (promiseAll ps)); [discriminate He | exact He].
Qed.

(** X1.  A batch that is fulfilled holds exactly three insights, in the
    order cash runway, burn rate, profit margin whatever the order in which
    the model answered, all three computed from the same metrics; three
    requests went to the model. *)
Theorem batch_in_order (fmt : Formatting)
    (create : ChatRequest -> Timed ChatCompletion) (w : World)
    (insights : list Insight) :
  outcome (fst (generateAllInsights fmt create w)) = Fulfilled insights ->
  let m := metricsObj w in
  (exists runwayText burnText marginText,
      insights
      = [mkInsight "cash_runway" (JStr "Cash Runway") runwayText (runwayPayload m);
         mkInsight "burn_rate" (JStr "Monthly Spending") burnText (burnPayload m);
         mkInsight "profit_margin" (JStr "Profit Margin") marginText
                   (marginPayload m)])
  /\ List.length (sent (snd (generateAllInsights fmt create w)))
     = (List.length (sent w) + 3)%nat.
Proof.
  intros H m. split; [| apply batch_sends_three].
  rewrite batch_is_promiseAll in H. unfold promiseAll, batchPromises in H.
  cbn [firstRejection fulfilledValues] in H.
  destruct (outcome (fst (generateCashRunway fmt create w))) as [i1 | e1] eqn:E1;
    destruct (outcome (fst (generateBurnRate fmt create w))) as [i2 | e2] eqn:E2;
    destruct (outcome (fst (generateProfitMargin fmt create w))) as [i3 | e3] eqn:E3;
    cbn [outcome] in H;
    try (repeat match type of H with
                | context [if ?c then _ else _] => destruct c
                end; discriminate H).
  injection H as <-.
  unfold generateCashRunway in E1. unfold generateBurnRate in E2.
  unfold generateProfitMargin in E3. cbn [fst] in E1, E2, E3.
  apply narrated_insight in E1 as (r1 & t1 & _ & _ & ->).
  apply narrated_insight in E2 as (r2 & t2 & _ & _ & ->).
  apply narrated_insight in E3 as (r3 & t3 & _ & _ & ->).
  now exists t1, t2, t3.
Qed.

Lemma batch_in_order_witness :
  let w := sampleWorld 50000 15000 20000 in
  outcome (fst (generateAllInsights plainFormatting (answering (Some "ok")) w))
  = Fulfilled sampleBatch
  /\ (exists runwayText burnText marginText,
         sampleBatch
         = [mkInsight "cash_runway" (JStr "Cash Runway") runwayText
                      (runwayPayload (metricsObj w));
            mkInsight "burn_rate" (JStr "Monthly Spending") burnText
                      (burnPayload (metricsObj w));
            mkInsight "profit_margin" (JStr "Profit Margin") marginText
                      (marginPayload (metricsObj w))])
  /\ List.length
       (sent (snd (generateAllInsights plainFormatting (answering (Some "ok")) w)))
     = (List.length (sent w) + 3)%nat.
Proof.
  intros w.
  assert (H : outcome (fst (generateAllInsights plainFormatting
                                                (answering (Some "ok")) w))
              = Fulfilled sampleBatch) by (vm_compute; reflexivity).
  exact (conj H (batch_in_order plainFormatting (answering (Some "ok")) w
                                sampleBatch H)).
Defined.

(** X2.  When one of the three calls of a batch fails, the batch fails
    with the error of the first call to fail and returns no insight at
    all; the three requests were sent all the same. *)
Theorem batch_fails_as_a_whole (fmt : Formatting)
    (create : ChatRequest -> Timed ChatCompletion) (w : World)
    (failed : Timed Insight) (e0 : Error) :
  In failed (batchPromises fmt create w) ->
  outcome failed = Rejected e0 ->
  exists e,
    outcome (fst (generateAllInsights fmt create w)) = Rejected e
    /\ firstFailure (batchPromises fmt create w) e
    /\ List.length (sent (snd (generateAllInsights fmt create w)))
       = (List.length (sent w) + 3)%nat.
Proof.
  intros Hin Hfailed. rewrite batch_is_promiseAll.
  destruct (promiseAll_rejected _ failed e0 Hin Hfailed) as (e & He & Hfirst).
  exists e. repeat split; [exact He | exact Hfirst | apply batch_sends_three].
Qed.

Lemma batch_fails_as_a_whole_witness :
  let w := sampleWorld 50000 15000 20000 in
  let create := failing rateLimited in
  let failed := mkTimed 1 (Rejected rateLimited) in
  In failed (batchPromises plainFormatting create w)
  /\ outcome failed = Rejected rateLimited
  /\ exists e,
       outcome (fst (generateAllInsights plainFormatting create w)) = Rejected e
       /\ firstFailure (batchPromises plainFormatting create w) e
       /\ List.length (sent (snd (generateAllInsights plainFormatting create w)))
          = (List.length (sent w) + 3)%nat.
Proof.
  intros w create failed.
  assert (Hin : In failed (batchPromises plainFormatting create w))
    by (left; reflexivity).
  exact (conj Hin (conj eq_refl
           (batch_fails_as_a_whole plainFormatting create w failed rateLimited
                                   Hin eq_refl))).
Defined.

(** *** The derived figures *)

Lemma ngt_zero_of_positive (q : Q) : (0 < q)%Q -> ngt (Fin q) zero = true.
Proof.
  intros H. unfold ngt, zero. apply negb_true_iff.
  destruct (Qle_bool q 0) eqn:E; [| reflexivity].
  apply Qle_bool_iff in E. exfalso. apply (Qlt_irrefl 0).
  now apply Qlt_le_trans with q.
Qed.

Lemma runwayRule_burning (c b : Q) :
  (0 < b)%Q -> runwayRule (Fin c) (Fin b) = num_of_Z (Qfloor (c / b)).
Proof.
  intros Hb. unfold runwayRule. rewrite (ngt_zero_of_positive b Hb).
  unfold ndiv. rewrite (Qzero_false_of_positive b Hb). unfold fin, nfloor.
  f_equal. apply Qfloor_comp. apply Qred_correct.
Qed.

(** More burn, less runway, for a balance that is not negative. *)
Lemma runway_antitone (c b b' : Q) :
  (0 <= c)%Q -> (0 < b)%Q -> (b <= b')%Q ->
  nle (runwayRule (Fin c) (Fin b')) (runwayRule (Fin c) (Fin b)) = true.
Proof.
  intros Hc Hb Hbb'.
  assert (Hb' : (0 < b')%Q) by (now apply Qlt_le_trans with b).
  rewrite (runwayRule_burning c b Hb), (runwayRule_burning c b' Hb').
  apply nle_of_Z. apply Qfloor_resp_le.
  apply Qle_shift_div_l; [exact Hb |].
  assert (Hnz : ~ (b' == 0)%Q)
    by (intros E; rewrite E in Hb'; now apply Qlt_irrefl in Hb').
  assert (Hq : (0 <= c / b')%Q).
  { apply Qle_shift_div_l; [exact Hb' |]. now rewrite Qmult_0_l. }
  rewrite Qmult_comm. apply Qle_trans with (b' * (c / b'))%Q.
  - apply Qmult_le_compat_r; assumption.
  - rewrite Qmult_div_r by exact Hnz. apply Qle_refl.
Qed.

Lemma positive_margin_no_burn (rev exp : number) :
  ngt (if ngt rev zero
       then nmul (ndiv (nsub rev exp) rev) (num_of_Z 100)
       else zero) zero = true ->
  ngt (nsub exp rev) zero = false.
Proof.
  destruct (ngt rev zero) eqn:Hrev; [| discriminate].
  destruct rev as [| | | r]; try discriminate.
  - destruct exp; discriminate.
  - apply ngt_zero_positive in Hrev.
    assert (Hneg : Qnegative r = false).
    { unfold Qnegative. apply Z.ltb_ge. unfold Qlt in Hrev. simpl in Hrev. lia. }
    destruct exp as [| | | x]; try discriminate; try reflexivity.
    + unfold nsub, ndiv. rewrite Hneg. discriminate.
    + unfold nsub, ndiv. rewrite (Qzero_false_of_positive r Hrev).
      unfold nmul, num_of_Z, fin. intros H. apply ngt_zero_positive in H.
      rewrite !Qred_correct in H.
      unfold ngt, zero. apply negb_false_iff. apply Qle_bool_iff.
      rewrite Qred_correct.
      destruct (Qlt_le_dec r x) as [Hlt | Hle].
      * exfalso. apply (Qlt_irrefl 0). apply Qlt_le_trans with (1 := H).
        assert (Hq : ((r - x) / r <= 0)%Q).
        { apply Qle_shift_div_r; [exact Hrev |]. rewrite Qmult_0_l.
          apply Qlt_le_weak in Hlt.
          apply (Qplus_le_l _ _ x). ring_simplify. exact Hlt. }
        rewrite <- (Qmult_0_l (inject_Z 100)).
        apply Qmult_le_compat_r; [exact Hq | discriminate].
      * apply (Qplus_le_l _ _ r). ring_simplify. exact Hle.
Qed.

(** X3.  For a business that burns cash and is not overdrawn, a hire at a
    salary that is not negative never lengthens the runway: the new runway
    of the hiring-impact insight is at most its current runway. *)
Theorem hiring_never_lengthens_runway (fmt : Formatting)
    (create : ChatRequest -> Timed ChatCompletion) (annualSalary : jsval)
    (w : World) (ins : Insight) (cash expenses revenue salary : Q) :
  outcome (fst (generateHiringImpact fmt create annualSalary w)) = Fulfilled ins ->
  cashBalance (metricsObj w) = Fin cash ->
  monthlyExpenses (metricsObj w) = Fin expenses ->
  monthlyRevenue (metricsObj w) = Fin revenue ->
  ToNumber annualSalary = Fin salary ->
  (0 <= cash)%Q -> (0 <= salary)%Q -> (revenue < expenses)%Q ->
  exists currentRunway newRunway monthlyCost newExpenses,
    data ins = HiringImpactData currentRunway newRunway annualSalary monthlyCost
                                (Fin expenses) newExpenses
    /\ nle newRunway currentRunway = true.
Proof.
  intros H Hcash Hexp Hrev Hsalary Hc Hs Hburn.
  apply hiringImpact_insight in H. cbv zeta in H.
  rewrite Hcash, Hexp, Hrev, Hsalary in H.
  eexists _, _, _, _. split; [exact H |].
  assert (Hcost : ndiv (Fin salary) (num_of_Z 12) = Fin (Qred (salary / inject_Z 12)))
    by reflexivity.
  rewrite Hcost. unfold nadd, nsub, fin.
  apply runway_antitone; [exact Hc | |]; rewrite !Qred_correct.
  - apply (Qplus_lt_l _ _ revenue). ring_simplify. exact Hburn.
  - apply (Qplus_le_l _ _ (revenue - expenses)). ring_simplify.
    apply Qle_shift_div_l; [reflexivity |]. now rewrite Qmult_0_l.
Qed.

Lemma hiring_never_lengthens_runway_witness :
  let w := sampleWorld 50000 15000 20000 in
  let create := answering (Some "ok") in
  let salary := JNum (num_of_Z 60000) in
  outcome (fst (generateHiringImpact plainFormatting create salary w))
  = Fulfilled sampleHiringInsight
  /\ (0 <= 50000)%Q /\ (0 <= 60000)%Q /\ (15000 < 20000)%Q
  /\ exists currentRunway newRunway monthlyCost newExpenses,
       data sampleHiringInsight
       = HiringImpactData currentRunway newRunway salary monthlyCost
                          (num_of_Z 20000) newExpenses
       /\ nle newRunway currentRunway = true.
Proof.
  intros w create salary.
  assert (H : outcome (fst (generateHiringImpact plainFormatting create salary w))
              = Fulfilled sampleHiringInsight) by (vm_compute; reflexivity).
  assert (Hc : (0 <= 50000)%Q) by discriminate.
  assert (Hs : (0 <= 60000)%Q) by discriminate.
  assert (Hb : (15000 < 20000)%Q) by reflexivity.
  exact (conj H (conj Hc (conj Hs (conj Hb
           (hiring_never_lengthens_runway plainFormatting create salary w
              sampleHiringInsight 50000 20000 15000 60000
              H eq_refl eq_refl eq_refl eq_refl Hc Hs Hb))))).
Defined.



(** X5.  The insights agree: whenever the profit-margin insight carries a
    positive margin, the cash-runway insight on the same metrics carries
    the sentinel 999. *)
Theorem positive_margin_means_sentinel (fmt : Formatting)
    (create : ChatRequest -> Timed ChatCompletion) (w : World)
    (marginInsight runwayInsight : Insight) (revenue expenses profitMargin : number) :
  outcome (fst (generateProfitMargin fmt create w)) = Fulfilled marginInsight ->
  outcome (fst (generateCashRunway fmt create w)) = Fulfilled runwayInsight ->
  data marginInsight = ProfitMarginData revenue expenses profitMargin ->
  ngt profitMargin zero = true ->
  exists cash netBurn,
    data runwayInsight
    = CashRunwayData cash revenue expenses netBurn (num_of_Z 999).
Proof.
  intros Hm Hr Hdata Hpositive.
  apply profitMargin_insight in Hm. apply cashRunway_insight in Hr.
  cbv zeta in Hm, Hr. rewrite Hm in Hdata. injection Hdata as <- <- <-.
  apply positive_margin_no_burn in Hpositive.
  unfold runwayRule in Hr. rewrite Hpositive in Hr.
  eexists _, _. exact Hr.
Qed.

Lemma positive_margin_means_sentinel_witness :
  let w := sampleWorld 50000 10000 7000 in
  let create := answering (Some "ok") in
  let marginInsight :=
    mkInsight "profit_margin" (JStr "Profit Margin") "ok"
      (ProfitMarginData (num_of_Z 10000) (num_of_Z 7000) (num_of_Z 30)) in
  let runwayInsight :=
    mkInsight "cash_runway" (JStr "Cash Runway") "ok"
      (CashRunwayData (num_of_Z 50000) (num_of_Z 10000) (num_of_Z 7000)
                      (num_of_Z (-3000)) (num_of_Z 999)) in
  outcome (fst (generateProfitMargin plainFormatting create w))
  = Fulfilled marginInsight
  /\ outcome (fst (generateCashRunway plainFormatting create w))
     = Fulfilled runwayInsight
  /\ ngt (num_of_Z 30) zero = true
  /\ exists cash netBurn,
       data runwayInsight
       = CashRunwayData cash (num_of_Z 10000) (num_of_Z 7000) netBurn
                        (num_of_Z 999).
Proof.
  intros w create marginInsight runwayInsight.
  assert (Hm : outcome (fst (generateProfitMargin plainFormatting create w))
               = Fulfilled marginInsight) by (vm_compute; reflexivity).
  assert (Hr : outcome (fst (generateCashRunway plainFormatting create w))
               = Fulfilled runwayInsight) by (vm_compute; reflexivity).
  exact (conj Hm (conj Hr (conj eq_refl
           (positive_margin_means_sentinel plainFormatting create w marginInsight
              runwayInsight (num_of_Z 10000) (num_of_Z 7000) (num_of_Z 30)
              Hm Hr eq_refl eq_refl)))).
Defined.

(** *** The providers, further *)

Lemma promiseAll_of_fulfilled {A} (ps : list (Timed A)) (values : list A) :
  map outcome ps = map Fulfilled values ->
  outcome (promiseAll ps) = Fulfilled values.
Proof.
  intros H. unfold promiseAll.
  assert (Hboth : firstRejection ps = None /\ fulfilledValues ps = values).
  { revert values H. induction ps as [| p ps IH]; intros [| v values] H;
      try discriminate; [now split |].
    cbn [map] in H. injection H as Hp Hrest.
    destruct (IH values Hrest) as [Hnone Hvalues].
    cbn [firstRejection fulfilledValues]. rewrite Hp, Hnone, Hvalues. now split. }
  destruct Hboth as [-> ->]. reflexivity.
Qed.

Lemma totalCash_not_NaN (bankAccounts : jsval) (n : number) :
  Xero.totalCash bankAccounts = Fulfilled n -> n <> NaN.
Proof.
  unfold Xero.totalCash.
  destruct (get bankAccounts "Accounts") as [accounts | e]; cbn [bind];
    [| discriminate].
  destruct (nullish accounts); [intros H; injection H as <-; discriminate |].
  destruct accounts; try discriminate.
  destruct (Xero.reduceBalances elems zero) as [sum | e]; cbn [bind];
    [| discriminate].
  intros H. injection H as <-.
  destruct sum; cbn [truthy]; try discriminate.
  destruct (negb (Qzero q)); discriminate.
Qed.

(** X6.  The cash balance of a record the Xero client returns is never
    [NaN]: a balance that is not a number counts as 0, and so does a total
    that is no number. *)
Theorem xero_cash_is_never_NaN (fetch : FetchRequest -> Timed HttpResponse)
    (dates : Dates) (accessToken tenantId : string) (record : FinancialData) :
  outcome (Xero.getFinancialData fetch dates accessToken tenantId)
  = Fulfilled record ->
  cashBalance record <> NaN.
Proof.
  unfold Xero.getFinancialData, andThen. cbn [outcome].
  destruct (outcome (promiseAll (Xero.reportFetches fetch dates accessToken tenantId)))
    as [reports | e]; cbn [bind]; [| discriminate].
  destruct (Xero.totalCash (nth 2 reports JUndefined)) as [cash | e] eqn:Hcash;
    cbn [bind]; [| discriminate].
  intros H. injection H as <-. cbn [cashBalance].
  now apply (totalCash_not_NaN _ _ Hcash).
Qed.

Lemma xero_cash_is_never_NaN_witness :
  let record :=
    mkFinancialData (Fin (501 # 2)) (num_of_Z 3500) (num_of_Z 800)
                    revenueExample revenueExample in
  outcome (Xero.getFinancialData xeroUp sampleDates "t" "org") = Fulfilled record
  /\ cashBalance record <> NaN.
Proof.
  intros record.
  assert (H : outcome (Xero.getFinancialData xeroUp sampleDates "t" "org")
              = Fulfilled record) by (vm_compute; reflexivity).
  exact (conj H (xero_cash_is_never_NaN xeroUp sampleDates "t" "org" record H)).
Defined.

Lemma reduceBalances_unreadable (accounts : list jsval) (sum : number) :
  Exists (fun account => nullish account = true) accounts ->
  exists e, Xero.reduceBalances accounts sum = Rejected e /\ errName e = "TypeError".
Proof.
  intros H. revert sum. induction H as [account rest Hnull | account rest _ IH];
    intros sum; cbn [Xero.reduceBalances]; unfold Xero.accountBalance, get.
  - rewrite Hnull. cbn [bind]. eexists; split; reflexivity.
  - destruct (nullish account); cbn [bind]; [eexists; split; reflexivity | apply IH].
Qed.

(** X7.  A Xero build can fail although each of its three fetches
    succeeded: a listing of bank accounts that is [null], whose [Accounts]
    is there without being an array, or in which an account is [null], makes
    it fail with a [TypeError]; this throw is not absorbed. *)
Theorem xero_build_fails_on_unreadable_accounts
    (fetch : FetchRequest -> Timed HttpResponse) (dates : Dates)
    (accessToken tenantId : string) (profitLoss balanceSheet bankAccounts : jsval) :
  map outcome (Xero.reportFetches fetch dates accessToken tenantId)
  = [Fulfilled profitLoss; Fulfilled balanceSheet; Fulfilled bankAccounts] ->
  nullish bankAccounts = true
  \/ (nullish (prop bankAccounts "Accounts") = false
      /\ forall l, prop bankAccounts "Accounts" <> JArr l)
  \/ (exists l, prop bankAccounts "Accounts" = JArr l
                /\ Exists (fun account => nullish account = true) l) ->
  exists e,
    outcome (Xero.getFinancialData fetch dates accessToken tenantId) = Rejected e
    /\ errName e = "TypeError".
Proof.
  intros Hfetched Hshape. unfold Xero.getFinancialData, andThen. cbn [outcome].
  rewrite (promiseAll_of_fulfilled _ [profitLoss; balanceSheet; bankAccounts] Hfetched).
  cbn [bind nth]. unfold Xero.totalCash, get.
  destruct Hshape as [Hnull | [[Hdefined Hother] | (l & Harray & Hbad)]].
  - rewrite Hnull. cbn [bind]. eexists; split; reflexivity.
  - destruct (nullish bankAccounts); cbn [bind]; [eexists; split; reflexivity |].
    rewrite Hdefined.
    destruct (prop bankAccounts "Accounts") as [| | | | | l |] eqn:E;
      cbn [bind]; try (eexists; split; reflexivity).
    now destruct (Hother l).
  - destruct (nullish bankAccounts); cbn [bind]; [eexists; split; reflexivity |].
    rewrite Harray. cbn [nullish].
    destruct (reduceBalances_unreadable l zero Hbad) as (e & -> & He).
    cbn [bind]. now exists e.
Qed.

Lemma xero_build_fails_on_unreadable_accounts_witness :
  let listing :=
    JObj [("Accounts", JArr [JObj [("BankAccountBalance", JStr "10")]; JNull])] in
  map outcome (Xero.reportFetches xeroBrokenAccounts sampleDates "t" "org")
  = [Fulfilled revenueExample; Fulfilled revenueExample; Fulfilled listing]
  /\ (exists l, prop listing "Accounts" = JArr l
                /\ Exists (fun account => nullish account = true) l)
  /\ exists e,
       outcome (Xero.getFinancialData xeroBrokenAccounts sampleDates "t" "org")
       = Rejected e
       /\ errName e = "TypeError".
Proof.
  intros listing.
  assert (Hbad : exists l, prop listing "Accounts" = JArr l
                           /\ Exists (fun account => nullish account = true) l).
  { eexists. split; [reflexivity |]. apply Exists_cons_tl. now apply Exists_cons_hd. }
  exact (conj eq_refl (conj Hbad
           (xero_build_fails_on_unreadable_accounts xeroBrokenAccounts sampleDates
              "t" "org" revenueExample revenueExample listing eq_refl
              (or_intror (or_intror Hbad))))).
Defined.





(** The extractor walks the sections the report holds. *)
Lemma xero_extract_over_sections (report : jsval) (name : string)
    (sections : list jsval) :
  xeroSections report = Fulfilled sections ->
  Xero.extractMetric report name
  = try_catch (Xero.scanSections sections name) zero.
Proof.
  unfold xeroSections, Xero.extractMetric.
  destruct (get report "Reports") as [found |]; cbn [bind]; [| discriminate].
  destruct (Xero.isNumberZero (prop (js_or found (JArr [])) "length")).
  - intros H. injection H as <-. reflexivity.
  - destruct (get_index (js_or found (JArr [])) 0) as [first |]; cbn [bind];
      [| discriminate].
    destruct (get first "Rows") as [rows |]; cbn [bind]; [| discriminate].
    now intros ->.
Qed.

Lemma reportSections_xeroSections (report : jsval) (sections : list jsval) :
  reportSections report = Some sections -> xeroSections report = Fulfilled sections.
Proof.
  unfold reportSections, xeroSections. intros H.
  destruct (nullish report) eqn:Hreport; [discriminate |].
  rewrite (get_defined _ _ Hreport). cbn [bind].
  destruct (prop report "Reports") as [| | | | | reports |]; try discriminate.
  destruct reports as [| first others]; [discriminate |].
  destruct (nullish first) eqn:Hfirst; [discriminate |].
  destruct (prop first "Rows") as [| | | | | l |] eqn:Hrows; try discriminate.
  injection H as ->.
  cbn [js_or truthy prop String.eqb Ascii.eqb Bool.eqb Xero.isNumberZero List.length].
  rewrite length_not_zero. unfold get_index. cbn [nullish elem nth bind].
  rewrite (get_defined _ _ Hfirst). cbn [bind]. rewrite Hrows. reflexivity.
Qed.

Lemma xero_scanSections_pass (name : string) (section : jsval) (rest : list jsval) :
  passedSection name section ->
  Xero.scanSections (section :: rest) name = Xero.scanSections rest name.
Proof.
  intros [Hsection Hpass]. cbn [Xero.scanSections].
  rewrite (get_defined _ _ Hsection). cbn [bind].
  destruct Hpass as [-> | ->]; [reflexivity | now rewrite andb_false_r].
Qed.

Lemma xero_scanSections_none (name : string) (sections : list jsval) :
  Forall (fun s => strict_eq_string (prop s "Title") name = false) sections ->
  try_catch (Xero.scanSections sections name) zero = zero.
Proof.
  induction 1 as [| s sections Hs _ IH]; [reflexivity |].
  cbn [Xero.scanSections]. unfold get.
  destruct (nullish s); [reflexivity |]. cbn [bind]. now rewrite Hs.
Qed.

(** X10.  [Xero.extractMetric] returns exactly 0 on every report, of any
    shape, that has no section titled with the target: no report at all,
    an empty list of reports, or sections with other titles. *)
Theorem xero_untitled_extracts_zero (report : jsval) (name : string) :
  (forall sections,
      xeroSections report = Fulfilled sections ->
      Forall (fun s => strict_eq_string (prop s "Title") name = false) sections) ->
  Xero.extractMetric report name = zero.
Proof.
  intros Hnone.
  destruct (xeroSections report) as [sections | e] eqn:Hsections.
  - rewrite (xero_extract_over_sections report name sections Hsections).
    apply xero_scanSections_none. now apply Hnone.
  - revert Hsections. unfold xeroSections, Xero.extractMetric.
    destruct (get report "Reports") as [found |]; cbn [bind]; [| reflexivity].
    destruct (Xero.isNumberZero (prop (js_or found (JArr [])) "length"));
      [discriminate |].
    destruct (get_index (js_or found (JArr [])) 0) as [first |]; cbn [bind];
      [| reflexivity].
    destruct (get first "Rows") as [rows |]; cbn [bind]; [| reflexivity].
    now intros ->.
Qed.

Lemma xero_untitled_extracts_zero_witness :
  (forall sections,
      xeroSections revenueExample = Fulfilled sections ->
      Forall (fun s => strict_eq_string (prop s "Title") "Income" = false) sections)
  /\ Xero.extractMetric revenueExample "Income" = zero
  /\ Xero.extractMetric (JObj [("Reports", JArr [])]) "Revenue" = zero
  /\ Xero.extractMetric (JObj []) "Revenue" = zero.
Proof.
  assert (H : forall sections,
             xeroSections revenueExample = Fulfilled sections ->
             Forall (fun s => strict_eq_string (prop s "Title") "Income" = false)
                    sections).
  { intros sections Hs. injection Hs as <-. repeat constructor. }
  split; [exact H |]. split; [| split].
  - exact (xero_untitled_extracts_zero revenueExample "Income" H).
  - apply xero_untitled_extracts_zero. intros sections Hs.
    injection Hs as <-. constructor.
  - apply xero_untitled_extracts_zero. intros sections Hs.
    injection Hs as <-. constructor.
Defined.

Lemma sumRows_unreadable (rows : list jsval) :
  Exists (fun row => nullish row = true) rows ->
  forall total, exists e, Xero.sumRows rows total = Rejected e.
Proof.
  induction 1 as [row rest Hnull | row rest _ IH]; intros total;
    cbn [Xero.sumRows]; unfold get at 1.
  - rewrite Hnull. cbn [bind]. now eexists.
  - destruct (nullish row); cbn [bind]; [now eexists |].
    destruct (truthy (prop row "Cells")); [| apply IH].
    destruct (toNumber (prop (prop row "Cells") "length")) as [cellCount |];
      cbn [bind]; [| now eexists].
    destruct (ngt cellCount (num_of_Z 1)); [| apply IH].
    destruct (get_index (prop row "Cells") 1) as [second |]; cbn [bind];
      [| now eexists].
    destruct (get second "Value") as [value |]; cbn [bind]; [apply IH | now eexists].
Qed.

(** X11.  In the section that [Xero.extractMetric] sums, one row that is
    [null] voids the whole metric: the result is 0, whatever the other
    rows hold. *)
Theorem xero_unreadable_row_voids_section (report : jsval) (name : string)
    (pre : list jsval) (section : jsval) (post rows : list jsval) :
  reportSections report = Some (pre ++ section :: post) ->
  Forall (passedSection name) pre ->
  titledSection name section rows ->
  Exists (fun row => nullish row = true) rows ->
  Xero.extractMetric report name = zero.
Proof.
  intros Hsections Hpre (Hsection & Htitle & Hrows) Hbad.
  rewrite (xero_extract_over_sections report name _
             (reportSections_xeroSections report _ Hsections)).
  clear Hsections. induction Hpre as [| s pre Hs _ IH]; cbn [app].
  - cbn [Xero.scanSections]. rewrite (get_defined _ _ Hsection). cbn [bind].
    rewrite Htitle, Hrows. cbn [truthy andb iterate bind].
    now destruct (sumRows_unreadable rows Hbad zero) as [e ->].
  - rewrite (xero_scanSections_pass name s _ Hs). exact IH.
Qed.

Lemma xero_unreadable_row_voids_section_witness :
  let rows := [xeroRow "Sales" "1000"; JNull; xeroRow "Other" "500"] in
  let section := xeroSection "Revenue" rows in
  let bare := JObj [("Title", JStr "Revenue")] in
  reportSections (xeroReport [bare; section]) = Some ([bare] ++ section :: [])
  /\ Forall (passedSection "Revenue") [bare]
  /\ titledSection "Revenue" section rows
  /\ Exists (fun row => nullish row = true) rows
  /\ Xero.extractMetric (xeroReport [bare; section]) "Revenue" = zero.
Proof.
  intros rows section bare.
  assert (Hpre : Forall (passedSection "Revenue") [bare])
    by (apply Forall_cons; [split; [reflexivity | now right] | constructor]).
  assert (Hsection : titledSection "Revenue" section rows) by (repeat split).
  assert (Hbad : Exists (fun row => nullish row = true) rows)
    by (apply Exists_cons_tl; now apply Exists_cons_hd).
  exact (conj eq_refl (conj Hpre (conj Hsection (conj Hbad
           (xero_unreadable_row_voids_section (xeroReport [bare; section]) "Revenue"
              [bare] section [] rows eq_refl Hpre Hsection Hbad))))).
Defined.



(** *** The handler, further *)





Lemma saveAndRespond_observable (env : Env) (user : User)
    (insert1 insert2 : InsertRow -> option Error) (run : Timed Insight * World) :
  observable (saveAndRespond (withInsert env insert1) user run)
  = observable (saveAndRespond (withInsert env insert2) user run).
Proof.
  unfold saveAndRespond, observable. destruct run as [pending w].
  now destruct (outcome pending).
Qed.

(** X14.  A failed save is swallowed: the response, the requests sent to
    the model and the rows handed to the database are the same whether the
    inserts succeed or fail. *)
Theorem save_failure_is_swallowed (env : Env)
    (insert1 insert2 : InsertRow -> option Error) (requestJson : Settled jsval) :
  observable (POST (withInsert env insert1) requestJson)
  = observable (POST (withInsert env insert2) requestJson).
Proof.
  unfold POST, fetchFinancialData.
  cbn [withInsert createClient getUser selectConnections fetch quickbooksBaseUrl
       dates].
  destruct (createClient env); [| reflexivity].
  destruct (getUser env) as [[[user |] [authError |]] | e]; try reflexivity.
  destruct requestJson as [requestBody | e]; [| reflexivity].
  destruct (get requestBody "insightType") as [insightType | e]; [| reflexivity].
  destruct (get requestBody "params") as [params | e]; [| reflexivity].
  destruct (selectConnections env (id user))
    as [[[[| connection others] |] [connError |]] | e]; try reflexivity.
  match goal with
  | |- context [match ?f with Some _ => _ | None => _ end] => destruct f as [pending |]
  end; [| reflexivity].
  destruct (outcome pending) as [financialData | e]; [| reflexivity].
  unfold switchInsightType. cbn [withInsert fmt create].
  repeat match goal with
         | |- context [if ?c then _ else _] => destruct c
         | |- context [match get ?v ?k with _ => _ end] => destruct (get v k)
         end;
    try apply saveAndRespond_observable; reflexivity.
Qed.

(** X15.  Only the first connection of a user counts: the handler does
    what it would do if the user had no other. *)
Theorem only_the_first_connection_counts (env : Env) (requestJson : Settled jsval) :
  POST (withConnections env (firstConnectionOnly (selectConnections env)))
       requestJson
  = POST env requestJson.
Proof.
  unfold POST, fetchFinancialData, firstConnectionOnly.
  cbn [withConnections createClient getUser selectConnections fetch
       quickbooksBaseUrl dates].
  destruct (createClient env); [| reflexivity].
  destruct (getUser env) as [[[user |] [authError |]] | e]; try reflexivity.
  destruct requestJson as [requestBody | e]; [| reflexivity].
  destruct (get requestBody "insightType") as [insightType | e]; [| reflexivity].
  destruct (get requestBody "params") as [params | e]; [| reflexivity].
  destruct (selectConnections env (id user))
    as [[[[| connection others] |] [connError |]] | e]; reflexivity.
Qed.

(** X16.  A request that arrives at the switch with an [insightType]
    that is none of the six known strings (a missing one, or an array or
    number in place of the string) is answered 400 Invalid insight type;
    nothing is sent to the model and nothing is saved. *)
Theorem unknown_insight_type_is_refused (env : Env) (requestBody : jsval)
    (user : User) (financialData : FinancialData) :
  reachesSwitch env requestBody user financialData ->
  Forall (fun known => strict_eq_string (prop requestBody "insightType") known = false)
         knownInsightTypes ->
  POST env (Fulfilled requestBody)
  = (mkResponse 400 (ErrorBody "Invalid insight type"), mkTrace [] [] []).
Proof.
  intros Hreach Hunknown.
  rewrite (POST_reaches_switch env requestBody user financialData Hreach).
  unfold knownInsightTypes in Hunknown.
  repeat match goal with
         | H : Forall _ (_ :: _) |- _ =>
             apply Forall_cons_iff in H; destruct H as [? H]
         end.
  unfold switchInsightType.
  repeat match goal with
         | H : strict_eq_string _ _ = false |- _ => rewrite H; clear H
         end.
  reflexivity.
Qed.

Lemma unknown_insight_type_is_refused_witness :
  let env := sampleEnv (answering (Some "ok")) in
  let request := JObj [("insightType", JArr [JStr "all"])] in
  reachesSwitch env request sampleUser sampleFinancialData
  /\ Forall (fun known => strict_eq_string (prop request "insightType") known = false)
            knownInsightTypes
  /\ POST env (Fulfilled request)
     = (mkResponse 400 (ErrorBody "Invalid insight type"), mkTrace [] [] []).
Proof.
  intros env request.
  pose proof (sample_reaches_switch (answering (Some "ok")) request eq_refl) as Hr.
  assert (Hu : Forall (fun known =>
                         strict_eq_string (prop request "insightType") known = false)
                      knownInsightTypes) by (repeat constructor).
  exact (conj Hr (conj Hu
           (unknown_insight_type_is_refused env request sampleUser
                                            sampleFinancialData Hr Hu))).
Defined.

(* ------------------------------------------------------------------ *)
(** *** Connecting a provider *)

Lemma occurs_app sep a b : occurs sep (a ++ b) = occurs sep a || occurs sep b.
Proof.
  induction a as [|c a IH]; cbn; [reflexivity|].
  now rewrite IH, orb_assoc.
Qed.

Lemma encodeByte_separators c :
  occurs "&" (UrlEncoded.encodeByte c) = false
  /\ occurs "=" (UrlEncoded.encodeByte c) = false.
Proof.
  destruct c as [[] [] [] [] [] [] [] []]; vm_compute; split; reflexivity.
Qed.

Lemma encode_separators s :
  occurs "&" (UrlEncoded.encode s) = false
  /\ occurs "=" (UrlEncoded.encode s) = false.
Proof.
  induction s as [|c s [IHa IHe]]; cbn [UrlEncoded.encode]; [now split|].
  rewrite !occurs_app, IHa, IHe.
  destruct (encodeByte_separators c) as [-> ->]. now split.
Qed.

Lemma decode_encodeByte c rest :
  UrlEncoded.decode (UrlEncoded.encodeByte c ++ rest)
  = String c (UrlEncoded.decode rest).
Proof.
  destruct c as [[] [] [] [] [] [] [] []]; reflexivity.
Qed.

Lemma decode_encode s : UrlEncoded.decode (UrlEncoded.encode s) = s.
Proof.
  induction s as [|c s IH]; cbn [UrlEncoded.encode]; [reflexivity|].
  now rewrite decode_encodeByte, IH.
Qed.

Lemma splitOn_whole sep a : occurs sep a = false -> UrlEncoded.splitOn sep a = [a].
Proof.
  induction a as [|c a IH]; cbn; [reflexivity|].
  intros H. apply orb_false_elim in H as [Hc Ha].
  now rewrite Hc, (IH Ha).
Qed.

Lemma splitOn_first sep a b :
  occurs sep a = false ->
  UrlEncoded.splitOn sep (a ++ String sep b) = a :: UrlEncoded.splitOn sep b.
Proof.
  induction a as [|c a IH]; cbn.
  - intros _. now rewrite Ascii.eqb_refl.
  - intros H. apply orb_false_elim in H as [Hc Ha].
    now rewrite Hc, (IH Ha).
Qed.

Lemma cutAtEquals_first a b :
  occurs "=" a = false -> UrlEncoded.cutAtEquals (a ++ String "=" b) = (a, b).
Proof.
  induction a as [|c a IH]; cbn.
  - reflexivity.
  - intros H. apply orb_false_elim in H as [Hc Ha].
    now rewrite Hc, (IH Ha).
Qed.


Lemma piece_separator pair : occurs "&" (piece pair) = false.
Proof.
  unfold piece. rewrite !occurs_app.
  destruct (encode_separators (fst pair)) as [-> _].
  destruct (encode_separators (snd pair)) as [-> _]. reflexivity.
Qed.

Lemma parse_piece pair rest :
  flat_map (fun piece =>
              match piece with
              | EmptyString => []
              | _ => let '(name, value) := UrlEncoded.cutAtEquals piece in
                     [(UrlEncoded.decode name, UrlEncoded.decode value)]
              end) (piece pair :: rest)
  = pair :: flat_map (fun piece =>
              match piece with
              | EmptyString => []
              | _ => let '(name, value) := UrlEncoded.cutAtEquals piece in
                     [(UrlEncoded.decode name, UrlEncoded.decode value)]
              end) rest.
Proof.
  cbn [flat_map]. 
  assert (Hcut : UrlEncoded.cutAtEquals (piece pair)
                 = (UrlEncoded.encode (fst pair), UrlEncoded.encode (snd pair))).
  { unfold piece. cbn [append]. apply cutAtEquals_first, encode_separators. }
  destruct (piece pair) as [|c p] eqn:Hp.
  - unfold piece in Hp. destruct (UrlEncoded.encode (fst pair)); discriminate Hp.
  - rewrite Hcut, !decode_encode. now destruct pair.
Qed.

Lemma parse_serialize (pairs : list (string * string)) :
  UrlEncoded.parse (UrlEncoded.serialize pairs) = pairs.
Proof.
  unfold UrlEncoded.parse, UrlEncoded.serialize. fold piece.
  change (map (fun pair => (UrlEncoded.encode (fst pair) ++ "="
                            ++ UrlEncoded.encode (snd pair))%string) pairs)
    with (map piece pairs).
  induction pairs as [|pair pairs IH]; [reflexivity|].
  destruct pairs as [|next pairs].
  - cbn [map String.concat].
    rewrite (splitOn_whole _ _ (piece_separator pair)).
    rewrite parse_piece. reflexivity.
  - cbn [map String.concat] in *.
    change (piece pair ++ "&" ++ ?t)%string with (piece pair ++ String "&" t)%string.
    rewrite (splitOn_first _ _ _ (piece_separator pair)).
    rewrite parse_piece. now rewrite IH.
Qed.

Lemma missing_false s : OAuth.missing s = false -> exists t, s = Some t /\ t <> "".
Proof.
  destruct s as [t|]; cbn; [|discriminate].
  intros H. exists t. split; [reflexivity|].
  intros ->. discriminate H.
Qed.

Lemma differs_false s t : OAuth.differs s t = false -> s = t.
Proof.
  destruct s as [s|], t as [t|]; cbn; try discriminate.
  intros H. apply negb_false_iff, String.eqb_eq in H. now subst.
Qed.

Ltac callback_cases :=
  repeat match goal with
  | |- context [match ?x with _ => _ end] => destruct x eqn:?
  | |- context [if ?b then _ else _] => destruct b eqn:?
  end.

(** X17.  The QuickBooks callback sends an authorization code to the token
    endpoint only when the request carries a non-empty [code] and [state],
    the [qb_oauth_state] cookie holds that very state and a user is signed
    in; and then it sends exactly one exchange, for that code. *)
Theorem quickbooks_exchange_needs_matching_state env request :
  OAuth.exchanges (snd (OAuth.quickbooksCallback env request)) <> [] ->
  exists code state,
    UrlEncoded.searchParamsGet (OAuth.searchParams request) "code" = Some code /\
    UrlEncoded.searchParamsGet (OAuth.searchParams request) "state" = Some state /\
    UrlEncoded.searchParamsGet (OAuth.cookies request) "qb_oauth_state"
    = Some state /\
    code <> "" /\ state <> "" /\
    (exists user, OAuth.getUser env = Fulfilled (Some user, None)) /\
    OAuth.exchanges (snd (OAuth.quickbooksCallback env request))
    = [OAuth.QuickBooks.tokenRequest env code].
Proof.
  unfold OAuth.quickbooksCallback.
  destruct (UrlEncoded.searchParamsGet (OAuth.searchParams request) "code")
    as [code|] eqn:Hcode; [|intros H; now destruct H].
  destruct (UrlEncoded.searchParamsGet (OAuth.searchParams request) "realmId")
    as [realm|] eqn:Hrealm; [|intros H; now destruct H].
  destruct (OAuth.missing (Some code)) eqn:Hmc; [intros H; now destruct H|].
  destruct (OAuth.missing
              (UrlEncoded.searchParamsGet (OAuth.searchParams request) "state"))
    eqn:Hms; [intros H; now destruct H|].
  destruct (OAuth.missing (Some realm)) eqn:Hmr; [intros H; now destruct H|].
  destruct (OAuth.differs _ _) eqn:Hd; [intros H; now destruct H|].
  cbn [orb].
  apply missing_false in Hmc as [c [Hc Hcne]]. injection Hc as <-.
  apply missing_false in Hms as [state [Hs Hsne]].
  apply differs_false in Hd. rewrite Hs in Hd.
  destruct (OAuth.createClient env); [|intros H; now destruct H].
  destruct (OAuth.getUser env) as [[[user|] [e|]]|e] eqn:Huser;
    try (intros H; now destruct H).
  intros _. exists code, state.
  repeat split; try assumption; try (now symmetry); [now exists user|].
  destruct (OAuth.QuickBooks.getTokens env code); [|reflexivity].
  destruct (OAuth.expiresAt env _); [|reflexivity].
  unfold OAuth.store. now destruct (OAuth.upsert env _).
Qed.

Lemma quickbooks_exchange_needs_matching_state_witness :
  OAuth.exchanges
    (snd (OAuth.quickbooksCallback (connectingEnv grantedTokens oneTenant)
                                   sampleCallback)) <> []
  /\ exists code state,
       UrlEncoded.searchParamsGet (OAuth.searchParams sampleCallback) "code"
       = Some code /\
       UrlEncoded.searchParamsGet (OAuth.searchParams sampleCallback) "state"
       = Some state /\
       UrlEncoded.searchParamsGet (OAuth.cookies sampleCallback) "qb_oauth_state"
       = Some state /\
       code <> "" /\ state <> "" /\
       (exists user,
          OAuth.getUser (connectingEnv grantedTokens oneTenant)
          = Fulfilled (Some user, None)) /\
       OAuth.exchanges
         (snd (OAuth.quickbooksCallback (connectingEnv grantedTokens oneTenant)
                                        sampleCallback))
       = [OAuth.QuickBooks.tokenRequest (connectingEnv grantedTokens oneTenant) code].
Proof.
  assert (H : OAuth.exchanges
                (snd (OAuth.quickbooksCallback
                        (connectingEnv grantedTokens oneTenant) sampleCallback))
              <> []) by (vm_compute; discriminate).
  exact (conj H (quickbooks_exchange_needs_matching_state _ _ H)).
Defined.

(** X18.  The Xero callback sends an authorization code to the token
    endpoint only when the request carries a non-empty [code] and [state],
    the [xero_oauth_state] cookie holds that very state and a user is
    signed in; and then it sends exactly one exchange, for that code. *)
Theorem xero_exchange_needs_matching_state env request :
  OAuth.exchanges (snd (OAuth.xeroCallback env request)) <> [] ->
  exists code state,
    UrlEncoded.searchParamsGet (OAuth.searchParams request) "code" = Some code /\
    UrlEncoded.searchParamsGet (OAuth.searchParams request) "state" = Some state /\
    UrlEncoded.searchParamsGet (OAuth.cookies request) "xero_oauth_state"
    = Some state /\
    code <> "" /\ state <> "" /\
    (exists user, OAuth.getUser env = Fulfilled (Some user, None)) /\
    OAuth.exchanges (snd (OAuth.xeroCallback env request))
    = [OAuth.Xero.tokenRequest env code].
Proof.
  unfold OAuth.xeroCallback.
  destruct (UrlEncoded.searchParamsGet (OAuth.searchParams request) "code")
    as [code|] eqn:Hcode; [|intros H; now destruct H].
  destruct (OAuth.missing (Some code)) eqn:Hmc; [intros H; now destruct H|].
  destruct (OAuth.missing
              (UrlEncoded.searchParamsGet (OAuth.searchParams request) "state"))
    eqn:Hms; [intros H; now destruct H|].
  destruct (OAuth.differs _ _) eqn:Hd; [intros H; now destruct H|].
  cbn [orb].
  apply missing_false in Hmc as [c [Hc Hcne]]. injection Hc as <-.
  apply missing_false in Hms as [state [Hs Hsne]].
  apply differs_false in Hd. rewrite Hs in Hd.
  destruct (OAuth.createClient env); [|intros H; now destruct H].
  destruct (OAuth.getUser env) as [[[user|] [e|]]|e] eqn:Huser;
    try (intros H; now destruct H).
  intros _. exists code, state.
  repeat split; try assumption; try (now symmetry); [now exists user|].
  destruct (OAuth.Xero.getTokens env code); [|reflexivity].
  destruct (get _ _); [|reflexivity].
  destruct (OAuth.Xero.getTenants env _); [|reflexivity].
  destruct (get_index _ _); [|reflexivity].
  destruct (negb _); [reflexivity|].
  destruct (OAuth.expiresAt env _); [|reflexivity].
  unfold OAuth.store. now destruct (OAuth.upsert env _).
Qed.

Lemma xero_exchange_needs_matching_state_witness :
  OAuth.exchanges
    (snd (OAuth.xeroCallback (connectingEnv grantedTokens oneTenant)
                             sampleCallback)) <> []
  /\ exists code state,
       UrlEncoded.searchParamsGet (OAuth.searchParams sampleCallback) "code"
       = Some code /\
       UrlEncoded.searchParamsGet (OAuth.searchParams sampleCallback) "state"
       = Some state /\
       UrlEncoded.searchParamsGet (OAuth.cookies sampleCallback) "xero_oauth_state"
       = Some state /\
       code <> "" /\ state <> "" /\
       (exists user,
          OAuth.getUser (connectingEnv grantedTokens oneTenant)
          = Fulfilled (Some user, None)) /\
       OAuth.exchanges
         (snd (OAuth.xeroCallback (connectingEnv grantedTokens oneTenant)
                                  sampleCallback))
       = [OAuth.Xero.tokenRequest (connectingEnv grantedTokens oneTenant) code].
Proof.
  assert (H : OAuth.exchanges
                (snd (OAuth.xeroCallback
                        (connectingEnv grantedTokens oneTenant) sampleCallback))
              <> []) by (vm_compute; discriminate).
  exact (conj H (xero_exchange_needs_matching_state _ _ H)).
Defined.

Lemma expiresAt_fulfilled env expires text :
  OAuth.expiresAt env expires = Fulfilled text ->
  exists t,
    OAuth.timeClip (nadd (num_of_Z (OAuth.now env))
                         (nmul (ToNumber expires) (num_of_Z 1000))) = Some t
    /\ text = OAuth.toISOString env t.
Proof.
  unfold OAuth.expiresAt, toNumber.
  destruct (convertible expires); cbn [bind]; [|discriminate].
  destruct (OAuth.timeClip _) as [t|]; [|discriminate].
  intros H. injection H as <-. now exists t.
Qed.

Lemma store_upserts env row connected cookie exchanged lookups :
  OAuth.upserts (snd (OAuth.store env row connected cookie exchanged lookups)) = [row].
Proof. unfold OAuth.store. now destruct (OAuth.upsert env row). Qed.

(** X19.  Whatever row the QuickBooks callback stores is the only one it
    stores, and it is the signed-in user's: the tokens are those the
    exchange granted, the realm is the [realmId] of the request's URL (not
    the one of the token answer), and the expiry is the valid date
    [expires_in] seconds from now. *)
Theorem quickbooks_stores_the_callers_realm env request row :
  In row (OAuth.upserts (snd (OAuth.quickbooksCallback env request))) ->
  exists user code tokens t,
    OAuth.getUser env = Fulfilled (Some user, None) /\
    UrlEncoded.searchParamsGet (OAuth.searchParams request) "code" = Some code /\
    OAuth.QuickBooks.getTokens env code = Fulfilled tokens /\
    OAuth.timeClip (nadd (num_of_Z (OAuth.now env))
                         (nmul (ToNumber (OAuth.expires_in tokens)) (num_of_Z 1000)))
    = Some t /\
    row = OAuth.mkConnectionRow
            (id user) "quickbooks" (OAuth.access_token tokens)
            (OAuth.refresh_token tokens)
            (UrlEncoded.searchParamsGet (OAuth.searchParams request) "realmId")
            None (OAuth.toISOString env t) /\
    OAuth.upserts (snd (OAuth.quickbooksCallback env request)) = [row].
Proof.
  unfold OAuth.quickbooksCallback.
  destruct (UrlEncoded.searchParamsGet (OAuth.searchParams request) "code")
    as [code|] eqn:Hcode; [|intros []].
  destruct (UrlEncoded.searchParamsGet (OAuth.searchParams request) "realmId")
    as [realm|] eqn:Hrealm; [|intros []].
  destruct (_ || _); [intros []|].
  destruct (OAuth.createClient env); [|intros []].
  destruct (OAuth.getUser env) as [[[user|] [e|]]|e] eqn:Huser; try (intros []).
  destruct (OAuth.QuickBooks.getTokens env code) as [tokens|] eqn:Htokens; [|intros []].
  destruct (OAuth.expiresAt env _) as [text|] eqn:Hexpires; [|intros []].
  rewrite store_upserts. intros [<-|[]].
  apply expiresAt_fulfilled in Hexpires as [t [Hclip ->]].
  exists user, code, tokens, t. repeat split; assumption || reflexivity.
Qed.

Lemma quickbooks_stores_the_callers_realm_witness :
  let env := connectingEnv grantedTokens oneTenant in
  In sampleQuickBooksRow
     (OAuth.upserts (snd (OAuth.quickbooksCallback env sampleCallback)))
  /\ exists user code tokens t,
       OAuth.getUser env = Fulfilled (Some user, None) /\
       UrlEncoded.searchParamsGet (OAuth.searchParams sampleCallback) "code"
       = Some code /\
       OAuth.QuickBooks.getTokens env code = Fulfilled tokens /\
       OAuth.timeClip
         (nadd (num_of_Z (OAuth.now env))
               (nmul (ToNumber (OAuth.expires_in tokens)) (num_of_Z 1000)))
       = Some t /\
       sampleQuickBooksRow
       = OAuth.mkConnectionRow
           (id user) "quickbooks" (OAuth.access_token tokens)
           (OAuth.refresh_token tokens)
           (UrlEncoded.searchParamsGet (OAuth.searchParams sampleCallback) "realmId")
           None (OAuth.toISOString env t) /\
       OAuth.upserts (snd (OAuth.quickbooksCallback env sampleCallback))
       = [sampleQuickBooksRow].
Proof.
  intros env.
  assert (H : In sampleQuickBooksRow
                 (OAuth.upserts
                    (snd (OAuth.quickbooksCallback env sampleCallback))))
    by (vm_compute; left; reflexivity).
  exact (conj H (quickbooks_stores_the_callers_realm _ _ _ H)).
Defined.

(** X20.  Whatever row the Xero callback stores is the only one it stores,
    and it is the signed-in user's: the tokens are those the exchange
    granted, the tenant is the [tenantId] of the first connection Xero
    lists for the access token, which is truthy, and the expiry is the
    valid date [expires_in] seconds from now. *)
Theorem xero_stores_the_first_tenant env request row :
  In row (OAuth.upserts (snd (OAuth.xeroCallback env request))) ->
  exists user code tokens tenants t,
    OAuth.getUser env = Fulfilled (Some user, None) /\
    UrlEncoded.searchParamsGet (OAuth.searchParams request) "code" = Some code /\
    OAuth.Xero.getTokens env code = Fulfilled tokens /\
    OAuth.Xero.getTenants env (prop tokens "access_token") = Fulfilled tenants /\
    truthy (get_opt (elem tenants 0) "tenantId") = true /\
    OAuth.timeClip (nadd (num_of_Z (OAuth.now env))
                         (nmul (ToNumber (prop tokens "expires_in")) (num_of_Z 1000)))
    = Some t /\
    row = OAuth.mkConnectionRow
            (id user) "xero" (prop tokens "access_token")
            (prop tokens "refresh_token") None
            (Some (get_opt (elem tenants 0) "tenantId"))
            (OAuth.toISOString env t) /\
    OAuth.upserts (snd (OAuth.xeroCallback env request)) = [row].
Proof.
  unfold OAuth.xeroCallback.
  destruct (UrlEncoded.searchParamsGet (OAuth.searchParams request) "code")
    as [code|] eqn:Hcode; [|intros []].
  destruct (_ || _); [intros []|].
  destruct (OAuth.createClient env); [|intros []].
  destruct (OAuth.getUser env) as [[[user|] [e|]]|e] eqn:Huser; try (intros []).
  destruct (OAuth.Xero.getTokens env code) as [tokens|] eqn:Htokens; [|intros []].
  unfold get, get_index.
  destruct (nullish tokens) eqn:Hnull; [intros []|].
  destruct (OAuth.Xero.getTenants env _) as [tenants|] eqn:Htenants; [|intros []].
  destruct (nullish tenants); [intros []|].
  destruct (truthy _) eqn:Htruthy; cbn [negb]; [|intros []].
  destruct (OAuth.expiresAt env _) as [text|] eqn:Hexpires; [|intros []].
  rewrite store_upserts. intros [<-|[]].
  apply expiresAt_fulfilled in Hexpires as [t [Hclip ->]].
  exists user, code, tokens, tenants, t. repeat split; assumption || reflexivity.
Qed.




Lemma xero_stores_the_first_tenant_witness :
  let env := connectingEnv grantedTokens oneTenant in
  In sampleXeroRow (OAuth.upserts (snd (OAuth.xeroCallback env sampleCallback)))
  /\ exists user code tokens tenants t,
       OAuth.getUser env = Fulfilled (Some user, None) /\
       UrlEncoded.searchParamsGet (OAuth.searchParams sampleCallback) "code"
       = Some code /\
       OAuth.Xero.getTokens env code = Fulfilled tokens /\
       OAuth.Xero.getTenants env (prop tokens "access_token") = Fulfilled tenants /\
       truthy (get_opt (elem tenants 0) "tenantId") = true /\
       OAuth.timeClip
         (nadd (num_of_Z (OAuth.now env))
               (nmul (ToNumber (prop tokens "expires_in")) (num_of_Z 1000)))
       = Some t /\
       sampleXeroRow
       = OAuth.mkConnectionRow
           (id user) "xero" (prop tokens "access_token")
           (prop tokens "refresh_token") None
           (Some (get_opt (elem tenants 0) "tenantId"))
           (OAuth.toISOString env t) /\
       OAuth.upserts (snd (OAuth.xeroCallback env sampleCallback)) = [sampleXeroRow].
Proof.
  intros env.
  assert (H : In sampleXeroRow
                 (OAuth.upserts (snd (OAuth.xeroCallback env sampleCallback))))
    by (vm_compute; left; reflexivity).
  exact (conj H (xero_stores_the_first_tenant _ _ _ H)).
Defined.

Lemma bounced_untouched env connected cookie location exchanged lookups :
  location <> connected ->
  connectedOrUntouched env connected cookie (OAuth.bounced location exchanged lookups).
Proof. intros H. right. repeat split; [exact H | intros row []]. Qed.

Lemma caught_untouched env connected cookie message location exchanged lookups :
  location <> connected ->
  connectedOrUntouched env connected cookie
                       (OAuth.caught message location exchanged lookups).
Proof. intros H. right. repeat split; [exact H | intros row []]. Qed.

Lemma store_connectedOrUntouched env row connected cookie exchanged lookups :
  connected <> "/dashboard?error=database_error" ->
  connectedOrUntouched env connected cookie
                       (OAuth.store env row connected cookie exchanged lookups).
Proof.
  intros H. unfold OAuth.store.
  destruct (OAuth.upsert env row) as [e|] eqn:Hupsert.
  - right. cbn. repeat split; [congruence|].
    intros stored [<-|[]]. congruence.
  - left. cbn. repeat split. exists row. now split.
Qed.

(** X21.  Each callback ends one of two ways.  Either it redirects to its
    [connected] location, deletes its state cookie and has stored exactly
    one row, which the database accepted; or it redirects elsewhere, leaves
    the state cookie in place and no row it sent was accepted. *)
Theorem state_cookie_outlives_every_failure env request :
  connectedOrUntouched env quickbooksConnected "qb_oauth_state"
                       (OAuth.quickbooksCallback env request)
  /\ connectedOrUntouched env xeroConnected "xero_oauth_state"
                          (OAuth.xeroCallback env request).
Proof.
  split.
  - unfold OAuth.quickbooksCallback.
    repeat match goal with
    | |- connectedOrUntouched _ _ _ (match ?x with _ => _ end) => destruct x
    | |- connectedOrUntouched _ _ _ (if ?b then _ else _) => destruct b
    end;
    (apply bounced_untouched; discriminate)
    || (apply caught_untouched; discriminate)
    || (apply store_connectedOrUntouched; discriminate).
  - unfold OAuth.xeroCallback.
    repeat match goal with
    | |- connectedOrUntouched _ _ _ (match ?x with _ => _ end) => destruct x
    | |- connectedOrUntouched _ _ _ (if ?b then _ else _) => destruct b
    end;
    (apply bounced_untouched; discriminate)
    || (apply caught_untouched; discriminate)
    || (apply store_connectedOrUntouched; discriminate).
Qed.

Lemma timeClip_NaN : OAuth.timeClip NaN = None.
Proof. reflexivity. Qed.

Lemma nadd_NaN a : nadd a NaN = NaN.
Proof. now destruct a. Qed.

Lemma nmul_NaN b : nmul NaN b = NaN.
Proof. reflexivity. Qed.

Lemma expiresAt_unreadable env expires :
  ToNumber expires = NaN ->
  exists e, OAuth.expiresAt env expires = Rejected e.
Proof.
  intros H. unfold OAuth.expiresAt, toNumber.
  destruct (convertible expires); cbn [bind]; [| now eexists].
  rewrite H, nmul_NaN, nadd_NaN, timeClip_NaN. now eexists.
Qed.

(** X22.  A QuickBooks grant whose [expires_in] is not a number (it is
    missing, say) connects nothing: the code has been exchanged, and then
    [toISOString] throws on the invalid date, nothing is stored, the error
    is logged and the browser is sent to [quickbooks_connection_failed]. *)
Theorem quickbooks_unreadable_expiry_stores_nothing env request code tokens :
  OAuth.exchanges (snd (OAuth.quickbooksCallback env request)) <> [] ->
  UrlEncoded.searchParamsGet (OAuth.searchParams request) "code" = Some code ->
  OAuth.QuickBooks.getTokens env code = Fulfilled tokens ->
  ToNumber (OAuth.expires_in tokens) = NaN ->
  OAuth.quickbooksCallback env request
  = (OAuth.mkRedirect "/dashboard?error=quickbooks_connection_failed" [],
     OAuth.mkTrace [OAuth.QuickBooks.tokenRequest env code] [] []
                   ["QuickBooks callback error:"]).
Proof.
  intros Hexchanged Hcode Htokens Hexpires. revert Hexchanged.
  unfold OAuth.quickbooksCallback. rewrite Hcode.
  destruct (UrlEncoded.searchParamsGet (OAuth.searchParams request) "realmId");
    [|intros H; now destruct H].
  destruct (_ || _); [intros H; now destruct H|].
  destruct (OAuth.createClient env); [|intros H; now destruct H].
  destruct (OAuth.getUser env) as [[[user|] [e|]]|e];
    try (intros H; now destruct H).
  intros _. rewrite Htokens.
  destruct (expiresAt_unreadable env _ Hexpires) as [e ->]. reflexivity.
Qed.

Lemma quickbooks_unreadable_expiry_stores_nothing_witness :
  OAuth.quickbooksCallback (connectingEnv openEndedTokens oneTenant) sampleCallback
  = (OAuth.mkRedirect "/dashboard?error=quickbooks_connection_failed" [],
     OAuth.mkTrace
       [OAuth.QuickBooks.tokenRequest (connectingEnv openEndedTokens oneTenant)
                                      "c0de"]
       [] [] ["QuickBooks callback error:"]).
Proof.
  assert (Hexchanged :
            OAuth.exchanges
              (snd (OAuth.quickbooksCallback
                      (connectingEnv openEndedTokens oneTenant) sampleCallback))
            <> []) by (vm_compute; discriminate).
  assert (Hcode : UrlEncoded.searchParamsGet (OAuth.searchParams sampleCallback)
                                             "code" = Some "c0de")
    by reflexivity.
  assert (Htokens :
            OAuth.QuickBooks.getTokens (connectingEnv openEndedTokens oneTenant)
                                       "c0de"
            = Fulfilled (OAuth.mkQuickBooksTokens (JStr "access") (JStr "refresh")
                                                  JUndefined JUndefined JUndefined))
    by reflexivity.
  assert (Hexpires :
            ToNumber (OAuth.expires_in
                        (OAuth.mkQuickBooksTokens (JStr "access") (JStr "refresh")
                                                  JUndefined JUndefined JUndefined))
            = NaN) by reflexivity.
  exact (quickbooks_unreadable_expiry_stores_nothing _ _ _ _
           Hexchanged Hcode Htokens Hexpires).
Defined.

(** X23.  When Xero lists no organisation for the granted token (the first
    connection is missing or has no truthy [tenantId]), the Xero callback
    has spent the code and looked the tenants up, and it stores nothing,
    logs nothing, keeps the state cookie and redirects to
    [no_xero_organization]. *)
Theorem xero_without_organisation_stores_nothing env request code tokens tenants :
  OAuth.exchanges (snd (OAuth.xeroCallback env request)) <> [] ->
  UrlEncoded.searchParamsGet (OAuth.searchParams request) "code" = Some code ->
  OAuth.Xero.getTokens env code = Fulfilled tokens ->
  OAuth.Xero.getTenants env (prop tokens "access_token") = Fulfilled tenants ->
  nullish tokens = false ->
  nullish tenants = false ->
  truthy (get_opt (elem tenants 0) "tenantId") = false ->
  OAuth.xeroCallback env request
  = (OAuth.mkRedirect "/dashboard?error=no_xero_organization" [],
     OAuth.mkTrace [OAuth.Xero.tokenRequest env code]
                   [OAuth.Xero.tenantsRequest env (prop tokens "access_token")]
                   [] []).
Proof.
  intros Hexchanged Hcode Htokens Htenants Hgranted Hlisted Hnone.
  revert Hexchanged.
  unfold OAuth.xeroCallback. rewrite Hcode.
  destruct (_ || _); [intros H; now destruct H|].
  destruct (OAuth.createClient env); [|intros H; now destruct H].
  destruct (OAuth.getUser env) as [[[user|] [e|]]|e];
    try (intros H; now destruct H).
  intros _. rewrite Htokens. unfold get, get_index.
  now rewrite Hgranted, Htenants, Hlisted, Hnone.
Qed.



Lemma xero_without_organisation_stores_nothing_witness :
  OAuth.xeroCallback (connectingEnv grantedTokens (JArr [])) sampleCallback
  = (OAuth.mkRedirect "/dashboard?error=no_xero_organization" [],
     OAuth.mkTrace
       [OAuth.Xero.tokenRequest (connectingEnv grantedTokens (JArr [])) "c0de"]
       [OAuth.Xero.tenantsRequest (connectingEnv grantedTokens (JArr []))
                                  (prop grantedTokens "access_token")]
       [] []).
Proof.
  assert (Hexchanged :
            OAuth.exchanges
              (snd (OAuth.xeroCallback (connectingEnv grantedTokens (JArr []))
                                       sampleCallback))
            <> []) by (vm_compute; discriminate).
  assert (Hcode : UrlEncoded.searchParamsGet (OAuth.searchParams sampleCallback)
                                             "code" = Some "c0de")
    by reflexivity.
  assert (Htokens :
            OAuth.Xero.getTokens (connectingEnv grantedTokens (JArr [])) "c0de"
            = Fulfilled grantedTokens) by reflexivity.
  assert (Htenants :
            OAuth.Xero.getTenants (connectingEnv grantedTokens (JArr []))
                                  (prop grantedTokens "access_token")
            = Fulfilled (JArr [])) by reflexivity.
  assert (Hgranted : nullish grantedTokens = false) by reflexivity.
  assert (Hlisted : nullish (JArr []) = false) by reflexivity.
  assert (Hnone : truthy (get_opt (elem (JArr []) 0) "tenantId") = false)
    by reflexivity.
  exact (xero_without_organisation_stores_nothing _ _ _ _ _
           Hexchanged Hcode Htokens Htenants Hgranted Hlisted Hnone).
Defined.

(** X24.  A query string written by [URLSearchParams] reads back as the
    pairs it was written from, whatever characters the names and values
    hold: the authorization URLs lose nothing of the state, the client id
    or the redirect URI. *)
Theorem query_string_round_trip (pairs : list (string * string)) :
  UrlEncoded.parse (UrlEncoded.serialize pairs) = pairs.
Proof. exact (parse_serialize pairs). Qed.

(** X25.  A connect route that redirects to the provider keeps, in its
    own state cookie, the very value the [state] parameter of the
    authorization URL reads back to; this is what the callback compares.
    So for QuickBooks, and so for Xero. *)
Theorem connect_sends_the_state_it_keeps env :
  (forall location cookie,
     OAuth.quickbooksConnect env = OAuth.ConnectRedirect location (Some cookie) ->
     OAuth.cookieName cookie = "qb_oauth_state"
     /\ exists queryString,
          location = ("https://appcenter.intuit.com/connect/oauth2?" ++ queryString)%string
          /\ UrlEncoded.searchParamsGet (UrlEncoded.parse queryString) "state"
             = Some (OAuth.cookieValue cookie))
  /\ (forall location cookie,
        OAuth.xeroConnect env = OAuth.ConnectRedirect location (Some cookie) ->
        OAuth.cookieName cookie = "xero_oauth_state"
        /\ exists queryString,
             location = ("https://login.xero.com/identity/connect/authorize?"
                         ++ queryString)%string
             /\ UrlEncoded.searchParamsGet (UrlEncoded.parse queryString) "state"
                = Some (OAuth.cookieValue cookie)).
Proof.
  split; intros location cookie;
    unfold OAuth.quickbooksConnect, OAuth.xeroConnect, OAuth.connect;
    destruct (OAuth.createClient env); try discriminate;
    destruct (OAuth.getUser env) as [[[user|] [e|]]|e]; try discriminate;
    intros H; injection H as <- <-; (split; [reflexivity|]);
    eexists; (split; [reflexivity|]);
    rewrite parse_serialize; reflexivity.
Qed.

Lemma connect_sends_the_state_it_keeps_witness :
  exists location cookie,
    OAuth.quickbooksConnect (connectingEnv grantedTokens oneTenant)
    = OAuth.ConnectRedirect location (Some cookie)
    /\ OAuth.cookieName cookie = "qb_oauth_state"
    /\ exists queryString,
         location = ("https://appcenter.intuit.com/connect/oauth2?" ++ queryString)%string
         /\ UrlEncoded.searchParamsGet (UrlEncoded.parse queryString) "state"
            = Some (OAuth.cookieValue cookie).
Proof.
  eexists. eexists.
  assert (H : OAuth.quickbooksConnect (connectingEnv grantedTokens oneTenant)
              = OAuth.ConnectRedirect
                  (OAuth.QuickBooks.getAuthUrl sampleConfig
                     "0b1c2d3e-0000-4000-8000-000000000000")
                  (Some (OAuth.mkCookie "qb_oauth_state"
                           "0b1c2d3e-0000-4000-8000-000000000000" true false
                           "lax" 600))) by reflexivity.
  split; [exact H|].
  exact (proj1 (connect_sends_the_state_it_keeps _) _ _ H).
Defined.
